(** * Telegram webhook handlers: celebration rotation and geofenced hunt

    A shallow embedding of the two Go handlers of the repository:

    - [Celebration] embeds [src/unnamed/part_000] (variant 1): the
      [/start] welcome message and the round-robin celebration button;
    - [Treasure64] embeds [src/another_example.go] (variant 2): the
      allow-list gate, the pass-phrase commands and the geofenced hints
      computed with the haversine [Distance], on float64 coordinates;
    - [Treasure] is the same handler with the coordinates idealised as
      real numbers, for the statements that bound distances;
    - [Json] embeds the scanner with which [encoding/json] finds the
      first value of a request body.

    Conventions of the embedding.

    - Go's [int] is a 64-bit integer, modelled in [Z] with the wrap-around
      written out where the source does arithmetic on it.
    - Go's [float64] is, in [Treasure64], the binary64 number of the
      machine: the arithmetic and the comparisons are those of IEEE 754,
      with their rounding, overflow and NaN.  In [Treasure] it is a real
      number of the Standard Library, and rounding, overflow and NaN are
      not part of that model.
    - A handler is a computation in the monad [Go.Io]: it reads the answers
      of the HTTP transport from an oracle, appends every [log.Printf] and
      every [http.PostForm] to a chronological trace, and either returns or
      panics (Go's run-time panic on an array index out of range).
    - A log line is recorded by its format string; the rendering of its
      arguments is not modelled.
    - [strings.ToLower], package [math], the unmarshalling of a JSON value
      into a struct and the HTTP transport are libraries the source calls
      and does not define: they are parameters.  [strconv.Atoi] and
      [strconv.Itoa] are embedded from the Go standard library, since the
      index of the celebration depends on what they return, and so is the
      scanner of [encoding/json], since it decides which bodies the parser
      refuses. *)

From Stdlib Require Import Floats.
From Stdlib Require Import ZArith List String Ascii Bool Lia.
From Stdlib Require Import Reals Lra Machin Factorial.
From Stdlib Require Import DecimalString DecimalPos.
Import ListNotations.

Set Implicit Arguments.

(** A decimal literal of the source stands for the nearest float64, in Go
    and here. *)
#[global] Set Warnings "-inexact-float".

(* ================================================================== *)
(** * The Go run time the handlers rely on *)
(* ================================================================== *)

Module Go.

Open Scope string_scope.
Open Scope Z_scope.

(** ** Machine integers *)

Definition maxInt : Z := 2 ^ 63 - 1.
Definition maxUint64 : Z := 2 ^ 64 - 1.

(** Two's-complement wrap-around of a 64-bit signed result. *)
Definition wrap (z : Z) : Z := (z + 2 ^ 63) mod 2 ^ 64 - 2 ^ 63.

(** ** Errors *)

Inductive error : Type :=
| ErrSyntax                      (* strconv.ErrSyntax *)
| ErrRange                       (* strconv.ErrRange *)
| errors_New (text : string)     (* errors.New(text) *)
| LibError (text : string).      (* an error of encoding/json, net/http or io *)

(** ** strconv.Itoa *)

Definition Itoa (i : Z) : string := NilZero.string_of_int (Z.to_int i).

(** ** strconv.Atoi, with strconv.ParseInt and strconv.ParseUint *)

Definition is_digit (c : ascii) : bool :=
  ((48 <=? nat_of_ascii c) && (nat_of_ascii c <=? 57))%nat.

Definition digit_value (c : ascii) : Z := Z.of_nat (nat_of_ascii c) - 48.

Definition is_sign (c : ascii) : bool :=
  Ascii.eqb c "-"%char || Ascii.eqb c "+"%char.

(** The fast path of Atoi: [n = n*10 + int(ch)] over the bytes, failing on
    the first byte that is not a decimal digit. *)
Fixpoint atoi_fast_loop (s : string) (n : Z) : option Z :=
  match s with
  | EmptyString => Some n
  | String ch rest =>
      if is_digit ch then atoi_fast_loop rest (n * 10 + digit_value ch)
      else None
  end.

(** The loop of ParseUint at base 10 and bit size 64.  The overflow test
    comes before the next byte is looked at, so a range error is returned
    without reading the bytes that follow. *)
Definition cutoff10 : Z := maxUint64 / 10 + 1.

Fixpoint parseUint_loop (s : string) (n : Z) : Z * option error :=
  match s with
  | EmptyString => (n, None)
  | String c rest =>
      if is_digit c then
        if cutoff10 <=? n then (maxUint64, Some ErrRange)
        else
          let n10 := n * 10 in
          let n1 := (n10 + digit_value c) mod 2 ^ 64 in
          if (n1 <? n10) || (maxUint64 <? n1) then (maxUint64, Some ErrRange)
          else parseUint_loop rest n1
      else (0, Some ErrSyntax)
  end.

Definition ParseUint (s : string) : Z * option error :=
  match s with
  | EmptyString => (0, Some ErrSyntax)
  | _ => parseUint_loop s 0
  end.

Definition ParseInt (s : string) : Z * option error :=
  match s with
  | EmptyString => (0, Some ErrSyntax)
  | String c0 rest =>
      let neg := Ascii.eqb c0 "-"%char in
      let s' := if is_sign c0 then rest else s in
      let '(un, err) := ParseUint s' in
      match err with
      | Some ErrRange | None =>
          let cutoff := 2 ^ 63 in
          if negb neg && (cutoff <=? un) then (cutoff - 1, Some ErrRange)
          else if neg && (cutoff <? un) then (- cutoff, Some ErrRange)
          else
            let n := wrap un in
            let n := if neg then wrap (- n) else n in
            (n, err)
      | Some e => (0, Some e)
      end
  end.

Definition Atoi (s : string) : Z * option error :=
  let sLen := String.length s in
  if ((0 <? sLen) && (sLen <? 19))%nat then
    match s with
    | EmptyString => (0, Some ErrSyntax)
    | String c0 rest =>
        let s' := if is_sign c0 then rest else s in
        match s' with
        | EmptyString => (0, Some ErrSyntax)
        | _ =>
            match atoi_fast_loop s' 0 with
            | None => (0, Some ErrSyntax)
            | Some n => (if Ascii.eqb c0 "-"%char then - n else n, None)
            end
        end
    end
  else ParseInt s.

(** ** Outbound HTTP: url.Values and http.PostForm *)

(** The three endpoints built at load time from the bot token. *)
Inductive Endpoint : Type :=
| telegramApiSend
| telegramApiEdit
| telegramApiSendLocation.

(** One inline keyboard button, [{"text": ..., "callback_data": ...}]. *)
Record Button : Type := { text : string; callback_data : string }.

(** The value of [keyboard]: the rows under the key ["inline_keyboard"]. *)
Definition Keyboard : Type := list (list Button).

(** A form value, before its rendering as text. *)
Inductive FormValue : Type :=
| Str (s : string)
| FormatFloat (x : R)            (* strconv.FormatFloat(x, 'E', -1, 64) *)
| FormatFloat64 (x : float)      (* the same, of a float64 as it is *)
| Marshal (k : Keyboard).        (* string(json.Marshal(keyboard)) *)

Definition Values : Type := list (string * FormValue).

(** What [http.PostForm] hands back: the response, whose body
    [ioutil.ReadAll] reads as the bytes received and an optional read
    error, and the transport error. *)
Record Response : Type := { Body : string; BodyErr : option error }.

Definition ioutil_ReadAll (r : Response) : string * option error :=
  (Body r, BodyErr r).

(** ** Traces and the handler monad *)

Inductive Event : Type :=
| Log (format : string)
| Post (url : Endpoint) (form : Values).

Definition Trace : Type := list Event.

(** The transport oracle: the answer to a POST, given what happened so
    far. *)
Definition Transport : Type :=
  Trace -> Endpoint -> Values -> Response * option error.

Inductive Outcome (A : Type) : Type :=
| Returned (a : A) (tr : Trace)
| Panicked (msg : string) (tr : Trace).

Arguments Panicked {A} msg tr.

Definition Io (A : Type) : Type := Transport -> Trace -> Outcome A.

Definition ret {A} (a : A) : Io A := fun _ tr => Returned a tr.

Definition bind {A B} (m : Io A) (k : A -> Io B) : Io B :=
  fun net tr =>
    match m net tr with
    | Returned a tr' => k a net tr'
    | Panicked msg tr' => Panicked msg tr'
    end.

Definition panic {A} (msg : string) : Io A := fun _ tr => Panicked msg tr.

Definition log_Printf (format : string) : Io unit :=
  fun _ tr => Returned tt (tr ++ [Log format])%list.

Definition http_PostForm (url : Endpoint) (form : Values)
  : Io (Response * option error) :=
  fun net tr => Returned (net tr url form) (tr ++ [Post url form])%list.

(** Indexing a Go array: a run-time panic outside [0, len). *)
Definition index {A} (a : list A) (i : Z) : Io A :=
  if (i <? 0) || (Z.of_nat (List.length a) <=? i) then
    panic "runtime error: index out of range"
  else
    match nth_error a (Z.to_nat i) with
    | Some x => ret x
    | None => panic "runtime error: index out of range"
    end.

(** The trace an outcome ends with, and the POSTs of a trace. *)
Definition trace_of {A} (o : Outcome A) : Trace :=
  match o with
  | Returned _ tr => tr
  | Panicked _ tr => tr
  end.

Definition panicked {A} (o : Outcome A) : bool :=
  match o with
  | Returned _ _ => false
  | Panicked _ _ => true
  end.

(** What a computation handed back, when it returned. *)
Definition returned {A} (o : Outcome A) : option A :=
  match o with
  | Returned a _ => Some a
  | Panicked _ _ => None
  end.

Fixpoint outbound (tr : Trace) : list (Endpoint * Values) :=
  match tr with
  | [] => []
  | Log _ :: rest => outbound rest
  | Post url form :: rest => (url, form) :: outbound rest
  end.

End Go.

Declare Scope io_scope.
Delimit Scope io_scope with io.

Notation "x <- m ;; k" := (Go.bind m (fun x => k))
  (at level 61, m at next level, right associativity) : io_scope.
Notation "' p <- m ;; k" := (Go.bind m (fun x => let p := x in k))
  (at level 61, p pattern, m at next level, right associativity) : io_scope.
Notation "m ;;; k" := (Go.bind m (fun _ => k))
  (at level 61, right associativity) : io_scope.

(* ================================================================== *)
(** * Variant 1: the celebration rotation ([src/unnamed/part_000]) *)
(* ================================================================== *)

Module Celebration.

Import Go.
Open Scope string_scope.
Open Scope Z_scope.
Open Scope io_scope.

(** ** The decoded update *)

Record Audio : Type := { Audio_FileId : string; Audio_Duration : Z }.

Definition Voice : Type := Audio.

Record Document : Type :=
  { Document_FileId : string; Document_FileName : string }.

Record Chat : Type := { Chat_Id : Z }.

Record Message : Type :=
  { Message_Id : Z;
    Message_Text : string;
    Message_Chat : Chat;
    Message_Audio : Audio;
    Message_Voice : Voice;
    Message_Document : Document }.

Record User : Type := { User_Id : Z; User_Username : string }.

Record CallbackQuerry : Type :=
  { CallbackQuerry_Id : string;
    CallbackQuerry_From : User;
    CallbackQuerry_Data : string;
    CallbackQuerry_Message : Message;
    CallbackQuerry_InlineMessageId : string }.

Record Update : Type :=
  { UpdateId : Z;
    Update_Message : Message;
    Update_CallbackQuerry : CallbackQuerry }.

(** Go's zero values: what [var update Update] holds before decoding, and
    what a key absent from the JSON body leaves in place. *)
Definition Audio_zero : Audio := {| Audio_FileId := ""; Audio_Duration := 0 |}.

Definition Document_zero : Document :=
  {| Document_FileId := ""; Document_FileName := "" |}.

Definition Message_zero : Message :=
  {| Message_Id := 0;
     Message_Text := "";
     Message_Chat := {| Chat_Id := 0 |};
     Message_Audio := Audio_zero;
     Message_Voice := Audio_zero;
     Message_Document := Document_zero |}.

Definition CallbackQuerry_zero : CallbackQuerry :=
  {| CallbackQuerry_Id := "";
     CallbackQuerry_From := {| User_Id := 0; User_Username := "" |};
     CallbackQuerry_Data := "";
     CallbackQuerry_Message := Message_zero;
     CallbackQuerry_InlineMessageId := "" |}.

Definition Update_zero : Update :=
  {| UpdateId := 0;
     Update_Message := Message_zero;
     Update_CallbackQuerry := CallbackQuerry_zero |}.

(** ** Static data *)

Definition nl : string := String (ascii_of_nat 10) EmptyString.

Definition CELEBRATIONS : list string :=
  [ "Твой друг: Дрюня" ++ nl
    ++ "На вопрос: Что бы ты приготовил/а Маше на завтрак?" ++ nl
    ++ "Ответил(а): Пельмеши" ].

Definition ALLOWED_USERS : list string :=
  [ "antonhulikau"; "okalitova"; "maffina95" ].

Fixpoint isAllowed_range (users : list string) (e : string) : bool :=
  match users with
  | [] => false
  | a :: rest => if String.eqb a e then true else isAllowed_range rest e
  end.

Definition isAllowed (e : string) : bool := isAllowed_range ALLOWED_USERS e.

(** ** The outbound senders *)

(** The tail shared by the senders, as each of them spells it out: the
    transport error is returned; otherwise the body is read, and both
    after a read error and after a complete read the function returns
    [err], the error of [http.PostForm], which is nil on this path. *)
Definition after_PostForm (r : Response * option error)
  : Io (string * option error) :=
  let '(response, err) := r in
  match err with
  | Some _ =>
      log_Printf "error when posting text to the chat: %s" ;;;
      ret ("", err)
  | None =>
      let '(bodyBytes, errRead) := ioutil_ReadAll response in
      match errRead with
      | Some _ =>
          log_Printf "error in parsing telegram answer %s" ;;;
          ret ("", err)
      | None =>
          let bodyString := bodyBytes in
          log_Printf "Body of Telegram Response: %s" ;;;
          ret (bodyString, None)
      end
  end.

Definition sendStartTextMessage (chatId : Z) (text : string)
  : Io (string * option error) :=
  log_Printf "Sending start message to chat_id: %d" ;;;
  let fo := [ {| Go.text := "Получить поздравление";
                 callback_data := "0" |} ] in
  let keyboard : Keyboard := [ fo ] in
  r <- http_PostForm telegramApiSend
         [ ("chat_id", Str (Itoa chatId));
           ("text", Str text);
           ("reply_markup", Marshal keyboard) ] ;;
  after_PostForm r.

(** Lines 204-207: [p += 1; if p == len(CELEBRATIONS) { p = 0 }], for an
    array of length [len]. *)
Definition next_index (len p : Z) : Z :=
  let p := wrap (p + 1) in
  if p =? len then 0 else p.

Definition sendCelebrateMessage (chatId messageId p : Z)
  : Io (string * option error) :=
  log_Printf "Sending start message to chat_id: %d" ;;;
  text <- index CELEBRATIONS p ;;
  let p := next_index (Z.of_nat (List.length CELEBRATIONS)) p in
  let fo := [ {| Go.text := "Получить поздравление";
                 callback_data := Itoa p |} ] in
  let keyboard : Keyboard := [ fo ] in
  r <- http_PostForm telegramApiEdit
         [ ("chat_id", Str (Itoa chatId));
           ("message_id", Str (Itoa messageId));
           ("text", Str text);
           ("reply_markup", Marshal keyboard) ] ;;
  after_PostForm r.

(** The [if errTelegram != nil ... else ...] that follows a send. *)
Definition log_outcome (errTelegram : option error) : Io unit :=
  match errTelegram with
  | Some _ => log_Printf "got error %s from telegram, response body is %s"
  | None => log_Printf "successfully distributed to chat id %d"
  end.

Section Handler.

(** [json.NewDecoder(r.Body).Decode(&update)]: the struct after decoding
    the body into it, and the decoder's error. *)
Variable json_Decode : string -> Update -> Update * option error.

Definition parseTelegramRequest (body : string)
  : Io (option Update * option error) :=
  let '(update, err) := json_Decode body Update_zero in
  match err with
  | Some _ =>
      log_Printf "could not decode incoming update %s" ;;;
      ret (None, err)
  | None =>
      if UpdateId update =? 0 then
        log_Printf "invalid update id, got update id = 0" ;;;
        ret (None,
             Some (errors_New
               "invalid update id of 0 indicates failure to parse incoming update"))
      else ret (Some update, None)
  end.

(** Lines 131-148: what the handler does with a parsed update. *)
Definition dispatch (update : Update) : Io unit :=
  (if String.eqb (Message_Text (Update_Message update)) "/start" then
     ' (_, errTelegram) <-
       sendStartTextMessage (Chat_Id (Message_Chat (Update_Message update)))
         "Привет, нажимай на кнопку получить поздравление и кайфуй!" ;;
     log_outcome errTelegram
   else if isAllowed
             (User_Username (CallbackQuerry_From (Update_CallbackQuerry update)))
   then
     let '(p, _) := Atoi (CallbackQuerry_Data (Update_CallbackQuerry update)) in
     ' (_, errTelegram) <-
       sendCelebrateMessage
         (Chat_Id (Message_Chat
                     (CallbackQuerry_Message (Update_CallbackQuerry update))))
         (Message_Id (CallbackQuerry_Message (Update_CallbackQuerry update)))
         p ;;
     log_outcome errTelegram
   else ret tt) ;;;
  log_Printf "Update new is %s".

Definition HandleTelegramWebHook (body : string) : Io unit :=
  ' (update, err) <- parseTelegramRequest body ;;
  match err with
  | Some _ => log_Printf "error parsing update, %s"
  | None =>
      match update with
      | Some update => dispatch update
      | None => panic "runtime error: invalid memory address or nil pointer dereference"
      end
  end.

End Handler.

End Celebration.

(* ================================================================== *)
(** * Variant 2: the geofenced treasure hunt ([src/another_example.go]) *)
(* ================================================================== *)

(** The handler with the coordinates as real numbers: [Distance] and the
    two comparisons on coordinates are exact here, where the program
    rounds.  The statements that depend on a comparison of [Distance]
    with the threshold are made on [Treasure64] below, or keep the
    distance away from the threshold by hundreds of meters. *)

Module Treasure.

Import Go.
Open Scope string_scope.
Open Scope Z_scope.
Open Scope io_scope.

Definition ANTON_CHAT_ID : Z := 49208041.

(** ** The decoded update *)

Record Audio : Type := { Audio_FileId : string; Audio_Duration : Z }.

Definition Voice : Type := Audio.

Record Document : Type :=
  { Document_FileId : string; Document_FileName : string }.

Record Chat : Type := { Chat_Id : Z; Chat_Username : string }.

Record Location : Type := { Longitude : R; Latitude : R }.

Record Message : Type :=
  { Message_Id : Z;
    Message_Text : string;
    Message_Chat : Chat;
    Message_Audio : Audio;
    Message_Voice : Voice;
    Message_Document : Document;
    Message_Location : Location }.

Record User : Type := { User_Id : Z; User_Username : string }.

Record CallbackQuerry : Type :=
  { CallbackQuerry_Id : string;
    CallbackQuerry_From : User;
    CallbackQuerry_Data : string;
    CallbackQuerry_Message : Message;
    CallbackQuerry_InlineMessageId : string }.

Record Update : Type :=
  { UpdateId : Z;
    Update_Message : Message;
    Update_CallbackQuerry : CallbackQuerry }.

Definition Audio_zero : Audio := {| Audio_FileId := ""; Audio_Duration := 0 |}.

Definition Document_zero : Document :=
  {| Document_FileId := ""; Document_FileName := "" |}.

Definition Message_zero : Message :=
  {| Message_Id := 0;
     Message_Text := "";
     Message_Chat := {| Chat_Id := 0; Chat_Username := "" |};
     Message_Audio := Audio_zero;
     Message_Voice := Audio_zero;
     Message_Document := Document_zero;
     Message_Location := {| Longitude := 0%R; Latitude := 0%R |} |}.

Definition CallbackQuerry_zero : CallbackQuerry :=
  {| CallbackQuerry_Id := "";
     CallbackQuerry_From := {| User_Id := 0; User_Username := "" |};
     CallbackQuerry_Data := "";
     CallbackQuerry_Message := Message_zero;
     CallbackQuerry_InlineMessageId := "" |}.

Definition Update_zero : Update :=
  {| UpdateId := 0;
     Update_Message := Message_zero;
     Update_CallbackQuerry := CallbackQuerry_zero |}.

(** ** The distance utility *)

(** haversin(theta) *)
Definition hsin (theta : R) : R := (sin (theta / 2) ^ 2)%R.

Definition Distance (l1 l2 : Location) : R :=
  let la1 := (Latitude l1 * PI / 180)%R in
  let lo1 := (Longitude l1 * PI / 180)%R in
  let la2 := (Latitude l2 * PI / 180)%R in
  let lo2 := (Longitude l2 * PI / 180)%R in
  let r := 6378100%R in
  let h := (hsin (la2 - la1) + cos la1 * cos la2 * hsin (lo2 - lo1))%R in
  (2 * r * asin (sqrt h))%R.

(** ** Static data *)

Definition ALLOWED_USERS : list string := [ "antonhulikau"; "sonicfelidae" ].

Definition LOCATIONS : list Location :=
  [ {| Latitude := 48.158967; Longitude := 11.490981 |};   (* nyphemburg *)
    {| Latitude := 48.155582; Longitude := 11.493340 |};   (* west *)
    {| Latitude := 48.143296; Longitude := 11.596526 |};   (* ducks *)
    {| Latitude := 48.173194; Longitude := 11.555078 |};   (* olympia *)
    {| Latitude := 48.166302; Longitude := 11.568141 |} ]. (* luitpold *)

Fixpoint isAllowed_range (users : list string) (e : string) : bool :=
  match users with
  | [] => false
  | a :: rest => if String.eqb a e then true else isAllowed_range rest e
  end.

Definition isAllowed (e : string) : bool := isAllowed_range ALLOWED_USERS e.

(** ** The outbound senders *)

(** The tail shared by the two senders, as each of them spells it out:
    after a read error the function returns [err], the error of
    [http.PostForm], which is nil on this path. *)
Definition after_PostForm (r : Response * option error)
  : Io (string * option error) :=
  let '(response, err) := r in
  match err with
  | Some _ =>
      log_Printf "error when posting text to the chat: %s" ;;;
      ret ("", err)
  | None =>
      let '(bodyBytes, errRead) := ioutil_ReadAll response in
      match errRead with
      | Some _ =>
          log_Printf "error in parsing telegram answer %s" ;;;
          ret ("", err)
      | None =>
          let bodyString := bodyBytes in
          log_Printf "Body of Telegram Response: %s" ;;;
          ret (bodyString, None)
      end
  end.

Definition sendTextMessage (chatId : Z) (text : string)
  : Io (string * option error) :=
  log_Printf "Sending start message to chat_id: %d" ;;;
  r <- http_PostForm telegramApiSend
         [ ("chat_id", Str (Itoa chatId));
           ("text", Str text) ] ;;
  after_PostForm r.

Definition sendLocationMessage (chatId : Z) (l : Location)
  : Io (string * option error) :=
  log_Printf "Sending location message to chat_id: %d" ;;;
  r <- http_PostForm telegramApiSendLocation
         [ ("chat_id", Str (Itoa chatId));
           ("longitude", FormatFloat (Longitude l));
           ("latitude", FormatFloat (Latitude l));
           ("horizontal_accuracy", Str "2") ] ;;
  after_PostForm r.

(** The [if errTelegram != nil ... else ...] that follows a send. *)
Definition log_outcome (errTelegram : option error) : Io unit :=
  match errTelegram with
  | Some _ => log_Printf "got error %s from telegram, response body is %s"
  | None => log_Printf "successfully distributed to chat id %d"
  end.

(** ** The messages *)

Definition nl : string := String (ascii_of_nat 10) EmptyString.

Definition msg_start : string :=
  "Присылай мне свою локацию. Если ты будешь относительно близко к расположению подсказки, я дам тебе точные координаты!"
  ++ nl ++ "У меня есть так же команда /unlock =)".

Definition msg_success : string :=
  "Молодец! Все верно!" ++ nl
  ++ "В качестве приза могли прийти, но не пришли:" ++ nl
  ++ "1. Поездка в Австрию на викенд. Но она почему-то вводит локдаун." ++ nl
  ++ "2. Поход на Щелкунчика. Но кто-то прощелкал все полимеры =(." ++ nl
  ++ "3. Карты с покемонами на испанском. Но они у тебя уже есть."
  ++ nl ++ nl ++ nl ++ nl
  ++ "Но зато пришел: бессрочный recharge day on demand. Предложение отвезти тебя, куда ты захочешь, на 1 день. Используй его, когда тебе вздумается.".

Definition msg_check_place : string := "Проверь это место".

Definition msg_no_hints : string := "Вблизи нет подсказок".

(** [fmt.Sprintf("Соня проверяет %d!", t)] *)
Definition msg_checking (t : Z) : string := "Соня проверяет " ++ Itoa t ++ "!".

(** [fmt.Sprintf("Соня ввела %s!", text)] *)
Definition msg_entered (text : string) : string := "Соня ввела " ++ text ++ "!".

Section Handler.

Variable json_Decode : string -> Update -> Update * option error.

(** [strings.ToLower] *)
Variable strings_ToLower : string -> string.

Definition to_lower_letters (s : string) : string :=
  let ret := strings_ToLower s in
  ret.

Definition parseTelegramRequest (body : string)
  : Io (option Update * option error) :=
  let '(update, err) := json_Decode body Update_zero in
  match err with
  | Some _ =>
      log_Printf "could not decode incoming update %s" ;;;
      ret (None, err)
  | None =>
      if UpdateId update =? 0 then
        log_Printf "invalid update id, got update id = 0" ;;;
        ret (None,
             Some (errors_New
               "invalid update id of 0 indicates failure to parse incoming update"))
      else ret (Some update, None)
  end.

(** Lines 217-234: [for t, l := range LOCATIONS], started at index [t] on
    the candidates [ls] that remain, threading [found]. *)
Fixpoint range_LOCATIONS (update : Update) (t : Z) (ls : list Location)
  (found : bool) : Io bool :=
  match ls with
  | [] => ret found
  | l :: rest =>
      found <-
        (if Rlt_dec (Distance l (Message_Location (Update_Message update))) 2000
         then
           ' (_, errTelegram) <-
             sendTextMessage (Chat_Id (Message_Chat (Update_Message update)))
               msg_check_place ;;
           _ <- sendTextMessage ANTON_CHAT_ID (msg_checking t) ;;
           log_outcome errTelegram ;;;
           ' (_, errTelegram) <-
             sendLocationMessage
               (Chat_Id (Message_Chat (Update_Message update))) l ;;
           log_outcome errTelegram ;;;
           ret true
         else ret found) ;;
      range_LOCATIONS update (t + 1) rest found
  end.

(** Lines 183-252: what the handler does with a parsed update. *)
Definition dispatch (update : Update) : Io unit :=
  let chat := Chat_Id (Message_Chat (Update_Message update)) in
  let text := Message_Text (Update_Message update) in
  if negb (isAllowed (Chat_Username (Message_Chat (Update_Message update))))
  then ret tt
  else
    (if String.eqb text "/start" then
       ' (_, errTelegram) <- sendTextMessage chat msg_start ;;
       _ <- sendTextMessage ANTON_CHAT_ID "Соня начала искать локации!" ;;
       log_outcome errTelegram
     else if String.eqb text "/unlock" then
       ' (_, errTelegram) <- sendTextMessage chat "Пароль?" ;;
       log_outcome errTelegram
     else if String.eqb (to_lower_letters text) "afsio" then
       ' (_, errTelegram) <- sendTextMessage chat msg_success ;;
       ' (_, errTelegram2) <- sendTextMessage ANTON_CHAT_ID "Соня справилась!" ;;
       log_outcome errTelegram ;;;
       log_outcome errTelegram2
     else if Rgt_dec (Latitude (Message_Location (Update_Message update))) 0
     then
       found <- range_LOCATIONS update 0 LOCATIONS false ;;
       if negb found then
         ' (_, errTelegram) <- sendTextMessage chat msg_no_hints ;;
         log_outcome errTelegram
       else ret tt
     else
       ' (_, errTelegram) <- sendTextMessage chat "Этот пароль не подходит =(" ;;
       _ <- sendTextMessage ANTON_CHAT_ID (msg_entered text) ;;
       log_outcome errTelegram) ;;;
    log_Printf "Update new is %s".

Definition HandleTelegramWebHook (body : string) : Io unit :=
  ' (update, err) <- parseTelegramRequest body ;;
  match err with
  | Some _ => log_Printf "error parsing update, %s"
  | None =>
      match update with
      | Some update => dispatch update
      | None => panic "runtime error: invalid memory address or nil pointer dereference"
      end
  end.

End Handler.

End Treasure.

(* ================================================================== *)
(** * Variant 2 on float64 ([src/another_example.go]) *)
(* ================================================================== *)

(** The same handler with the coordinates as they are in the program:
    IEEE 754 binary64 numbers, compared and combined with the machine's
    operations.  What [Treasure] shares with this module (the allow-list,
    the texts, [sendTextMessage]) is taken from there. *)

Module Treasure64.

Import Go.
Open Scope string_scope.
Open Scope Z_scope.
Open Scope io_scope.

(** ** The decoded update *)

Record Location : Type := { Longitude : float; Latitude : float }.

Record Message : Type :=
  { Message_Id : Z;
    Message_Text : string;
    Message_Chat : Treasure.Chat;
    Message_Audio : Treasure.Audio;
    Message_Voice : Treasure.Voice;
    Message_Document : Treasure.Document;
    Message_Location : Location }.

Record CallbackQuerry : Type :=
  { CallbackQuerry_Id : string;
    CallbackQuerry_From : Treasure.User;
    CallbackQuerry_Data : string;
    CallbackQuerry_Message : Message;
    CallbackQuerry_InlineMessageId : string }.

Record Update : Type :=
  { UpdateId : Z;
    Update_Message : Message;
    Update_CallbackQuerry : CallbackQuerry }.

Definition Message_zero : Message :=
  {| Message_Id := 0;
     Message_Text := "";
     Message_Chat := {| Treasure.Chat_Id := 0; Treasure.Chat_Username := "" |};
     Message_Audio := Treasure.Audio_zero;
     Message_Voice := Treasure.Audio_zero;
     Message_Document := Treasure.Document_zero;
     Message_Location := {| Longitude := 0%float; Latitude := 0%float |} |}.

Definition CallbackQuerry_zero : CallbackQuerry :=
  {| CallbackQuerry_Id := "";
     CallbackQuerry_From :=
       {| Treasure.User_Id := 0; Treasure.User_Username := "" |};
     CallbackQuerry_Data := "";
     CallbackQuerry_Message := Message_zero;
     CallbackQuerry_InlineMessageId := "" |}.

Definition Update_zero : Update :=
  {| UpdateId := 0;
     Update_Message := Message_zero;
     Update_CallbackQuerry := CallbackQuerry_zero |}.

(** ** Package math *)

(** The functions of package [math] that [Distance] calls.  The
    repository does not define them, so they are a parameter. *)
Record Math : Type :=
  { math_Sin : float -> float;
    math_Cos : float -> float;
    math_Asin : float -> float;
    math_Sqrt : float -> float;
    math_Pow : float -> float -> float }.

(** [math.Pi] as a float64. *)
Definition math_Pi : float := 0x1.921fb54442d18p+1%float.

(** ** The distance utility *)

Section Distance.

Variable math : Math.

(** haversin(theta) *)
Definition hsin (theta : float) : float :=
  math_Pow math (math_Sin math (theta / 2)) 2.

(** Every operation rounds on its own, as the compiler for amd64 has
    it. *)
Definition Distance (l1 l2 : Location) : float :=
  let la1 := (Latitude l1 * math_Pi / 180)%float in
  let lo1 := (Longitude l1 * math_Pi / 180)%float in
  let la2 := (Latitude l2 * math_Pi / 180)%float in
  let lo2 := (Longitude l2 * math_Pi / 180)%float in
  let r := 6378100%float in
  let h := (hsin (la2 - la1)
            + math_Cos math la1 * math_Cos math la2 * hsin (lo2 - lo1))%float in
  (2 * r * math_Asin math (math_Sqrt math h))%float.

End Distance.

(** ** Static data *)

Definition LOCATIONS : list Location :=
  [ {| Latitude := 48.158967; Longitude := 11.490981 |};   (* nyphemburg *)
    {| Latitude := 48.155582; Longitude := 11.493340 |};   (* west *)
    {| Latitude := 48.143296; Longitude := 11.596526 |};   (* ducks *)
    {| Latitude := 48.173194; Longitude := 11.555078 |};   (* olympia *)
    {| Latitude := 48.166302; Longitude := 11.568141 |} ]. (* luitpold *)

(** ** The outbound senders *)

Definition sendLocationMessage (chatId : Z) (l : Location)
  : Io (string * option error) :=
  log_Printf "Sending location message to chat_id: %d" ;;;
  r <- http_PostForm telegramApiSendLocation
         [ ("chat_id", Str (Itoa chatId));
           ("longitude", FormatFloat64 (Longitude l));
           ("latitude", FormatFloat64 (Latitude l));
           ("horizontal_accuracy", Str "2") ] ;;
  Treasure.after_PostForm r.

Section Handler.

Variable json_Decode : string -> Update -> Update * option error.

(** [strings.ToLower] *)
Variable strings_ToLower : string -> string.

Variable math : Math.

Definition parseTelegramRequest (body : string)
  : Io (option Update * option error) :=
  let '(update, err) := json_Decode body Update_zero in
  match err with
  | Some _ =>
      log_Printf "could not decode incoming update %s" ;;;
      ret (None, err)
  | None =>
      if UpdateId update =? 0 then
        log_Printf "invalid update id, got update id = 0" ;;;
        ret (None,
             Some (errors_New
               "invalid update id of 0 indicates failure to parse incoming update"))
      else ret (Some update, None)
  end.

(** Lines 217-234: [for t, l := range LOCATIONS], started at index [t] on
    the candidates [ls] that remain, threading [found]. *)
Fixpoint range_LOCATIONS (update : Update) (t : Z) (ls : list Location)
  (found : bool) : Io bool :=
  match ls with
  | [] => ret found
  | l :: rest =>
      found <-
        (if PrimFloat.ltb
              (Distance math l (Message_Location (Update_Message update))) 2000
         then
           ' (_, errTelegram) <-
             Treasure.sendTextMessage
               (Treasure.Chat_Id (Message_Chat (Update_Message update)))
               "Проверь это место" ;;
           _ <- Treasure.sendTextMessage Treasure.ANTON_CHAT_ID
                  ("Соня проверяет " ++ Itoa t ++ "!") ;;
           Treasure.log_outcome errTelegram ;;;
           ' (_, errTelegram) <-
             sendLocationMessage
               (Treasure.Chat_Id (Message_Chat (Update_Message update))) l ;;
           Treasure.log_outcome errTelegram ;;;
           ret true
         else ret found) ;;
      range_LOCATIONS update (t + 1) rest found
  end.

(** Lines 183-252: what the handler does with a parsed update. *)
Definition dispatch (update : Update) : Io unit :=
  let chat := Treasure.Chat_Id (Message_Chat (Update_Message update)) in
  let text := Message_Text (Update_Message update) in
  if negb (Treasure.isAllowed
             (Treasure.Chat_Username (Message_Chat (Update_Message update))))
  then ret tt
  else
    (if String.eqb text "/start" then
       ' (_, errTelegram) <- Treasure.sendTextMessage chat Treasure.msg_start ;;
       _ <- Treasure.sendTextMessage Treasure.ANTON_CHAT_ID
              "Соня начала искать локации!" ;;
       Treasure.log_outcome errTelegram
     else if String.eqb text "/unlock" then
       ' (_, errTelegram) <- Treasure.sendTextMessage chat "Пароль?" ;;
       Treasure.log_outcome errTelegram
     else if String.eqb (Treasure.to_lower_letters strings_ToLower text) "afsio"
     then
       ' (_, errTelegram) <- Treasure.sendTextMessage chat Treasure.msg_success ;;
       ' (_, errTelegram2) <-
         Treasure.sendTextMessage Treasure.ANTON_CHAT_ID "Соня справилась!" ;;
       Treasure.log_outcome errTelegram ;;;
       Treasure.log_outcome errTelegram2
     else if PrimFloat.ltb 0 (Latitude (Message_Location (Update_Message update)))
     then
       found <- range_LOCATIONS update 0 LOCATIONS false ;;
       if negb found then
         ' (_, errTelegram) <-
           Treasure.sendTextMessage chat "Вблизи нет подсказок" ;;
         Treasure.log_outcome errTelegram
       else ret tt
     else
       ' (_, errTelegram) <-
         Treasure.sendTextMessage chat "Этот пароль не подходит =(" ;;
       _ <- Treasure.sendTextMessage Treasure.ANTON_CHAT_ID
              (Treasure.msg_entered text) ;;
       Treasure.log_outcome errTelegram) ;;;
    log_Printf "Update new is %s".

Definition HandleTelegramWebHook (body : string) : Io unit :=
  ' (update, err) <- parseTelegramRequest body ;;
  match err with
  | Some _ => log_Printf "error parsing update, %s"
  | None =>
      match update with
      | Some update => dispatch update
      | None => panic "runtime error: invalid memory address or nil pointer dereference"
      end
  end.

End Handler.

End Treasure64.

(* ================================================================== *)
(** * encoding/json: how a decoder frames the value it decodes *)
(* ================================================================== *)

(** [json.NewDecoder(r.Body).Decode(&update)] works in two steps: the
    decoder's scanner reads the body byte by byte until the first JSON
    value is complete, and that value alone is unmarshalled into the
    struct.  The scanner is embedded from the Go standard library
    ([encoding/json], files [scanner.go] and [stream.go]); unmarshalling
    a complete value into a struct stays a parameter. *)

Module Json.

Import Go.
Open Scope string_scope.
Open Scope nat_scope.

Definition byte_is (c ch : ascii) : bool := Ascii.eqb c ch.

(** [lo <= c && c <= hi] on bytes. *)
Definition between (lo hi c : ascii) : bool :=
  (nat_of_ascii lo <=? nat_of_ascii c) && (nat_of_ascii c <=? nat_of_ascii hi).

Definition isSpace (c : ascii) : bool :=
  byte_is c " " || byte_is c "009" || byte_is c "013" || byte_is c "010".

Definition isHex (c : ascii) : bool :=
  between "0" "9" c || between "a" "f" c || between "A" "F" c.

(** The double quote and the backslash. *)
Definition quote : ascii := "034".
Definition backslash : ascii := "092".

(** The codes a step of the scanner hands back. *)
Inductive Scan : Type :=
| scanContinue
| scanBeginLiteral
| scanBeginObject
| scanObjectKey
| scanObjectValue
| scanEndObject
| scanBeginArray
| scanArrayValue
| scanEndArray
| scanSkipSpace
| scanEnd
| scanError.

Inductive ParseState : Type :=
| parseObjectKey
| parseObjectValue
| parseArrayValue.

(** The step functions of the scanner, by name.  The states inside one
    of the literals [true], [false] and [null] are one constructor that
    carries the bytes still expected, and the states inside the four
    hexadecimal digits of an escape carry their count. *)
Inductive Step : Type :=
| AtBeginValue
| AtBeginValueOrEmpty
| AtBeginStringOrEmpty
| AtBeginString
| AtEndValue
| AtEndTop
| AtInString
| AtInStringEsc
| AtInStringEscU (seen : nat)
| AtNeg
| At1
| At0
| AtDot
| AtDot0
| AtE
| AtESign
| AtE0
| AtLiteral (expected : string)
| AtError.

(** The scanner: the step to take on the next byte, the stack of open
    objects and arrays (innermost first), the error met and whether the
    top-level value has ended. *)
Record scanner : Type :=
  { step : Step;
    parseState : list ParseState;
    err : option error;
    endTop : bool }.

Definition reset : scanner :=
  {| step := AtBeginValue; parseState := []; err := None; endTop := false |}.

Definition maxNestingDepth : Z := 10000%Z.

Definition goto (s : scanner) (st : Step) : scanner :=
  {| step := st; parseState := parseState s; err := err s; endTop := endTop s |}.

(** [s.error(c, context)]; the message leaves the quoted byte out. *)
Definition error_at (s : scanner) (context : string) : Scan * scanner :=
  (scanError,
   {| step := AtError;
      parseState := parseState s;
      err := Some (LibError ("invalid character " ++ context));
      endTop := endTop s |}).

Definition pushParseState (s : scanner) (newParseState : ParseState)
  (successState : Scan) : Scan * scanner :=
  let s' := {| step := step s;
               parseState := newParseState :: parseState s;
               err := err s;
               endTop := endTop s |} in
  if (Z.of_nat (List.length (parseState s')) <=? maxNestingDepth)%Z then (successState, s')
  else error_at s' "exceeded max depth".

Definition popParseState (s : scanner) : scanner :=
  match List.tl (parseState s) with
  | [] => {| step := AtEndTop; parseState := []; err := err s; endTop := true |}
  | below =>
      {| step := AtEndValue; parseState := below; err := err s; endTop := endTop s |}
  end.

Definition replace_top (s : scanner) (ps : ParseState) (st : Step) : scanner :=
  {| step := st;
     parseState := ps :: List.tl (parseState s);
     err := err s;
     endTop := endTop s |}.

(** After the top-level value: a byte that is not a space is an error,
    reported on the next call; the value has ended before this byte. *)
Definition stateEndTop (s : scanner) (c : ascii) : Scan * scanner :=
  if negb (isSpace c) then (scanEnd, snd (error_at s "after top-level value"))
  else (scanEnd, s).

(** After a complete value, such as after reading [{}], [true] or
    [["x"]. *)
Definition stateEndValue (s : scanner) (c : ascii) : Scan * scanner :=
  match parseState s with
  | [] =>
      stateEndTop
        {| step := AtEndTop; parseState := []; err := err s; endTop := true |} c
  | ps :: _ =>
      if isSpace c then (scanSkipSpace, goto s AtEndValue)
      else
        match ps with
        | parseObjectKey =>
            if byte_is c ":" then
              (scanObjectKey, replace_top s parseObjectValue AtBeginValue)
            else error_at s "after object key"
        | parseObjectValue =>
            if byte_is c "," then
              (scanObjectValue, replace_top s parseObjectKey AtBeginString)
            else if byte_is c "}" then (scanEndObject, popParseState s)
            else error_at s "after object key:value pair"
        | parseArrayValue =>
            if byte_is c "," then (scanArrayValue, goto s AtBeginValue)
            else if byte_is c "]" then (scanEndArray, popParseState s)
            else error_at s "after array element"
        end
  end.

(** At the beginning of a value. *)
Definition stateBeginValue (s : scanner) (c : ascii) : Scan * scanner :=
  if isSpace c then (scanSkipSpace, s)
  else if byte_is c "{" then
    pushParseState (goto s AtBeginStringOrEmpty) parseObjectKey scanBeginObject
  else if byte_is c "[" then
    pushParseState (goto s AtBeginValueOrEmpty) parseArrayValue scanBeginArray
  else if byte_is c quote then (scanBeginLiteral, goto s AtInString)
  else if byte_is c "-" then (scanBeginLiteral, goto s AtNeg)
  else if byte_is c "0" then (scanBeginLiteral, goto s At0)
  else if byte_is c "t" then (scanBeginLiteral, goto s (AtLiteral "rue"))
  else if byte_is c "f" then (scanBeginLiteral, goto s (AtLiteral "alse"))
  else if byte_is c "n" then (scanBeginLiteral, goto s (AtLiteral "ull"))
  else if between "1" "9" c then (scanBeginLiteral, goto s At1)
  else error_at s "looking for beginning of value".

(** After [[]. *)
Definition stateBeginValueOrEmpty (s : scanner) (c : ascii) : Scan * scanner :=
  if isSpace c then (scanSkipSpace, s)
  else if byte_is c "]" then stateEndValue s c
  else stateBeginValue s c.

(** After [{"key": value,]. *)
Definition stateBeginString (s : scanner) (c : ascii) : Scan * scanner :=
  if isSpace c then (scanSkipSpace, s)
  else if byte_is c quote then (scanBeginLiteral, goto s AtInString)
  else error_at s "looking for beginning of object key string".

(** After [{]. *)
Definition stateBeginStringOrEmpty (s : scanner) (c : ascii) : Scan * scanner :=
  if isSpace c then (scanSkipSpace, s)
  else if byte_is c "}" then
    stateEndValue (replace_top s parseObjectValue (step s)) c
  else stateBeginString s c.

Definition stateInString (s : scanner) (c : ascii) : Scan * scanner :=
  if byte_is c quote then (scanContinue, goto s AtEndValue)
  else if byte_is c backslash then (scanContinue, goto s AtInStringEsc)
  else if nat_of_ascii c <? 32 then error_at s "in string literal"
  else (scanContinue, s).

Definition stateInStringEsc (s : scanner) (c : ascii) : Scan * scanner :=
  if byte_is c "b" || byte_is c "f" || byte_is c "n" || byte_is c "r" || byte_is c "t"
     || byte_is c backslash || byte_is c "/" || byte_is c quote
  then (scanContinue, goto s AtInString)
  else if byte_is c "u" then (scanContinue, goto s (AtInStringEscU 0))
  else error_at s "in string escape code".

Definition stateInStringEscU (seen : nat) (s : scanner) (c : ascii)
  : Scan * scanner :=
  if isHex c then
    (scanContinue,
     goto s (if seen <? 3 then AtInStringEscU (S seen) else AtInString))
  else error_at s "in \u hexadecimal character escape".

(** After a zero, as in [0] or [-0]. *)
Definition state0 (s : scanner) (c : ascii) : Scan * scanner :=
  if byte_is c "." then (scanContinue, goto s AtDot)
  else if byte_is c "e" || byte_is c "E" then (scanContinue, goto s AtE)
  else stateEndValue s c.

(** After a minus sign. *)
Definition stateNeg (s : scanner) (c : ascii) : Scan * scanner :=
  if byte_is c "0" then (scanContinue, goto s At0)
  else if between "1" "9" c then (scanContinue, goto s At1)
  else error_at s "in numeric literal".

(** After a digit other than a leading zero. *)
Definition state1 (s : scanner) (c : ascii) : Scan * scanner :=
  if between "0" "9" c then (scanContinue, goto s At1)
  else state0 s c.

Definition stateDot (s : scanner) (c : ascii) : Scan * scanner :=
  if between "0" "9" c then (scanContinue, goto s AtDot0)
  else error_at s "after decimal point in numeric literal".

Definition stateDot0 (s : scanner) (c : ascii) : Scan * scanner :=
  if between "0" "9" c then (scanContinue, s)
  else if byte_is c "e" || byte_is c "E" then (scanContinue, goto s AtE)
  else stateEndValue s c.

Definition stateESign (s : scanner) (c : ascii) : Scan * scanner :=
  if between "0" "9" c then (scanContinue, goto s AtE0)
  else error_at s "in exponent of numeric literal".

Definition stateE (s : scanner) (c : ascii) : Scan * scanner :=
  if byte_is c "+" || byte_is c "-" then (scanContinue, goto s AtESign)
  else stateESign s c.

Definition stateE0 (s : scanner) (c : ascii) : Scan * scanner :=
  if between "0" "9" c then (scanContinue, s)
  else stateEndValue s c.

(** Inside [true], [false] or [null]; the message leaves out which byte
    was expected. *)
Definition stateLiteral (expected : string) (s : scanner) (c : ascii)
  : Scan * scanner :=
  match expected with
  | String e rest =>
      if byte_is c e then
        (scanContinue,
         goto s (match rest with
                 | EmptyString => AtEndValue
                 | _ => AtLiteral rest
                 end))
      else error_at s "in literal"
  | EmptyString => stateEndValue s c
  end.

(** [s.step(s, c)] *)
Definition scan_step (s : scanner) (c : ascii) : Scan * scanner :=
  match step s with
  | AtBeginValue => stateBeginValue s c
  | AtBeginValueOrEmpty => stateBeginValueOrEmpty s c
  | AtBeginStringOrEmpty => stateBeginStringOrEmpty s c
  | AtBeginString => stateBeginString s c
  | AtEndValue => stateEndValue s c
  | AtEndTop => stateEndTop s c
  | AtInString => stateInString s c
  | AtInStringEsc => stateInStringEsc s c
  | AtInStringEscU seen => stateInStringEscU seen s c
  | AtNeg => stateNeg s c
  | At1 => state1 s c
  | At0 => state0 s c
  | AtDot => stateDot s c
  | AtDot0 => stateDot0 s c
  | AtE => stateE s c
  | AtESign => stateESign s c
  | AtE0 => stateE0 s c
  | AtLiteral expected => stateLiteral expected s c
  | AtError => (scanError, s)
  end.

(** The error of a scanner that handed back [scanError]. *)
Definition scan_err (s : scanner) : error :=
  match err s with
  | Some e => e
  | None => LibError "invalid character"
  end.

Definition io_EOF : error := LibError "EOF".
Definition io_ErrUnexpectedEOF : error := LibError "unexpected EOF".

(** What the loop of [Decoder.readValue] finds in the bytes [buf]
    that follow the [scanp] bytes already scanned: the value ends after
    [n] bytes; the scanner refuses a byte; or the bytes run out. *)
Inductive Scanned : Type :=
| Ended (n : nat)
| Failed (e : error)
| Pending (s : scanner) (n : nat).

Fixpoint readValue_range (s : scanner) (scanp : nat) (buf : string) : Scanned :=
  match buf with
  | EmptyString => Pending s scanp
  | String c rest =>
      let '(r, s') := scan_step s c in
      match r with
      | scanEnd => Ended scanp
      | scanEndObject | scanEndArray =>
          (* the end is known one byte late: a space byte is invented *)
          let '(r', s'') := stateEndValue s' " " in
          match r' with
          | scanEnd => Ended (S scanp)
          | _ => readValue_range s'' (S scanp) rest
          end
      | scanError => Failed (scan_err s')
      | _ => readValue_range s' (S scanp) rest
      end
  end.

Fixpoint nonSpace (b : string) : bool :=
  match b with
  | EmptyString => false
  | String c rest => if negb (isSpace c) then true else nonSpace rest
  end.

(** [Decoder.readValue] on a body read to its end: the length of the
    first value, leading spaces included, or the error. *)
Definition readValue (body : string) : nat + error :=
  match readValue_range reset 0 body with
  | Ended n => inl n
  | Failed e => inr e
  | Pending s n =>
      match fst (scan_step s " ") with
      | scanEnd => inl n
      | _ => inr (if nonSpace body then io_ErrUnexpectedEOF else io_EOF)
      end
  end.

(** [Decoder.Decode] of a fresh decoder: the bytes of the first value
    are unmarshalled, and nothing is done with the bytes after them. *)
Definition Decode {U : Type} (unmarshal : string -> U -> U * option error)
  (body : string) (v : U) : U * option error :=
  match readValue body with
  | inr e => (v, Some e)
  | inl n => unmarshal (String.substring 0 n body) v
  end.

(** [checkValid], the loop behind [json.Valid]: every byte of [data] is
    scanned. *)
Fixpoint checkValid_range (s : scanner) (data : string) : option scanner :=
  match data with
  | EmptyString => Some s
  | String c rest =>
      let '(r, s') := scan_step s c in
      match r with
      | scanError => None
      | _ => checkValid_range s' rest
      end
  end.

(** [scanner.eof] reports an error unless the top-level value has
    ended, possibly with the help of one more space. *)
Definition eof_ok (s : scanner) : bool :=
  match err s with
  | Some _ => false
  | None => endTop s || endTop (snd (scan_step s " "))
  end.

(** [json.Valid]: the text is one JSON value, with spaces around it at
    most. *)
Definition Valid (data : string) : bool :=
  match checkValid_range reset data with
  | Some s => eof_ok s
  | None => false
  end.

End Json.

(* ================================================================== *)
(** * Vocabulary of the statements *)
(* ================================================================== *)

Import Go.
Open Scope string_scope.
Open Scope Z_scope.
Open Scope list_scope.

(** The POSTs a computation issues when it starts from the empty trace. *)
Definition calls_of {A} (m : Io A) (net : Transport) : list (Endpoint * Values) :=
  outbound (trace_of (m net [])).

(** [m] always returns, issues exactly the POSTs [posts] whatever the
    transport answers, and its result satisfies [P]. *)
Definition emits {A} (m : Io A) (posts : list (Endpoint * Values))
  (P : A -> Prop) : Prop :=
  forall net tr, exists a tr',
    m net tr = Returned a tr'
    /\ outbound tr' = (outbound tr ++ posts)%list
    /\ P a.

(** [m] returns on every transport and from every trace. *)
Definition never_panics {A} (m : Io A) : Prop :=
  forall net tr, panicked (m net tr) = false.

(** The three kinds of POST, by what they carry. *)
Definition text_post (chatId : Z) (text : string) : Endpoint * Values :=
  (telegramApiSend, [ ("chat_id", Str (Itoa chatId)); ("text", Str text) ]).

Definition location_post (chatId : Z) (l : Treasure.Location)
  : Endpoint * Values :=
  (telegramApiSendLocation,
   [ ("chat_id", Str (Itoa chatId));
     ("longitude", FormatFloat (Treasure.Longitude l));
     ("latitude", FormatFloat (Treasure.Latitude l));
     ("horizontal_accuracy", Str "2") ]).

Definition edit_post (chatId messageId : Z) (text payload : string)
  : Endpoint * Values :=
  (telegramApiEdit,
   [ ("chat_id", Str (Itoa chatId));
     ("message_id", Str (Itoa messageId));
     ("text", Str text);
     ("reply_markup",
      Marshal [ [ {| Go.text := "Получить поздравление";
                     callback_data := payload |} ] ]) ]).

(** ** The geofence rule, in the words of the specification *)

(** The candidates with their list indices, from index [t] on. *)
Fixpoint enumerate_from (t : Z) (ls : list Treasure.Location)
  : list (Z * Treasure.Location) :=
  match ls with
  | [] => []
  | l :: rest => (t, l) :: enumerate_from (t + 1) rest
  end.

Definition candidates : list (Z * Treasure.Location) :=
  enumerate_from 0 Treasure.LOCATIONS.

(** A candidate is within the threshold of the probe. *)
Definition near (probe : Treasure.Location) (c : Z * Treasure.Location) : bool :=
  if Rlt_dec (Treasure.Distance (snd c) probe) 2000 then true else false.

(** What one candidate within the threshold triggers. *)
Definition hint_posts (chatId : Z) (c : Z * Treasure.Location)
  : list (Endpoint * Values) :=
  [ text_post chatId Treasure.msg_check_place;
    text_post Treasure.ANTON_CHAT_ID (Treasure.msg_checking (fst c));
    location_post chatId (snd c) ].

(** Every candidate within the threshold triggers its hint; when there is
    none, a single text says so. *)
Definition geofence_posts (chatId : Z) (probe : Treasure.Location)
  : list (Endpoint * Values) :=
  match filter (near probe) candidates with
  | [] => [ text_post chatId Treasure.msg_no_hints ]
  | hits => flat_map (hint_posts chatId) hits
  end.

(** ** Callback payloads *)

Fixpoint all_digits (s : string) : bool :=
  match s with
  | EmptyString => true
  | String c rest => is_digit c && all_digits rest
  end.

(** An optional sign followed by at least one decimal digit. *)
Definition is_decimal_literal (s : string) : bool :=
  match s with
  | EmptyString => false
  | String c rest =>
      let digits := if is_sign c then rest else s in
      match digits with
      | EmptyString => false
      | _ => all_digits digits
      end
  end.

(** [n] applications of "index -> next index". *)
Definition rotate (len : Z) (n : nat) (p : Z) : Z :=
  Nat.iter n (Celebration.next_index len) p.

(** ** Sample inputs *)

(** A transport on which every POST succeeds with the body [ok]. *)
Definition net_ok : Transport :=
  fun _ _ _ => ({| Body := "ok"; BodyErr := None |}, None).

(** A transport on which every POST fails. *)
Definition net_down : Transport :=
  fun _ _ _ => ({| Body := ""; BodyErr := None |},
                Some (LibError "dial tcp: i/o timeout")).

(** A transport on which every POST is answered, and the connection breaks
    while the body is read. *)
Definition net_broken_body : Transport :=
  fun _ _ _ => ({| Body := "{"; BodyErr := Some (LibError "unexpected EOF") |},
                None).

Definition ascii_lower (c : ascii) : ascii :=
  let n := nat_of_ascii c in
  if ((65 <=? n) && (n <=? 90))%nat then ascii_of_nat (n + 32) else c.

(** [strings.ToLower] on ASCII text. *)
Fixpoint ascii_ToLower (s : string) : string :=
  match s with
  | EmptyString => EmptyString
  | String c rest => String (ascii_lower c) (ascii_ToLower rest)
  end.

Module Samples1.

Import Celebration.

(** A click on the celebration button by an allowed user, with the
    payload [data]. *)
Definition click (data : string) : Update :=
  {| UpdateId := 1;
     Update_Message := Message_zero;
     Update_CallbackQuerry :=
       {| CallbackQuerry_Id := "77";
          CallbackQuerry_From := {| User_Id := 5; User_Username := "antonhulikau" |};
          CallbackQuerry_Data := data;
          CallbackQuerry_Message :=
            {| Message_Id := 9;
               Message_Text := "";
               Message_Chat := {| Chat_Id := 42 |};
               Message_Audio := Audio_zero;
               Message_Voice := Audio_zero;
               Message_Document := Document_zero |};
          CallbackQuerry_InlineMessageId := "" |} |}.

(** A decoder for a few bodies: a click whose payload is the body itself
    when the body starts with [click:], an object without [update_id], and
    anything else is malformed. *)
Definition decode (body : string) (update : Update) : Update * option error :=
  if String.prefix "click:" body then
    (click (String.substring 6 (String.length body - 6) body), None)
  else if String.eqb body "{}" then (update, None)
  else (update, Some (LibError "invalid character")).

End Samples1.

Module Samples2.

Import Treasure.

(** A message of the allowed user [antonhulikau] from chat 42. *)
Definition message (text : string) (l : Location) : Update :=
  {| UpdateId := 1;
     Update_Message :=
       {| Message_Id := 3;
          Message_Text := text;
          Message_Chat := {| Chat_Id := 42; Chat_Username := "antonhulikau" |};
          Message_Audio := Audio_zero;
          Message_Voice := Audio_zero;
          Message_Document := Document_zero;
          Message_Location := l |};
     Update_CallbackQuerry := CallbackQuerry_zero |}.

(** The same message from a user who is not on the allow-list. *)
Definition stranger (text : string) (l : Location) : Update :=
  {| UpdateId := 1;
     Update_Message :=
       {| Message_Id := 3;
          Message_Text := text;
          Message_Chat := {| Chat_Id := 43; Chat_Username := "mallory" |};
          Message_Audio := Audio_zero;
          Message_Voice := Audio_zero;
          Message_Document := Document_zero;
          Message_Location := l |};
     Update_CallbackQuerry := CallbackQuerry_zero |}.

(** An update that carries a callback event and no message. *)
Definition callback_only : Update :=
  {| UpdateId := 1;
     Update_Message := Message_zero;
     Update_CallbackQuerry :=
       {| CallbackQuerry_Id := "77";
          CallbackQuerry_From := {| User_Id := 5; User_Username := "antonhulikau" |};
          CallbackQuerry_Data := "0";
          CallbackQuerry_Message := Message_zero;
          CallbackQuerry_InlineMessageId := "" |} |}.

(** The third candidate, "ducks". *)
Definition ducks : Location :=
  {| Latitude := 48.143296; Longitude := 11.596526 |}.

(** A decoder that answers every body with the update [u]. *)
Definition decode_as (u : Update) (body : string) (update : Update)
  : Update * option error := (u, None).

(** A decoder for a few bodies: an object without [update_id], and
    anything else is malformed. *)
Definition decode (body : string) (update : Update) : Update * option error :=
  if String.eqb body "{}" then (update, None)
  else if String.eqb body "ducks" then (message "" ducks, None)
  else (update, Some (LibError "invalid character")).

End Samples2.

(** ** Further vocabulary: the other branches of the two dispatches *)

(** The POST of [sendStartTextMessage]: a text with the one-button
    keyboard whose payload is the index 0. *)
Definition start_post (chatId : Z) (text : string) : Endpoint * Values :=
  (telegramApiSend,
   [ ("chat_id", Str (Itoa chatId));
     ("text", Str text);
     ("reply_markup",
      Marshal [ [ {| Go.text := "Получить поздравление";
                     callback_data := "0" |} ] ]) ]).

Definition msg_welcome : string :=
  "Привет, нажимай на кнопку получить поздравление и кайфуй!".

(** The POSTs variant 2 answers a parsed update with, as a function of
    the update alone. *)
Definition replies2 (strings_ToLower : string -> string) (u : Treasure.Update)
  : list (Endpoint * Values) :=
  let m := Treasure.Update_Message u in
  let chat := Treasure.Chat_Id (Treasure.Message_Chat m) in
  let text := Treasure.Message_Text m in
  if negb (Treasure.isAllowed (Treasure.Chat_Username (Treasure.Message_Chat m)))
  then []
  else if String.eqb text "/start" then
    [ text_post chat Treasure.msg_start;
      text_post Treasure.ANTON_CHAT_ID "Соня начала искать локации!" ]
  else if String.eqb text "/unlock" then
    [ text_post chat "Пароль?" ]
  else if String.eqb (strings_ToLower text) "afsio" then
    [ text_post chat Treasure.msg_success;
      text_post Treasure.ANTON_CHAT_ID "Соня справилась!" ]
  else if Rgt_dec (Treasure.Latitude (Treasure.Message_Location m)) 0 then
    geofence_posts chat (Treasure.Message_Location m)
  else
    [ text_post chat "Этот пароль не подходит =(";
      text_post Treasure.ANTON_CHAT_ID (Treasure.msg_entered text) ].

(** The chat a POST is addressed to, as the form spells it. *)
Definition addressee (x : Endpoint * Values) : option FormValue :=
  match snd x with
  | (_, v) :: _ => Some v
  | [] => None
  end.

Module Samples1b.

Import Celebration.

(** A [/start] message from chat 42, in an update that also carries a
    click of a user who is not on the allow-list. *)
Definition start : Update :=
  {| UpdateId := 1;
     Update_Message :=
       {| Message_Id := 3;
          Message_Text := "/start";
          Message_Chat := {| Chat_Id := 42 |};
          Message_Audio := Audio_zero;
          Message_Voice := Audio_zero;
          Message_Document := Document_zero |};
     Update_CallbackQuerry :=
       {| CallbackQuerry_Id := "77";
          CallbackQuerry_From := {| User_Id := 6; User_Username := "mallory" |};
          CallbackQuerry_Data := "5";
          CallbackQuerry_Message := Message_zero;
          CallbackQuerry_InlineMessageId := "" |} |}.

(** A click with the payload [data] by a user who is not on the
    allow-list. *)
Definition stranger_click (data : string) : Update :=
  {| UpdateId := 1;
     Update_Message := Message_zero;
     Update_CallbackQuerry :=
       {| CallbackQuerry_Id := "77";
          CallbackQuerry_From := {| User_Id := 6; User_Username := "mallory" |};
          CallbackQuerry_Data := data;
          CallbackQuerry_Message :=
            {| Message_Id := 9;
               Message_Text := "";
               Message_Chat := {| Chat_Id := 42 |};
               Message_Audio := Audio_zero;
               Message_Voice := Audio_zero;
               Message_Document := Document_zero |};
          CallbackQuerry_InlineMessageId := "" |} |}.

(** A decoder that answers every body with the update [u]. *)
Definition decode_as (u : Update) (body : string) (update : Update)
  : Update * option error := (u, None).

End Samples1b.

Module Samples2b.

Import Treasure.

(** No location: Go's zero value. *)
Definition nowhere : Location := {| Longitude := 0%R; Latitude := 0%R |}.



(** A point of the southern hemisphere. *)
Definition sydney : Location :=
  {| Latitude := (-33.8688)%R; Longitude := 151.2093 |}.

End Samples2b.

(** ** The geofence rule on float64 *)

Definition location_post64 (chatId : Z) (l : Treasure64.Location)
  : Endpoint * Values :=
  (telegramApiSendLocation,
   [ ("chat_id", Str (Itoa chatId));
     ("longitude", FormatFloat64 (Treasure64.Longitude l));
     ("latitude", FormatFloat64 (Treasure64.Latitude l));
     ("horizontal_accuracy", Str "2") ]).

(** The five candidates, each with its list index. *)
Definition candidates64 : list (Z * Treasure64.Location) :=
  [ (0, {| Treasure64.Latitude := 48.158967; Treasure64.Longitude := 11.490981 |});
    (1, {| Treasure64.Latitude := 48.155582; Treasure64.Longitude := 11.493340 |});
    (2, {| Treasure64.Latitude := 48.143296; Treasure64.Longitude := 11.596526 |});
    (3, {| Treasure64.Latitude := 48.173194; Treasure64.Longitude := 11.555078 |});
    (4, {| Treasure64.Latitude := 48.166302; Treasure64.Longitude := 11.568141 |}) ].

Fixpoint enumerate64_from (t : Z) (ls : list Treasure64.Location)
  : list (Z * Treasure64.Location) :=
  match ls with
  | [] => []
  | l :: rest => (t, l) :: enumerate64_from (t + 1) rest
  end.

(** The great-circle distance in the words of the specification: the
    coordinates in radians, [h = sin²(dlat/2) + cos(lat1) * cos(lat2) *
    sin²(dlon/2)] and [2 * R * asin(sqrt h)] with [R = 6378100] meters,
    in float64 operations from left to right. *)
Definition great_circle_meters (math : Treasure64.Math)
  (p q : Treasure64.Location) : float :=
  let rad x := (x * 0x1.921fb54442d18p+1 / 180)%float in
  let sin2 x :=
    Treasure64.math_Pow math (Treasure64.math_Sin math (x / 2)%float) 2%float in
  let lat1 := rad (Treasure64.Latitude p) in
  let lat2 := rad (Treasure64.Latitude q) in
  let lon1 := rad (Treasure64.Longitude p) in
  let lon2 := rad (Treasure64.Longitude q) in
  let h :=
    (sin2 (lat2 - lat1)
     + Treasure64.math_Cos math lat1 * Treasure64.math_Cos math lat2
       * sin2 (lon2 - lon1))%float in
  (2 * 6378100
   * Treasure64.math_Asin math (Treasure64.math_Sqrt math h))%float.


(** A candidate is within the threshold of the probe: the float64
    comparison [distance < 2000], which is false of a NaN. *)
Definition within (math : Treasure64.Math) (probe : Treasure64.Location)
  (c : Z * Treasure64.Location) : bool :=
  PrimFloat.ltb (great_circle_meters math (snd c) probe) 2000.

(** What one candidate within the threshold triggers. *)
Definition hint64 (chatId : Z) (c : Z * Treasure64.Location)
  : list (Endpoint * Values) :=
  [ text_post chatId "Проверь это место";
    text_post 49208041 ("Соня проверяет " ++ Itoa (fst c) ++ "!")%string;
    location_post64 chatId (snd c) ].

Definition geofence64 (math : Treasure64.Math) (chatId : Z)
  (probe : Treasure64.Location) : list (Endpoint * Values) :=
  match filter (within math probe) candidates64 with
  | [] => [ text_post chatId "Вблизи нет подсказок" ]
  | hits => flat_map (hint64 chatId) hits
  end.

Module Samples64.

Import Treasure64.

(** A message of the allowed user [antonhulikau] from chat 42. *)
Definition message (text : string) (l : Location) : Update :=
  {| UpdateId := 1;
     Update_Message :=
       {| Message_Id := 3;
          Message_Text := text;
          Message_Chat :=
            {| Treasure.Chat_Id := 42; Treasure.Chat_Username := "antonhulikau" |};
          Message_Audio := Treasure.Audio_zero;
          Message_Voice := Treasure.Audio_zero;
          Message_Document := Treasure.Document_zero;
          Message_Location := l |};
     Update_CallbackQuerry := CallbackQuerry_zero |}.

(** The third candidate, "ducks". *)
Definition ducks : Location :=
  {| Latitude := 48.143296; Longitude := 11.596526 |}.

(** A point north of [ducks], from which the math library of the samples
    puts [ducks] at 2000 meters exactly. *)
Definition north_of_ducks : Location :=
  {| Latitude := 48.16126240990673; Longitude := 11.596526026730187 |}.

(** A decoder that answers every body with the update [u]. *)
Definition decode_as (u : Update) (body : string) (update : Update)
  : Update * option error := (u, None).

(** A math library for the samples: the first terms of the power series
    of the sine, the cosine and the arc sine, the machine's square root,
    and the square for the power of 2. *)
Definition math : Math :=
  {| math_Sin := fun x =>
       let x2 := (x * x)%float in
       (x * (1 - x2 / 6 + x2 * x2 / 120))%float;
     math_Cos := fun x =>
       let x2 := (x * x)%float in
       (1 - x2 / 2 + x2 * x2 / 24 - x2 * x2 * x2 / 720)%float;
     math_Asin := fun x =>
       let x2 := (x * x)%float in
       (x * (1 + x2 / 6 + 3 * x2 * x2 / 40))%float;
     math_Sqrt := PrimFloat.sqrt;
     math_Pow := fun x y => if PrimFloat.eqb y 2 then (x * x)%float else nan |}.

End Samples64.

(** ** The scanner of the decoder *)

(** What holds of the scanner as long as it has neither refused a byte
    nor seen the end of the top-level value: no error is recorded, the
    state after the top-level value is entered with its flag set, and the
    state after an opening bracket has that array on the stack. *)
Definition scanner_ok (s : Json.scanner) : Prop :=
  Json.err s = None
  /\ (Json.step s = Json.AtEndTop -> Json.endTop s = true)
  /\ (Json.step s = Json.AtBeginValueOrEmpty -> Json.parseState s <> []).

(** ** Sample bodies for the decoder *)

Module SamplesJson.

Definition dq : string := String Json.quote EmptyString.

(** The body [{"update_id":7}]. *)
Definition update7 : string := "{" ++ dq ++ "update_id" ++ dq ++ ":7}".

(** The same body, followed by bytes that are no JSON. *)
Definition update7_garbage : string := update7 ++ "}}garbage".

(** The body [{"update_id":0}]. *)
Definition update0 : string := "{" ++ dq ++ "update_id" ++ dq ++ ":0}".

(** An unmarshaller for a few values: [update7] and [update0] set the
    identifier, the empty object leaves the struct as it is, and any
    other value is refused. *)
Definition unmarshal1 (value : string) (u : Celebration.Update)
  : Celebration.Update * option error :=
  let set id :=
    {| Celebration.UpdateId := id;
       Celebration.Update_Message := Celebration.Update_Message u;
       Celebration.Update_CallbackQuerry := Celebration.Update_CallbackQuerry u |} in
  if String.eqb value update7 then (set 7, None)
  else if String.eqb value update0 then (set 0, None)
  else if String.eqb value "{}" then (u, None)
  else (u, Some (LibError "json: cannot unmarshal")).

Definition unmarshal2 (value : string) (u : Treasure64.Update)
  : Treasure64.Update * option error :=
  let set id :=
    {| Treasure64.UpdateId := id;
       Treasure64.Update_Message := Treasure64.Update_Message u;
       Treasure64.Update_CallbackQuerry := Treasure64.Update_CallbackQuerry u |} in
  if String.eqb value update7 then (set 7, None)
  else if String.eqb value update0 then (set 0, None)
  else if String.eqb value "{}" then (u, None)
  else (u, Some (LibError "json: cannot unmarshal")).

End SamplesJson.

(* ================================================================== *)
(** * Reasoning about handler computations *)
(* ================================================================== *)

Lemma outbound_app (tr1 tr2 : Trace) :
  outbound (tr1 ++ tr2) = (outbound tr1 ++ outbound tr2)%list.
Proof.
  induction tr1 as [|e tr1 IH]; simpl; [reflexivity|].
  destruct e; simpl; rewrite IH; reflexivity.
Qed.

Lemma emits_ret {A} (a : A) (P : A -> Prop) : P a -> emits (ret a) [] P.
Proof.
  intros HP net tr. exists a, tr. unfold ret.
  rewrite app_nil_r. auto.
Qed.

Lemma emits_bind {A B} (m : Io A) (k : A -> Io B) p1 p2 p
  (P : A -> Prop) (Q : B -> Prop) :
  emits m p1 P ->
  (forall a, P a -> emits (k a) p2 Q) ->
  p = (p1 ++ p2)%list ->
  emits (bind m k) p Q.
Proof.
  intros Hm Hk -> net tr.
  destruct (Hm net tr) as (a & tr1 & E1 & O1 & Pa).
  destruct (Hk a Pa net tr1) as (b & tr2 & E2 & O2 & Qb).
  exists b, tr2. unfold bind. rewrite E1, E2, O2, O1, app_assoc. auto.
Qed.

Lemma emits_weaken {A} (m : Io A) p (P Q : A -> Prop) :
  emits m p P -> (forall a, P a -> Q a) -> emits m p Q.
Proof.
  intros Hm HPQ net tr.
  destruct (Hm net tr) as (a & tr1 & E1 & O1 & Pa).
  exists a, tr1. auto.
Qed.

Lemma emits_log (format : string) :
  emits (log_Printf format) [] (fun _ => True).
Proof.
  intros net tr. exists tt, (tr ++ [Log format])%list.
  unfold log_Printf. rewrite outbound_app, app_nil_r. simpl.
  rewrite app_nil_r. auto.
Qed.

Lemma emits_post (url : Endpoint) (form : Values) :
  emits (http_PostForm url form) [ (url, form) ] (fun _ => True).
Proof.
  intros net tr. exists (net tr url form), (tr ++ [Post url form])%list.
  unfold http_PostForm. rewrite outbound_app. simpl. auto.
Qed.

(** A computation that [emits] never panics, and its calls are known. *)
Lemma emits_calls {A} (m : Io A) p (P : A -> Prop) :
  emits m p P ->
  forall net, calls_of m net = p /\ panicked (m net []) = false.
Proof.
  intros Hm net. destruct (Hm net []) as (a & tr & E & O & _).
  unfold calls_of. rewrite E. simpl. auto.
Qed.


(* ================================================================== *)
(** * Variant 2: senders, gate and geofence *)
(* ================================================================== *)

Lemma after_PostForm2_emits (r : Response * option error) :
  emits (Treasure.after_PostForm r) [] (fun _ => True).
Proof.
  destruct r as [[body [e|]] [err|]]; unfold Treasure.after_PostForm,
    ioutil_ReadAll; simpl.
  - eapply emits_bind; [apply emits_log | intros; apply emits_ret; exact I | reflexivity].
  - eapply emits_bind; [apply emits_log | intros; apply emits_ret; exact I | reflexivity].
  - eapply emits_bind; [apply emits_log | intros; apply emits_ret; exact I | reflexivity].
  - eapply emits_bind; [apply emits_log | intros; apply emits_ret; exact I | reflexivity].
Qed.

Lemma sendTextMessage_emits (chatId : Z) (text : string) :
  emits (Treasure.sendTextMessage chatId text) [ text_post chatId text ]
        (fun _ => True).
Proof.
  unfold Treasure.sendTextMessage, text_post.
  eapply emits_bind; [apply emits_log | intros _ _ | reflexivity].
  eapply emits_bind; [apply emits_post | intros r _ | reflexivity].
  apply after_PostForm2_emits.
Qed.

Lemma sendLocationMessage_emits (chatId : Z) (l : Treasure.Location) :
  emits (Treasure.sendLocationMessage chatId l) [ location_post chatId l ]
        (fun _ => True).
Proof.
  unfold Treasure.sendLocationMessage, location_post.
  eapply emits_bind; [apply emits_log | intros _ _ | reflexivity].
  eapply emits_bind; [apply emits_post | intros r _ | reflexivity].
  apply after_PostForm2_emits.
Qed.

Lemma log_outcome2_emits (e : option error) :
  emits (Treasure.log_outcome e) [] (fun _ => True).
Proof. destruct e; apply emits_log. Qed.

Lemma existsb_filter_nil {A} (f : A -> bool) (l : list A) :
  filter f l = [] -> existsb f l = false.
Proof.
  induction l as [|x l IH]; simpl; [reflexivity|].
  destruct (f x); [discriminate | exact IH].
Qed.

Lemma existsb_filter_cons {A} (f : A -> bool) (l : list A) x r :
  filter f l = x :: r -> existsb f l = true.
Proof.
  induction l as [|y l IH]; simpl; [discriminate|].
  destruct (f y); [reflexivity | exact IH].
Qed.

(** The loop over the candidates: one hint per candidate within the
    threshold, in list order, and [found] records whether there was one. *)
Lemma range_LOCATIONS_emits (u : Treasure.Update) (ls : list Treasure.Location) :
  forall (t : Z) (found : bool),
    let chat := Treasure.Chat_Id (Treasure.Message_Chat (Treasure.Update_Message u)) in
    let probe := Treasure.Message_Location (Treasure.Update_Message u) in
    emits (Treasure.range_LOCATIONS u t ls found)
          (flat_map (hint_posts chat) (filter (near probe) (enumerate_from t ls)))
          (fun b => b = found || existsb (near probe) (enumerate_from t ls)).
Proof.
  induction ls as [|l rest IH]; intros t found chat probe;
    subst chat probe; cbv zeta in *; simpl.
  - apply emits_ret. rewrite orb_false_r. reflexivity.
  - destruct (near _ (t, l)) eqn:Hn; unfold near in Hn; simpl snd in Hn;
      destruct (Rlt_dec _ 2000) as [Hlt|Hge] in Hn |- *;
      try discriminate Hn; clear Hn.
    + eapply emits_bind with (P := fun b => b = true).
      * eapply emits_bind; [apply sendTextMessage_emits | intros [? e1] _ | reflexivity].
        eapply emits_bind; [apply sendTextMessage_emits | intros ? _ | reflexivity].
        eapply emits_bind; [apply log_outcome2_emits | intros ? _ | reflexivity].
        eapply emits_bind; [apply sendLocationMessage_emits | intros [? e2] _ | reflexivity].
        eapply emits_bind; [apply log_outcome2_emits | intros ? _ | reflexivity].
        apply emits_ret. reflexivity.
      * intros b ->. eapply emits_weaken; [apply (IH (t + 1) true)|].
        intros b ->. simpl. destruct found; reflexivity.
      * reflexivity.
    + eapply emits_bind with (P := fun b => b = found).
      * apply emits_ret. reflexivity.
      * intros b ->. eapply emits_weaken; [apply (IH (t + 1) found)|].
        intros b ->. reflexivity.
      * reflexivity.
Qed.

Section Dispatch2.

Variable json_Decode : string -> Treasure.Update -> Treasure.Update * option error.
Variable strings_ToLower : string -> string.

(** A body that decodes to an update with a non-zero identifier is handed
    to the dispatch as it is. *)
Lemma handler2_parsed (body : string) (u : Treasure.Update) :
  json_Decode body Treasure.Update_zero = (u, None) ->
  Treasure.UpdateId u <> 0 ->
  forall net tr,
    Treasure.HandleTelegramWebHook json_Decode strings_ToLower body net tr
    = Treasure.dispatch strings_ToLower u net tr.
Proof.
  intros Hdec Hid net tr.
  unfold Treasure.HandleTelegramWebHook, Treasure.parseTelegramRequest, bind.
  rewrite Hdec. apply Z.eqb_neq in Hid. rewrite Hid. reflexivity.
Qed.

Lemma dispatch2_not_allowed (u : Treasure.Update) :
  Treasure.isAllowed
    (Treasure.Chat_Username (Treasure.Message_Chat (Treasure.Update_Message u)))
  = false ->
  forall net tr, Treasure.dispatch strings_ToLower u net tr = Returned tt tr.
Proof.
  intros Hna net tr. unfold Treasure.dispatch. rewrite Hna. reflexivity.
Qed.

Lemma dispatch2_geofence (u : Treasure.Update) :
  let m := Treasure.Update_Message u in
  Treasure.isAllowed (Treasure.Chat_Username (Treasure.Message_Chat m)) = true ->
  Treasure.Message_Text m <> "/start" ->
  Treasure.Message_Text m <> "/unlock" ->
  Treasure.to_lower_letters strings_ToLower (Treasure.Message_Text m) <> "afsio" ->
  (Treasure.Latitude (Treasure.Message_Location m) > 0)%R ->
  emits (Treasure.dispatch strings_ToLower u)
        (geofence_posts (Treasure.Chat_Id (Treasure.Message_Chat m))
                        (Treasure.Message_Location m))
        (fun _ => True).
Proof.
  intros m Hal Hs Hu Hw Hlat. unfold Treasure.dispatch. fold m.
  rewrite Hal. simpl negb. cbv iota.
  apply String.eqb_neq in Hs, Hu, Hw. rewrite Hs, Hu, Hw.
  destruct (Rgt_dec (Treasure.Latitude (Treasure.Message_Location m)) 0)
    as [_|Hn]; [|contradiction].
  eapply emits_bind; [| intros ? _; apply emits_log | symmetry; apply app_nil_r].
  unfold geofence_posts, candidates.
  pose proof (range_LOCATIONS_emits u Treasure.LOCATIONS 0 false) as Hloop.
  cbv zeta in Hloop. fold m in Hloop.
  destruct (filter (near (Treasure.Message_Location m))
                   (enumerate_from 0 Treasure.LOCATIONS)) as [|c hits] eqn:Hf.
  - apply existsb_filter_nil in Hf.
    eapply emits_bind; [exact Hloop | | reflexivity].
    intros b ->. rewrite Hf. simpl.
    eapply emits_bind; [apply sendTextMessage_emits | intros [? e] _ | reflexivity].
    apply log_outcome2_emits.
  - pose proof (existsb_filter_cons _ _ Hf) as Hex.
    eapply emits_bind; [exact Hloop | | symmetry; apply app_nil_r].
    intros b ->. rewrite Hex. simpl.
    apply emits_ret. exact I.
Qed.

End Dispatch2.

(** ** Membership in the geofence answer *)

Lemma near_true_iff (probe : Treasure.Location) (c : Z * Treasure.Location) :
  near probe c = true <-> (Treasure.Distance (snd c) probe < 2000)%R.
Proof.
  unfold near. destruct (Rlt_dec _ 2000); split; intros H;
    first [assumption | reflexivity | discriminate | contradiction].
Qed.

Lemma candidates_enumerated :
  List.length candidates = 5%nat
  /\ map fst candidates = [0; 1; 2; 3; 4]
  /\ map snd candidates = Treasure.LOCATIONS.
Proof. repeat split. Qed.





Lemma geofence_hits (chatId : Z) (probe : Treasure.Location)
  (x : Endpoint * Values) :
  In x (geofence_posts chatId probe) ->
  x = text_post chatId Treasure.msg_no_hints
  \/ exists c, In c candidates /\ near probe c = true /\ In x (hint_posts chatId c).
Proof.
  unfold geofence_posts.
  destruct (filter (near probe) candidates) as [|c0 hits] eqn:Hf.
  - intros [<-|[]]. left. reflexivity.
  - rewrite <- Hf. intros Hin. apply in_flat_map in Hin as (c & Hc & Hx).
    apply filter_In in Hc as [Hc Hn]. right. exists c. auto.
Qed.

Lemma geofence_triggers (chatId : Z) (probe : Treasure.Location)
  (c : Z * Treasure.Location) (x : Endpoint * Values) :
  In c candidates -> near probe c = true -> In x (hint_posts chatId c) ->
  In x (geofence_posts chatId probe).
Proof.
  intros Hc Hn Hx. unfold geofence_posts.
  assert (Hin : In c (filter (near probe) candidates))
    by (apply filter_In; auto).
  destruct (filter (near probe) candidates) as [|c0 hits] eqn:Hf;
    [contradiction|].
  apply in_flat_map. exists c. auto.
Qed.

(** The supervisor notes of distinct candidates differ, and none of them
    is one of the fixed texts. *)
Lemma msg_checking_inj (t t' : Z) :
  (t = 0 \/ t = 1 \/ t = 2 \/ t = 3 \/ t = 4) ->
  (t' = 0 \/ t' = 1 \/ t' = 2 \/ t' = 3 \/ t' = 4) ->
  Treasure.msg_checking t = Treasure.msg_checking t' -> t = t'.
Proof.
  intros [->|[->|[->|[->| ->]]]] [->|[->|[->|[->| ->]]]] E;
    try reflexivity; vm_compute in E; discriminate E.
Qed.

Lemma msg_checking_fresh (t : Z) :
  (t = 0 \/ t = 1 \/ t = 2 \/ t = 3 \/ t = 4) ->
  Treasure.msg_checking t <> Treasure.msg_check_place
  /\ Treasure.msg_checking t <> Treasure.msg_no_hints.
Proof.
  intros [->|[->|[->|[->| ->]]]];
    split; intros E; vm_compute in E; discriminate E.
Qed.

Lemma text_post_inj (c c' : Z) (s s' : string) :
  text_post c s = text_post c' s' -> s = s'.
Proof. unfold text_post. intros E. injection E as _ E. exact E. Qed.



(** ** The allow-list *)

Lemma isAllowed2_range_In (users : list string) (e : string) :
  Treasure.isAllowed_range users e = true <-> In e users.
Proof.
  induction users as [|a rest IH]; simpl.
  - split; [discriminate | contradiction].
  - destruct (String.eqb_spec a e) as [->|Hne].
    + split; auto.
    + rewrite IH. split; [auto | intros [E|H]; [contradiction | exact H]].
Qed.

Lemma isAllowed2_false (e : string) :
  ~ In e [ "antonhulikau"; "sonicfelidae" ] -> Treasure.isAllowed e = false.
Proof.
  intros Hn. destruct (Treasure.isAllowed e) eqn:E; [|reflexivity].
  apply isAllowed2_range_In in E. contradiction.
Qed.

(** ** The haversine distance *)

Open Scope R_scope.

Lemma PI_lower : 3.1415 < PI.
Proof.
  pose proof (PI_2_3_7_ineq 2) as [H _].
  unfold sum_f_R0, tg_alt, PI_2_3_7_tg, Ratan_seq in H. simpl in H. lra.
Qed.

Lemma PI_upper : PI < 3.1416.
Proof.
  pose proof (PI_2_3_7_ineq 2) as [_ H].
  unfold sum_f_R0, tg_alt, PI_2_3_7_tg, Ratan_seq in H. simpl in H. lra.
Qed.

Lemma hsin_0 : Treasure.hsin 0 = 0.
Proof.
  unfold Treasure.hsin. replace (0 / 2) with 0 by lra.
  rewrite sin_0. ring.
Qed.

Lemma hsin_opp (x : R) : Treasure.hsin (- x) = Treasure.hsin x.
Proof.
  unfold Treasure.hsin. replace (- x / 2) with (- (x / 2)) by lra.
  rewrite sin_neg. ring.
Qed.

Lemma Distance_formula (l1 l2 : Treasure.Location) :
  let rad x := x * PI / 180 in
  let h :=
    (sin ((rad (Treasure.Latitude l2) - rad (Treasure.Latitude l1)) / 2))²
    + cos (rad (Treasure.Latitude l1)) * cos (rad (Treasure.Latitude l2))
      * (sin ((rad (Treasure.Longitude l2) - rad (Treasure.Longitude l1)) / 2))² in
  Treasure.Distance l1 l2 = 2 * 6378100 * asin (sqrt h).
Proof.
  unfold Treasure.Distance, Treasure.hsin, Rsqr. cbv zeta.
  do 3 f_equal. ring.
Qed.

Lemma Distance_self (p : Treasure.Location) : Treasure.Distance p p = 0.
Proof.
  unfold Treasure.Distance. cbv zeta.
  rewrite !Rminus_diag, hsin_0.
  rewrite Rmult_0_r, Rplus_0_r, sqrt_0, asin_0. ring.
Qed.

Lemma Distance_sym (a b : Treasure.Location) :
  Treasure.Distance a b = Treasure.Distance b a.
Proof.
  unfold Treasure.Distance. cbv zeta.
  rewrite <- (hsin_opp (Treasure.Latitude a * PI / 180 - _)).
  rewrite <- (hsin_opp (Treasure.Longitude a * PI / 180 - _)).
  rewrite !Ropp_minus_distr.
  rewrite (Rmult_comm (cos (Treasure.Latitude a * PI / 180))).
  reflexivity.
Qed.



Close Scope R_scope.

(* ================================================================== *)
(** * Variant 2 on float64: the geofence *)
(* ================================================================== *)

(** ** Comparisons of float64 *)

Lemma SFcompare_Lt_Gt (x y : spec_float) :
  SFcompare x y = Some Lt -> SFcompare y x = Some Gt.
Proof.
  destruct x as [sx|sx| |sx mx ex], y as [sy|sy| |sy my ey]; simpl;
    try discriminate;
    try (destruct sx; simpl; congruence);
    try (destruct sy; simpl; congruence);
    try (destruct sx, sy; simpl; congruence).
  destruct sx, sy; try congruence;
    change (Pos.compare_cont Eq mx my) with (mx ?= my)%positive;
    change (Pos.compare_cont Eq my mx) with (my ?= mx)%positive;
    rewrite (Z.compare_antisym ex ey), (Pos.compare_antisym mx my);
    destruct (ex ?= ey)%Z; simpl; try congruence;
    destruct (mx ?= my)%positive; simpl; congruence.
Qed.

(** [x == y] excludes [x < y]. *)
Lemma float_eqb_not_ltb (x y : float) :
  PrimFloat.eqb x y = true -> PrimFloat.ltb x y = false.
Proof.
  rewrite FloatAxioms.eqb_spec, FloatAxioms.ltb_spec. unfold SFeqb, SFltb.
  destruct (SFcompare (Prim2SF x) (Prim2SF y)) as [[| |]|];
    intros H; first [reflexivity | discriminate H].
Qed.

(** [y < x] excludes [x < y]. *)
Lemma float_gtb_not_ltb (x y : float) :
  PrimFloat.ltb y x = true -> PrimFloat.ltb x y = false.
Proof.
  rewrite !FloatAxioms.ltb_spec. unfold SFltb.
  destruct (SFcompare (Prim2SF y) (Prim2SF x)) as [[| |]|] eqn:E;
    intros H; try discriminate H.
  rewrite (SFcompare_Lt_Gt _ _ E). reflexivity.
Qed.

(** ** Arithmetic of float64 *)
















(** ** The loop and the branch *)


Lemma candidates64_enumerated :
  candidates64 = enumerate64_from 0 Treasure64.LOCATIONS
  /\ map fst candidates64 = [0; 1; 2; 3; 4]
  /\ map snd candidates64 = Treasure64.LOCATIONS.
Proof. repeat split. Qed.

Lemma sendLocationMessage64_emits (chatId : Z) (l : Treasure64.Location) :
  emits (Treasure64.sendLocationMessage chatId l) [ location_post64 chatId l ]
        (fun _ => True).
Proof.
  unfold Treasure64.sendLocationMessage, location_post64.
  eapply emits_bind; [apply emits_log | intros _ _ | reflexivity].
  eapply emits_bind; [apply emits_post | intros r _ | reflexivity].
  apply after_PostForm2_emits.
Qed.

(** The loop over the candidates: one hint per candidate within the
    threshold, in list order, and [found] records whether there was one. *)
Lemma range_LOCATIONS64_emits (math : Treasure64.Math) (u : Treasure64.Update)
  (ls : list Treasure64.Location) :
  forall (t : Z) (found : bool),
    let chat := Treasure.Chat_Id (Treasure64.Message_Chat (Treasure64.Update_Message u)) in
    let probe := Treasure64.Message_Location (Treasure64.Update_Message u) in
    emits (Treasure64.range_LOCATIONS math u t ls found)
          (flat_map (hint64 chat)
                    (filter (within math probe) (enumerate64_from t ls)))
          (fun b => b = found || existsb (within math probe) (enumerate64_from t ls)).
Proof.
  induction ls as [|l rest IH]; intros t found chat probe;
    subst chat probe; cbv zeta in *; simpl.
  - apply emits_ret. rewrite orb_false_r. reflexivity.
  - change (PrimFloat.ltb
              (Treasure64.Distance math l
                 (Treasure64.Message_Location (Treasure64.Update_Message u)))
              2000)
      with (within math
              (Treasure64.Message_Location (Treasure64.Update_Message u)) (t, l)).
    destruct (within math _ (t, l)) eqn:Hn.
    + eapply emits_bind with (P := fun b => b = true).
      * eapply emits_bind; [apply sendTextMessage_emits | intros [? e1] _ | reflexivity].
        eapply emits_bind; [apply sendTextMessage_emits | intros ? _ | reflexivity].
        eapply emits_bind; [apply log_outcome2_emits | intros ? _ | reflexivity].
        eapply emits_bind; [apply sendLocationMessage64_emits | intros [? e2] _ | reflexivity].
        eapply emits_bind; [apply log_outcome2_emits | intros ? _ | reflexivity].
        apply emits_ret. reflexivity.
      * intros b ->. eapply emits_weaken; [apply (IH (t + 1) true)|].
        intros b ->. simpl. destruct found; reflexivity.
      * reflexivity.
    + eapply emits_bind with (P := fun b => b = found).
      * apply emits_ret. reflexivity.
      * intros b ->. eapply emits_weaken; [apply (IH (t + 1) found)|].
        intros b ->. reflexivity.
      * reflexivity.
Qed.

(** ** The distance on float64 *)

Section Distance64.

Variable math : Treasure64.Math.

(** What the proofs use of package math: its values at 0, that the sine
    is odd and that the square is even.  Go's [math.Sin], [math.Pow],
    [math.Sqrt] and [math.Asin] have these properties. *)
Hypothesis Sin_0 : Treasure64.math_Sin math 0 = 0%float.
Hypothesis Pow_0 : Treasure64.math_Pow math 0 2 = 0%float.
Hypothesis Sqrt_0 : Treasure64.math_Sqrt math 0 = 0%float.
Hypothesis Asin_0 : Treasure64.math_Asin math 0 = 0%float.
Hypothesis Sin_odd :
  forall x, Treasure64.math_Sin math (- x) = (- Treasure64.math_Sin math x)%float.
Hypothesis Pow_even :
  forall x, Treasure64.math_Pow math (- x) 2 = Treasure64.math_Pow math x 2.





End Distance64.



(** ** The handler on the geofence branch *)

Section Dispatch64.

Variable json_Decode : string -> Treasure64.Update -> Treasure64.Update * option error.
Variable strings_ToLower : string -> string.
Variable math : Treasure64.Math.

Lemma handler64_parsed (body : string) (u : Treasure64.Update) :
  json_Decode body Treasure64.Update_zero = (u, None) ->
  Treasure64.UpdateId u <> 0 ->
  forall net tr,
    Treasure64.HandleTelegramWebHook json_Decode strings_ToLower math body net tr
    = Treasure64.dispatch strings_ToLower math u net tr.
Proof.
  intros Hdec Hid net tr.
  unfold Treasure64.HandleTelegramWebHook, Treasure64.parseTelegramRequest, bind.
  rewrite Hdec. apply Z.eqb_neq in Hid. rewrite Hid. reflexivity.
Qed.

Lemma dispatch64_geofence (u : Treasure64.Update) :
  let m := Treasure64.Update_Message u in
  In (Treasure.Chat_Username (Treasure64.Message_Chat m))
     [ "antonhulikau"; "sonicfelidae" ] ->
  Treasure64.Message_Text m <> "/start" ->
  Treasure64.Message_Text m <> "/unlock" ->
  strings_ToLower (Treasure64.Message_Text m) <> "afsio" ->
  PrimFloat.ltb 0 (Treasure64.Latitude (Treasure64.Message_Location m)) = true ->
  emits (Treasure64.dispatch strings_ToLower math u)
        (geofence64 math (Treasure.Chat_Id (Treasure64.Message_Chat m))
                    (Treasure64.Message_Location m))
        (fun _ => True).
Proof.
  intros m Hal Hs Hu Hw Hlat. unfold Treasure64.dispatch. fold m.
  apply (isAllowed2_range_In Treasure.ALLOWED_USERS) in Hal.
  fold (Treasure.isAllowed (Treasure.Chat_Username (Treasure64.Message_Chat m))) in Hal.
  rewrite Hal. simpl negb. cbv iota.
  unfold Treasure.to_lower_letters.
  apply String.eqb_neq in Hs, Hu, Hw. rewrite Hs, Hu, Hw, Hlat.
  eapply emits_bind; [| intros ? _; apply emits_log | symmetry; apply app_nil_r].
  unfold geofence64.
  destruct candidates64_enumerated as (-> & _ & _).
  pose proof (range_LOCATIONS64_emits math u Treasure64.LOCATIONS 0 false) as Hloop.
  cbv zeta in Hloop. fold m in Hloop.
  destruct (filter (within math (Treasure64.Message_Location m))
                   (enumerate64_from 0 Treasure64.LOCATIONS)) as [|c hits] eqn:Hf.
  - apply existsb_filter_nil in Hf.
    eapply emits_bind; [exact Hloop | | reflexivity].
    intros b ->. rewrite Hf. simpl.
    eapply emits_bind; [apply sendTextMessage_emits | intros [? e] _ | reflexivity].
    apply log_outcome2_emits.
  - pose proof (existsb_filter_cons _ _ Hf) as Hex.
    eapply emits_bind; [exact Hloop | | symmetry; apply app_nil_r].
    intros b ->. rewrite Hex. simpl.
    apply emits_ret. exact I.
Qed.

(** The calls of the handler on the geofence branch. *)
Lemma handler64_geofence_calls (body : string) (u : Treasure64.Update)
  (net : Transport) :
  json_Decode body Treasure64.Update_zero = (u, None) ->
  Treasure64.UpdateId u <> 0 ->
  let m := Treasure64.Update_Message u in
  In (Treasure.Chat_Username (Treasure64.Message_Chat m))
     [ "antonhulikau"; "sonicfelidae" ] ->
  Treasure64.Message_Text m <> "/start" ->
  Treasure64.Message_Text m <> "/unlock" ->
  strings_ToLower (Treasure64.Message_Text m) <> "afsio" ->
  PrimFloat.ltb 0 (Treasure64.Latitude (Treasure64.Message_Location m)) = true ->
  let run :=
    Treasure64.HandleTelegramWebHook json_Decode strings_ToLower math body net [] in
  panicked run = false
  /\ outbound (trace_of run)
     = geofence64 math (Treasure.Chat_Id (Treasure64.Message_Chat m))
                  (Treasure64.Message_Location m).
Proof.
  intros Hdec Hid m Hal Hs Hu Hw Hlat run.
  pose proof (@dispatch64_geofence u Hal Hs Hu Hw Hlat) as He.
  destruct (emits_calls He net) as [Hcalls Hpanic].
  unfold calls_of in Hcalls. unfold run.
  rewrite (handler64_parsed Hdec Hid). split; assumption.
Qed.

End Dispatch64.

(** ** Membership in the geofence answer *)

Lemma candidate64_index (t : Z) (l : Treasure64.Location) :
  In (t, l) candidates64 -> t = 0 \/ t = 1 \/ t = 2 \/ t = 3 \/ t = 4.
Proof.
  unfold candidates64. simpl.
  intros [H|[H|[H|[H|[H|[]]]]]]; injection H as <- _; tauto.
Qed.

Lemma candidates64_functional (t : Z) (l l' : Treasure64.Location) :
  In (t, l) candidates64 -> In (t, l') candidates64 -> l = l'.
Proof.
  unfold candidates64. simpl.
  intros [H|[H|[H|[H|[H|[]]]]]] [H'|[H'|[H'|[H'|[H'|[]]]]]]; congruence.
Qed.

Lemma candidates64_NoDup : NoDup candidates64.
Proof.
  apply (NoDup_map_inv fst).
  destruct candidates64_enumerated as (_ & -> & _).
  repeat constructor; simpl; intuition discriminate.
Qed.

Lemma location64_eta (l l' : Treasure64.Location) :
  Treasure64.Longitude l = Treasure64.Longitude l' ->
  Treasure64.Latitude l = Treasure64.Latitude l' -> l = l'.
Proof. destruct l, l'; simpl; intros -> ->; reflexivity. Qed.

Lemma geofence64_hits (math : Treasure64.Math) (chatId : Z)
  (probe : Treasure64.Location) (x : Endpoint * Values) :
  In x (geofence64 math chatId probe) ->
  x = text_post chatId "Вблизи нет подсказок"
  \/ exists c, In c candidates64 /\ within math probe c = true
               /\ In x (hint64 chatId c).
Proof.
  unfold geofence64.
  destruct (filter (within math probe) candidates64) as [|c0 hits] eqn:Hf.
  - intros [<-|[]]. left. reflexivity.
  - rewrite <- Hf. intros Hin. apply in_flat_map in Hin as (c & Hc & Hx).
    apply filter_In in Hc as [Hc Hn]. right. exists c. auto.
Qed.

Lemma geofence64_triggers (math : Treasure64.Math) (chatId : Z)
  (probe : Treasure64.Location) (c : Z * Treasure64.Location)
  (x : Endpoint * Values) :
  In c candidates64 -> within math probe c = true -> In x (hint64 chatId c) ->
  In x (geofence64 math chatId probe).
Proof.
  intros Hc Hn Hx. unfold geofence64.
  assert (Hin : In c (filter (within math probe) candidates64))
    by (apply filter_In; auto).
  destruct (filter (within math probe) candidates64) as [|c0 hits] eqn:Hf;
    [contradiction|].
  apply in_flat_map. exists c. auto.
Qed.

(** Only a candidate within the threshold has its hint among the calls. *)
Lemma hint64_location_only_if_within (math : Treasure64.Math) (chatId t : Z)
  (probe l : Treasure64.Location) :
  In (location_post64 chatId l) (geofence64 math chatId probe) ->
  within math probe (t, l) = true.
Proof.
  intros Hin. apply geofence64_hits in Hin as [E | ([t' l'] & Hc & Hn & Hx)].
  - discriminate E.
  - destruct Hx as [E|[E|[E|[]]]]; try discriminate E.
    unfold location_post64 in E. simpl snd in E. injection E as Elon Elat.
    rewrite (location64_eta l l'); auto.
Qed.

Lemma hint64_note_only_if_within (math : Treasure64.Math) (chatId t : Z)
  (probe l : Treasure64.Location) :
  In (t, l) candidates64 ->
  In (text_post 49208041 ("Соня проверяет " ++ Itoa t ++ "!")%string)
     (geofence64 math chatId probe) ->
  within math probe (t, l) = true.
Proof.
  intros Hc Hin. pose proof (candidate64_index Hc) as Ht.
  destruct (msg_checking_fresh Ht) as [Hp Hh].
  apply geofence64_hits in Hin as [E | ([t' l'] & Hc' & Hn & Hx)].
  - apply text_post_inj in E. contradiction.
  - destruct Hx as [E|[E|[E|[]]]].
    + apply text_post_inj in E. symmetry in E. contradiction.
    + apply text_post_inj in E. simpl fst in E. symmetry in E.
      apply (msg_checking_inj Ht (candidate64_index Hc')) in E. subst t'.
      rewrite (candidates64_functional Hc Hc'). exact Hn.
    + discriminate E.
Qed.

(* ================================================================== *)
(** * Variant 2: the claims *)
(* ================================================================== *)

(** C1 - In variant 2, an update from an allowed chat username whose text
    is neither [/start] nor [/unlock] nor (in lower case) the secret word,
    and whose Location has a latitude above 0, makes the handler go
    through all five static candidates, indices 0 to 4, without stopping
    at a match: every candidate whose great-circle distance to the
    supplied location, computed in float64, compares below 2000 meters
    triggers, in list order, the text "Проверь это место" to the user,
    the note "Соня проверяет <index>!" to the supervisor chat 49208041,
    and the candidate's coordinates as a location message to the user;
    and when no candidate is within the threshold the handler sends
    exactly the one text "Вблизи нет подсказок".  The handler returns
    without a panic.  This holds whatever package math computes. *)
Theorem geofence_hints_every_candidate_in_range :
  forall (json_Decode : string -> Treasure64.Update -> Treasure64.Update * option error)
         (strings_ToLower : string -> string) (math : Treasure64.Math)
         (body : string) (u : Treasure64.Update) (net : Transport),
    json_Decode body Treasure64.Update_zero = (u, None) ->
    Treasure64.UpdateId u <> 0 ->
    let m := Treasure64.Update_Message u in
    let chat := Treasure.Chat_Id (Treasure64.Message_Chat m) in
    let probe := Treasure64.Message_Location m in
    In (Treasure.Chat_Username (Treasure64.Message_Chat m))
       [ "antonhulikau"; "sonicfelidae" ] ->
    Treasure64.Message_Text m <> "/start" ->
    Treasure64.Message_Text m <> "/unlock" ->
    strings_ToLower (Treasure64.Message_Text m) <> "afsio" ->
    PrimFloat.ltb 0 (Treasure64.Latitude probe) = true ->
    let run :=
      Treasure64.HandleTelegramWebHook json_Decode strings_ToLower math body net [] in
    panicked run = false
    /\ map fst candidates64 = [0; 1; 2; 3; 4]
    /\ map snd candidates64 = Treasure64.LOCATIONS
    /\ (forall c, within math probe c
                  = PrimFloat.ltb (Treasure64.Distance math (snd c) probe) 2000)
    /\ outbound (trace_of run) =
         match filter (within math probe) candidates64 with
         | [] => [ text_post chat "Вблизи нет подсказок" ]
         | hits =>
             flat_map
               (fun c =>
                  [ text_post chat "Проверь это место";
                    text_post 49208041
                      ("Соня проверяет " ++ Itoa (fst c) ++ "!")%string;
                    (telegramApiSendLocation,
                     [ ("chat_id", Str (Itoa chat));
                       ("longitude", FormatFloat64 (Treasure64.Longitude (snd c)));
                       ("latitude", FormatFloat64 (Treasure64.Latitude (snd c)));
                       ("horizontal_accuracy", Str "2") ]) ])
               hits
         end.
Proof.
  intros json_Decode strings_ToLower math body u net Hdec Hid m chat probe
    Hal Hs Hu Hw Hlat run.
  destruct (@handler64_geofence_calls json_Decode strings_ToLower math body u net
              Hdec Hid Hal Hs Hu Hw Hlat) as [Hpanic Hcalls].
  destruct candidates64_enumerated as (_ & Hfst & Hsnd).
  split; [exact Hpanic|]. split; [exact Hfst|]. split; [exact Hsnd|].
  split; [intros c; reflexivity|]. exact Hcalls.
Qed.

Lemma geofence_hints_every_candidate_in_range_witness :
  let run :=
    Treasure64.HandleTelegramWebHook
      (Samples64.decode_as (Samples64.message "" Samples64.ducks))
      ascii_ToLower Samples64.math "{}" net_ok [] in
  panicked run = false
  /\ outbound (trace_of run)
     = [ (telegramApiSend,
          [ ("chat_id", Str "42"); ("text", Str "Проверь это место") ]);
         (telegramApiSend,
          [ ("chat_id", Str "49208041"); ("text", Str "Соня проверяет 2!") ]);
         (telegramApiSendLocation,
          [ ("chat_id", Str "42");
            ("longitude", FormatFloat64 11.596526);
            ("latitude", FormatFloat64 48.143296);
            ("horizontal_accuracy", Str "2") ]) ].
Proof.
  pose proof (@geofence_hints_every_candidate_in_range
                (Samples64.decode_as (Samples64.message "" Samples64.ducks))
                ascii_ToLower Samples64.math "{}"
                (Samples64.message "" Samples64.ducks) net_ok) as H.
  cbv zeta in H.
  destruct H as (Hp & _ & _ & _ & Hc).
  - reflexivity.
  - simpl. lia.
  - simpl. left. reflexivity.
  - simpl. discriminate.
  - simpl. discriminate.
  - simpl. discriminate.
  - reflexivity.
  - split; [exact Hp|]. rewrite Hc. vm_compute. reflexivity.
Defined.

(** C3 - In variant 2, a successfully parsed update whose message chat
    username is not in the allow-list [antonhulikau, sonicfelidae] makes
    the handler return without any outbound call, whatever the other
    fields of the update are (it does not even write a log line). *)
Theorem allow_list_gate_makes_no_call :
  forall (json_Decode : string -> Treasure.Update -> Treasure.Update * option error)
         (strings_ToLower : string -> string)
         (body : string) (u : Treasure.Update) (net : Transport),
    json_Decode body Treasure.Update_zero = (u, None) ->
    Treasure.UpdateId u <> 0 ->
    ~ In (Treasure.Chat_Username (Treasure.Message_Chat (Treasure.Update_Message u)))
         [ "antonhulikau"; "sonicfelidae" ] ->
    Treasure.HandleTelegramWebHook json_Decode strings_ToLower body net []
      = Returned tt []
    /\ calls_of (Treasure.HandleTelegramWebHook json_Decode strings_ToLower body)
                net = [].
Proof.
  intros json_Decode strings_ToLower body u net Hdec Hid Hout.
  apply isAllowed2_false in Hout.
  unfold calls_of.
  rewrite (handler2_parsed json_Decode strings_ToLower body Hdec Hid).
  rewrite (dispatch2_not_allowed strings_ToLower u Hout).
  split; reflexivity.
Qed.

Lemma allow_list_gate_makes_no_call_witness :
  calls_of
    (Treasure.HandleTelegramWebHook
       (Samples2.decode_as (Samples2.stranger "/start" Samples2.ducks))
       ascii_ToLower "{}")
    net_ok = [].
Proof.
  apply (@allow_list_gate_makes_no_call
           (Samples2.decode_as (Samples2.stranger "/start" Samples2.ducks))
           ascii_ToLower "{}"
           (Samples2.stranger "/start" Samples2.ducks) net_ok).
  - reflexivity.
  - simpl. lia.
  - simpl. intros [E|[E|[]]]; discriminate E.
Defined.

(** C10 - In variant 2, an update that carries a callback event and no
    message, so that its message is Go's zero value and the chat username
    is the empty string, makes the handler return without any outbound
    call: the gate reads the message's chat username, and the empty string
    is not in the allow-list. *)
Theorem callback_only_update_makes_no_call :
  forall (json_Decode : string -> Treasure.Update -> Treasure.Update * option error)
         (strings_ToLower : string -> string)
         (body : string) (u : Treasure.Update) (net : Transport),
    json_Decode body Treasure.Update_zero = (u, None) ->
    Treasure.UpdateId u <> 0 ->
    Treasure.Update_Message u = Treasure.Message_zero ->
    Treasure.Chat_Username (Treasure.Message_Chat (Treasure.Update_Message u)) = ""
    /\ Treasure.isAllowed "" = false
    /\ calls_of (Treasure.HandleTelegramWebHook json_Decode strings_ToLower body)
                net = [].
Proof.
  intros json_Decode strings_ToLower body u net Hdec Hid Hmsg.
  assert (Hname : Treasure.Chat_Username
                    (Treasure.Message_Chat (Treasure.Update_Message u)) = "")
    by (rewrite Hmsg; reflexivity).
  repeat split; [exact Hname|].
  unfold calls_of.
  rewrite (handler2_parsed json_Decode strings_ToLower body Hdec Hid).
  rewrite (dispatch2_not_allowed strings_ToLower u);
    [reflexivity | rewrite Hname; reflexivity].
Qed.

Lemma callback_only_update_makes_no_call_witness :
  calls_of
    (Treasure.HandleTelegramWebHook
       (Samples2.decode_as Samples2.callback_only) ascii_ToLower "{}")
    net_ok = [].
Proof.
  apply (@callback_only_update_makes_no_call
           (Samples2.decode_as Samples2.callback_only) ascii_ToLower "{}"
           Samples2.callback_only net_ok).
  - reflexivity.
  - simpl. lia.
  - reflexivity.
Defined.

(** C9 - In variant 2's geofence check the 2000-meter threshold is
    exclusive.  For a candidate with list index [t], let [d] be the
    float64 [Distance] from the candidate to the supplied location.  When
    [d == 2000], neither the supervisor note with the index [t] nor the
    candidate's location message is among the calls; the same holds when
    [d > 2000], and whenever the comparison [d < 2000] is false (a NaN
    included); and when [d < 2000], both are among the calls.  This holds
    whatever package math computes. *)
Theorem geofence_threshold_is_exclusive :
  forall (json_Decode : string -> Treasure64.Update -> Treasure64.Update * option error)
         (strings_ToLower : string -> string) (math : Treasure64.Math)
         (body : string) (u : Treasure64.Update) (net : Transport)
         (t : Z) (l : Treasure64.Location),
    json_Decode body Treasure64.Update_zero = (u, None) ->
    Treasure64.UpdateId u <> 0 ->
    let m := Treasure64.Update_Message u in
    let chat := Treasure.Chat_Id (Treasure64.Message_Chat m) in
    let probe := Treasure64.Message_Location m in
    In (Treasure.Chat_Username (Treasure64.Message_Chat m))
       [ "antonhulikau"; "sonicfelidae" ] ->
    Treasure64.Message_Text m <> "/start" ->
    Treasure64.Message_Text m <> "/unlock" ->
    strings_ToLower (Treasure64.Message_Text m) <> "afsio" ->
    PrimFloat.ltb 0 (Treasure64.Latitude probe) = true ->
    In (t, l) candidates64 ->
    let d := Treasure64.Distance math l probe in
    let calls :=
      calls_of (Treasure64.HandleTelegramWebHook json_Decode strings_ToLower
                  math body) net in
    let note :=
      text_post 49208041 ("Соня проверяет " ++ Itoa t ++ "!")%string in
    let place :=
      (telegramApiSendLocation,
       [ ("chat_id", Str (Itoa chat));
         ("longitude", FormatFloat64 (Treasure64.Longitude l));
         ("latitude", FormatFloat64 (Treasure64.Latitude l));
         ("horizontal_accuracy", Str "2") ]) in
    (PrimFloat.eqb d 2000 = true -> ~ In note calls /\ ~ In place calls)
    /\ (PrimFloat.ltb 2000 d = true -> ~ In note calls /\ ~ In place calls)
    /\ (PrimFloat.ltb d 2000 = false -> ~ In note calls /\ ~ In place calls)
    /\ (PrimFloat.ltb d 2000 = true -> In note calls /\ In place calls).
Proof.
  intros json_Decode strings_ToLower math body u net t l Hdec Hid m chat probe
    Hal Hs Hu Hw Hlat Hc d calls note place.
  destruct (@handler64_geofence_calls json_Decode strings_ToLower math body u net
              Hdec Hid Hal Hs Hu Hw Hlat) as [_ Hcalls].
  assert (E : calls = geofence64 math chat probe) by exact Hcalls.
  assert (Hout : PrimFloat.ltb d 2000 = false ->
                 ~ In note calls /\ ~ In place calls).
  { intros Hge. rewrite E. split; intros Hin.
    - apply (@hint64_note_only_if_within math chat t probe l Hc) in Hin.
      unfold within in Hin. simpl snd in Hin.
      change (great_circle_meters math l probe) with d in Hin. congruence.
    - apply (@hint64_location_only_if_within math chat t probe l) in Hin.
      unfold within in Hin. simpl snd in Hin.
      change (great_circle_meters math l probe) with d in Hin. congruence. }
  split; [|split; [|split]].
  - intros Heq. apply Hout. apply float_eqb_not_ltb. exact Heq.
  - intros Hgt. apply Hout. apply float_gtb_not_ltb. exact Hgt.
  - exact Hout.
  - intros Hlt. rewrite E.
    assert (Hn : within math probe (t, l) = true) by exact Hlt.
    split; apply (@geofence64_triggers math chat probe (t, l)); auto;
      simpl; auto.
Qed.

Lemma geofence_threshold_is_exclusive_witness :
  let calls :=
    calls_of
      (Treasure64.HandleTelegramWebHook
         (Samples64.decode_as (Samples64.message "" Samples64.north_of_ducks))
         ascii_ToLower Samples64.math "{}")
      net_ok in
  Treasure64.Distance Samples64.math Samples64.ducks Samples64.north_of_ducks
  = 2000%float
  /\ ~ In (telegramApiSend,
           [ ("chat_id", Str "49208041"); ("text", Str "Соня проверяет 2!") ])
          calls
  /\ ~ In (telegramApiSendLocation,
           [ ("chat_id", Str "42");
             ("longitude", FormatFloat64 11.596526);
             ("latitude", FormatFloat64 48.143296);
             ("horizontal_accuracy", Str "2") ])
          calls.
Proof.
  pose proof (@geofence_threshold_is_exclusive
                (Samples64.decode_as (Samples64.message "" Samples64.north_of_ducks))
                ascii_ToLower Samples64.math "{}"
                (Samples64.message "" Samples64.north_of_ducks) net_ok
                2 Samples64.ducks) as H.
  cbv zeta in H.
  destruct H as [Hex _].
  - reflexivity.
  - simpl. lia.
  - simpl. left. reflexivity.
  - simpl. discriminate.
  - simpl. discriminate.
  - simpl. discriminate.
  - reflexivity.
  - unfold candidates64. simpl. right. right. left. reflexivity.
  - split; [vm_compute; reflexivity|].
    apply Hex. vm_compute. reflexivity.
Defined.




(* ================================================================== *)
(** * The outbound senders *)
(* ================================================================== *)

(** What a sender hands back, by the answer of the transport: the
    transport error as it is; the body as it is when it was read to the
    end; and the empty string with a nil error when reading the body
    failed. *)
Lemma after_PostForm2_result (response : Response) (err : option error)
  (net : Transport) (tr : Trace) :
  returned (Treasure.after_PostForm (response, err) net tr)
  = Some (match err, BodyErr response with
          | Some e, _ => ("", Some e)
          | None, Some _ => ("", None)
          | None, None => (Body response, None)
          end).
Proof. destruct err as [e0|], response as [b [e|]]; reflexivity. Qed.

Lemma after_PostForm1_result (response : Response) (err : option error)
  (net : Transport) (tr : Trace) :
  returned (Celebration.after_PostForm (response, err) net tr)
  = Some (match err, BodyErr response with
          | Some e, _ => ("", Some e)
          | None, Some _ => ("", None)
          | None, None => (Body response, None)
          end).
Proof. destruct err as [e0|], response as [b [e|]]; reflexivity. Qed.

(** A transport error comes back to the caller, after a single POST. *)
Lemma sendTextMessage_transport_error (chatId : Z) (text : string)
  (net : Transport) (tr : Trace) (r : Response) (e : error) :
  net (tr ++ [Log "Sending start message to chat_id: %d"])
      telegramApiSend (snd (text_post chatId text)) = (r, Some e) ->
  returned (Treasure.sendTextMessage chatId text net tr) = Some ("", Some e)
  /\ outbound (trace_of (Treasure.sendTextMessage chatId text net tr))
     = outbound tr ++ [ text_post chatId text ].
Proof.
  intros Hnet. split.
  - unfold Treasure.sendTextMessage, bind, log_Printf, http_PostForm.
    simpl in Hnet. rewrite Hnet. reflexivity.
  - destruct (sendTextMessage_emits chatId text net tr) as (a & tr' & E & O & _).
    rewrite E. exact O.
Qed.

(** A body read to the end comes back unchanged, whatever it says. *)
Lemma sendTextMessage_success (chatId : Z) (text : string)
  (net : Transport) (tr : Trace) (body : string) :
  net (tr ++ [Log "Sending start message to chat_id: %d"])
      telegramApiSend (snd (text_post chatId text))
    = ({| Body := body; BodyErr := None |}, None) ->
  returned (Treasure.sendTextMessage chatId text net tr) = Some (body, None).
Proof.
  intros Hnet.
  unfold Treasure.sendTextMessage, bind, log_Printf, http_PostForm.
  simpl in Hnet. rewrite Hnet. reflexivity.
Qed.

(** On a transport that is down the sender hands back the transport
    error; on one that answers [ok] it hands back [ok]. *)
Lemma sendTextMessage_on_samples :
  returned (Treasure.sendTextMessage 42 "hi" net_down [])
    = Some ("", Some (LibError "dial tcp: i/o timeout"))
  /\ returned (Treasure.sendTextMessage 42 "hi" net_ok []) = Some ("ok", None).
Proof.
  split.
  - apply (proj1 (@sendTextMessage_transport_error 42 "hi" net_down []
                    {| Body := ""; BodyErr := None |}
                    (LibError "dial tcp: i/o timeout") eq_refl)).
  - apply (@sendTextMessage_success 42 "hi" net_ok [] "ok" eq_refl).
Qed.

(** C7 - Every sender should hand back the raw response body or an error.
    On a transport whose POST is answered and whose body then fails to be
    read, send text, send location and edit text all hand back the empty
    string together with a nil error: the read error is logged and lost,
    because the functions return [err], the error of [http.PostForm],
    in place of [errRead]. *)
Theorem senders_lose_the_read_error :
  returned (Treasure.sendTextMessage 42 "hi" net_broken_body [])
    = Some ("", None)
  /\ returned (Treasure.sendLocationMessage 42 Samples2.ducks net_broken_body [])
    = Some ("", None)
  /\ returned (Celebration.sendCelebrateMessage 42 9 0 net_broken_body [])
    = Some ("", None)
  /\ returned (Celebration.sendStartTextMessage 42 "hi" net_broken_body [])
    = Some ("", None).
Proof. repeat split. Qed.

(* ================================================================== *)
(** * The update parser *)
(* ================================================================== *)

(** ** The first JSON value of a body *)

(** Once the scanner has seen the end of the first value, or refused a
    byte, what follows in the body is not looked at. *)
Lemma readValue_range_app (buf rest : string) :
  forall (s : Json.scanner) (n : nat),
    match Json.readValue_range s n buf with
    | Json.Pending _ _ => True
    | r => Json.readValue_range s n (buf ++ rest)%string = r
    end.
Proof.
  induction buf as [|c buf IH]; intros s n; simpl; [exact I|].
  destruct (Json.scan_step s c) as [r s']. destruct r; try apply IH; try reflexivity.
  - destruct (Json.stateEndValue s' " ") as [r' s'']. destruct r';
      try apply IH; reflexivity.
  - destruct (Json.stateEndValue s' " ") as [r' s'']. destruct r';
      try apply IH; reflexivity.
Qed.

Lemma readValue_range_bound (buf : string) :
  forall (s : Json.scanner) (n m : nat),
    Json.readValue_range s n buf = Json.Ended m ->
    (m <= n + String.length buf)%nat.
Proof.
  induction buf as [|c buf IH]; intros s n m; simpl; [discriminate|].
  assert (Hrec : forall s1, Json.readValue_range s1 (S n) buf = Json.Ended m ->
                            (m <= n + S (String.length buf))%nat)
    by (intros s1 H1; apply IH in H1; lia).
  destruct (Json.scan_step s c) as [r s']. destruct r; try apply Hrec;
    try discriminate.
  - destruct (Json.stateEndValue s' " ") as [r' s'']. destruct r';
      try apply Hrec. intros E. injection E as <-. lia.
  - destruct (Json.stateEndValue s' " ") as [r' s'']. destruct r';
      try apply Hrec. intros E. injection E as <-. lia.
  - intros E. injection E as <-. lia.
Qed.

Lemma substring_app (s rest : string) :
  forall m : nat, (m <= String.length s)%nat ->
    String.substring 0 m (s ++ rest)%string = String.substring 0 m s.
Proof.
  induction s as [|c s IH]; simpl; intros m Hm.
  - assert (m = 0%nat) by lia. subst m. destruct rest; reflexivity.
  - destruct m as [|m]; [reflexivity|]. rewrite IH by lia. reflexivity.
Qed.

(** A body in which the scanner finds the end of the first value is
    decoded as if nothing followed that value. *)
Lemma Decode_ignores_the_rest {U : Type}
  (unmarshal : string -> U -> U * option error) (body rest : string) (n : nat) :
  Json.readValue_range Json.reset 0 body = Json.Ended n ->
  forall v : U,
    Json.Decode unmarshal (body ++ rest)%string v = Json.Decode unmarshal body v.
Proof.
  intros Hend v. unfold Json.Decode, Json.readValue.
  pose proof (readValue_range_app body rest Json.reset 0) as Happ.
  rewrite Hend in Happ. rewrite Happ, Hend.
  apply readValue_range_bound in Hend.
  rewrite substring_app by exact Hend. reflexivity.
Qed.

(** ** The first JSON value is valid JSON *)

(** The step functions, unfolded, and the case analysis on the byte. *)
Ltac scan_unfold :=
  unfold Json.scan_step, Json.stateBeginValueOrEmpty,
    Json.stateBeginStringOrEmpty, Json.stateBeginValue, Json.stateBeginString,
    Json.stateInString, Json.stateInStringEsc, Json.stateInStringEscU,
    Json.stateNeg, Json.state1, Json.state0, Json.stateDot, Json.stateDot0,
    Json.stateE, Json.stateESign, Json.stateE0, Json.stateLiteral,
    Json.stateEndValue, Json.stateEndTop, Json.pushParseState, Json.error_at,
    Json.popParseState, Json.replace_top, Json.goto in *;
  cbn [Json.step Json.parseState Json.err Json.endTop fst snd] in *.

Ltac scan_split :=
  repeat match goal with
         | H : context [if ?b then _ else _] |- _ => destruct b eqn:?
         | H : context [match ?x with _ => _ end] |- _ =>
             is_var x; destruct x
         end.

Ltac scan_finish :=
  unfold scanner_ok;
  repeat match goal with
         | |- context [match ?x with _ => _ end] => destruct x
         end;
  cbn [Json.step Json.parseState Json.err Json.endTop fst snd] in *;
  repeat split; intros; try congruence; try discriminate; auto.

Lemma step_ok (s s' : Json.scanner) (c : ascii) (r : Json.Scan) :
  scanner_ok s -> Json.scan_step s c = (r, s') ->
  r <> Json.scanError -> r <> Json.scanEnd -> scanner_ok s'.
Proof.
  intros (He & Ht & Hb) H Hr1 Hr2. destruct s as [st ps e et].
  cbn [Json.step Json.parseState Json.err Json.endTop] in *. subst e.
  destruct st; scan_unfold; scan_split;
    try (injection H as <- <-); try congruence; scan_finish.
Qed.

(** A step that reports the end of the top-level value is taken where
    the value has ended, or ends with one more space. *)
Lemma step_end (s : Json.scanner) (c : ascii) :
  scanner_ok s -> fst (Json.scan_step s c) = Json.scanEnd ->
  Json.eof_ok s = true.
Proof.
  intros (He & Ht & Hb) H. destruct s as [st ps e et].
  unfold Json.eof_ok.
  cbn [Json.step Json.parseState Json.err Json.endTop] in *. subst e.
  destruct st; scan_unfold; scan_split;
    cbn [fst snd Json.endTop] in *; try discriminate H;
    try (rewrite Ht by reflexivity; reflexivity);
    try (exfalso; apply Hb; reflexivity);
    try reflexivity; try (apply orb_true_r).
Qed.

Lemma step_close_shape (s s' : Json.scanner) (c : ascii) (r : Json.Scan) :
  scanner_ok s -> Json.scan_step s c = (r, s') ->
  r = Json.scanEndObject \/ r = Json.scanEndArray ->
  Json.err s' = None
  /\ ((Json.parseState s' = [] /\ Json.step s' = Json.AtEndTop
       /\ Json.endTop s' = true)
      \/ (Json.parseState s' <> [] /\ Json.step s' = Json.AtEndValue)).
Proof.
  intros (He & Ht & Hb) H Hr. destruct s as [st ps e et].
  cbn [Json.step Json.parseState Json.err Json.endTop] in *. subst e.
  destruct st; scan_unfold; scan_split;
    try (injection H as <- <-);
    try (destruct Hr as [Hr|Hr]; discriminate Hr);
    try discriminate H;
    repeat match goal with
           | |- context [match ?x with _ => _ end] => destruct x
           end;
    cbn [Json.step Json.parseState Json.err Json.endTop];
    (split; [reflexivity|]);
    first [ left; repeat split; reflexivity
          | right; split; [discriminate | reflexivity] ].
Qed.

(** After the byte that closes an object or an array, either the
    top-level value has ended, or the scanner goes on as it is. *)
Lemma step_close (s s' : Json.scanner) (c : ascii) (r : Json.Scan) :
  scanner_ok s -> Json.scan_step s c = (r, s') ->
  r = Json.scanEndObject \/ r = Json.scanEndArray ->
  (fst (Json.stateEndValue s' " ") = Json.scanEnd /\ Json.eof_ok s' = true)
  \/ (fst (Json.stateEndValue s' " ") <> Json.scanEnd
      /\ snd (Json.stateEndValue s' " ") = s'
      /\ scanner_ok s').
Proof.
  intros Hok H Hr.
  destruct (@step_close_shape s s' c r Hok H Hr) as [He [(Hps & Hst & Het)|(Hps & Hst)]];
    destruct s' as [st ps e et];
    cbn [Json.step Json.parseState Json.err Json.endTop] in *; subst.
  - left. split; reflexivity.
  - right. destruct ps as [|p ps]; [contradiction|].
    repeat split; try discriminate.
Qed.

Lemma readValue_range_lower (buf : string) :
  forall (s : Json.scanner) (k n : nat),
    Json.readValue_range s k buf = Json.Ended n -> (k <= n)%nat.
Proof.
  induction buf as [|c buf IH]; intros s k n; simpl; [discriminate|].
  assert (Hrec : forall s1, Json.readValue_range s1 (S k) buf = Json.Ended n ->
                            (k <= n)%nat)
    by (intros s1 H1; apply IH in H1; lia).
  destruct (Json.scan_step s c) as [r s']. destruct r; try apply Hrec;
    try discriminate.
  - destruct (Json.stateEndValue s' " ") as [r' s'']. destruct r';
      try apply Hrec. intros E. injection E as <-. lia.
  - destruct (Json.stateEndValue s' " ") as [r' s'']. destruct r';
      try apply Hrec. intros E. injection E as <-. lia.
  - intros E. injection E as <-. lia.
Qed.

(** The bytes up to the end of the first value are valid JSON. *)
Lemma readValue_range_valid (buf : string) :
  forall (s : Json.scanner) (k n : nat),
    scanner_ok s ->
    Json.readValue_range s k buf = Json.Ended n ->
    exists s', Json.checkValid_range s (String.substring 0 (n - k) buf) = Some s'
               /\ Json.eof_ok s' = true.
Proof.
  induction buf as [|c buf IH]; intros s k n Hok; simpl; [discriminate|].
  destruct (Json.scan_step s c) as [r s'] eqn:Hstep.
  assert (Hgo : r <> Json.scanError -> r <> Json.scanEnd ->
                Json.readValue_range s' (S k) buf = Json.Ended n ->
                exists s2,
                  Json.checkValid_range s (String.substring 0 (n - k) (String c buf))
                  = Some s2 /\ Json.eof_ok s2 = true).
  { intros Hr1 Hr2 Hread.
    pose proof (@readValue_range_lower buf s' (S k) n Hread) as Hle.
    destruct (IH s' (S k) n (@step_ok s s' c r Hok Hstep Hr1 Hr2) Hread) as (s2 & Hs2 & He2).
    exists s2. split; [|exact He2].
    replace (n - k)%nat with (S (n - S k)) by lia.
    cbn [String.substring Json.checkValid_range]. rewrite Hstep.
    destruct r; first [exact Hs2 | contradiction]. }
  assert (Hclose : r = Json.scanEndObject \/ r = Json.scanEndArray ->
            match Json.stateEndValue s' " " with
            | (Json.scanEnd, _) => Json.Ended (S k)
            | (_, s'') => Json.readValue_range s'' (S k) buf
            end = Json.Ended n ->
            exists s2,
              Json.checkValid_range s (String.substring 0 (n - k) (String c buf))
              = Some s2 /\ Json.eof_ok s2 = true).
  { intros Hr Hread.
    destruct (@step_close s s' c r Hok Hstep Hr) as [[Hend Heof]|(Hne & Hsame & Hok')].
    - destruct (Json.stateEndValue s' " ") as [r' s'']. simpl in Hend. subst r'.
      injection Hread as <-. exists s'. split; [|exact Heof].
      replace (S k - k)%nat with 1%nat by lia.
      cbn [String.substring Json.checkValid_range]. rewrite Hstep.
      destruct buf; destruct Hr; subst r; reflexivity.
    - destruct (Json.stateEndValue s' " ") as [r' s'']. simpl in Hne, Hsame.
      subst s''.
      apply Hgo; [destruct Hr; subst r; discriminate
                 | destruct Hr; subst r; discriminate |].
      destruct r'; first [exact Hread | contradiction]. }
  destruct r; try (apply Hgo; discriminate).
  - apply Hclose. left. reflexivity.
  - apply Hclose. right. reflexivity.
  - intros E. injection E as <-. exists s. split.
    + rewrite Nat.sub_diag. destruct buf; reflexivity.
    + apply (@step_end s c Hok). rewrite Hstep. reflexivity.
  - discriminate.
Qed.

Lemma readValue_range_pending (buf : string) :
  forall (s s' : Json.scanner) (k n : nat),
    scanner_ok s ->
    Json.readValue_range s k buf = Json.Pending s' n ->
    Json.checkValid_range s buf = Some s' /\ scanner_ok s'
    /\ n = (k + String.length buf)%nat.
Proof.
  induction buf as [|c buf IH]; intros s s' k n Hok; simpl.
  - intros E. injection E as <- <-. split; [reflexivity|]. split; [exact Hok | lia].
  - destruct (Json.scan_step s c) as [r s1] eqn:Hstep.
    assert (Hgo : r <> Json.scanError -> r <> Json.scanEnd ->
                  Json.readValue_range s1 (S k) buf = Json.Pending s' n ->
                  match r with
                  | Json.scanError => None
                  | _ => Json.checkValid_range s1 buf
                  end = Some s' /\ scanner_ok s'
                  /\ n = (k + S (String.length buf))%nat).
    { intros Hr1 Hr2 Hread.
      destruct (IH s1 s' (S k) n (@step_ok s s1 c r Hok Hstep Hr1 Hr2) Hread)
        as (Hc & Hok' & Hn).
      split; [|split; [exact Hok' | lia]].
      destruct r; first [exact Hc | contradiction]. }
    assert (Hclose : r = Json.scanEndObject \/ r = Json.scanEndArray ->
              match Json.stateEndValue s1 " " with
              | (Json.scanEnd, _) => Json.Ended (S k)
              | (_, s'') => Json.readValue_range s'' (S k) buf
              end = Json.Pending s' n ->
              match r with
              | Json.scanError => None
              | _ => Json.checkValid_range s1 buf
              end = Some s' /\ scanner_ok s'
              /\ n = (k + S (String.length buf))%nat).
    { intros Hr Hread.
      destruct (@step_close s s1 c r Hok Hstep Hr) as [[Hend Heof]|(Hne & Hsame & Hok')].
      - destruct (Json.stateEndValue s1 " ") as [r' s'']. simpl in Hend.
        subst r'. discriminate Hread.
      - destruct (Json.stateEndValue s1 " ") as [r' s'']. simpl in Hne, Hsame.
        subst s''.
        apply Hgo; [destruct Hr; subst r; discriminate
                   | destruct Hr; subst r; discriminate |].
        destruct r'; first [exact Hread | contradiction]. }
    destruct r; try (apply Hgo; discriminate).
    + apply Hclose. left. reflexivity.
    + apply Hclose. right. reflexivity.
    + discriminate.
    + discriminate.
Qed.

Lemma scanner_ok_reset : scanner_ok Json.reset.
Proof. repeat split; discriminate. Qed.

Lemma substring_all (s : string) : String.substring 0 (String.length s) s = s.
Proof. induction s as [|c s IH]; simpl; [reflexivity | rewrite IH; reflexivity]. Qed.

(** What the decoder hands to the unmarshalling is valid JSON. *)
Lemma readValue_valid (body : string) (n : nat) :
  Json.readValue body = inl n ->
  Json.Valid (String.substring 0 n body) = true.
Proof.
  unfold Json.readValue, Json.Valid.
  destruct (Json.readValue_range Json.reset 0 body) as [m|e|s m] eqn:Hread.
  - intros E. injection E as <-.
    destruct (@readValue_range_valid body Json.reset 0 m scanner_ok_reset Hread) as (s' & Hc & He).
    rewrite Nat.sub_0_r in Hc. rewrite Hc. exact He.
  - discriminate.
  - destruct (@readValue_range_pending body Json.reset s 0 m scanner_ok_reset Hread)
      as (Hc & Hok & Hm).
    destruct (Json.scan_step s " ") as [r s'] eqn:Hstep. simpl.
    destruct r; try discriminate. intros E. injection E as <-.
    simpl in Hm. subst m. rewrite substring_all, Hc.
    apply (@step_end s " "%char Hok). rewrite Hstep. reflexivity.
Qed.

(** A body that is not valid JSON is refused, unless a valid JSON value
    is a proper prefix of it. *)
Lemma readValue_malformed (body : string) :
  Json.Valid body = false ->
  (exists e, Json.readValue body = inr e)
  \/ (exists n, Json.readValue body = inl n
                /\ (n < String.length body)%nat
                /\ Json.Valid (String.substring 0 n body) = true).
Proof.
  intros Hbad. destruct (Json.readValue body) as [n|e] eqn:Hread.
  - right. exists n. pose proof (@readValue_valid body n Hread) as Hv.
    split; [reflexivity|]. split; [|exact Hv].
    assert (Hle : (n <= String.length body)%nat).
    { unfold Json.readValue in Hread.
      destruct (Json.readValue_range Json.reset 0 body) as [m|e|s m] eqn:Hr.
      - injection Hread as <-. apply readValue_range_bound in Hr. lia.
      - discriminate.
      - destruct (@readValue_range_pending body Json.reset s 0 m scanner_ok_reset Hr) as (_ & _ & Hm).
        destruct (fst (Json.scan_step s " ")); try discriminate.
        injection Hread as <-. simpl in Hm. lia. }
    destruct (Nat.eq_dec n (String.length body)) as [->|Hne]; [|lia].
    rewrite substring_all in Hv. congruence.
  - left. exists e. reflexivity.
Qed.

(** C5 - The update parser of both variants rejects, with an error and no
    Update, every body whose decoded update identifier is 0, whatever the
    other fields are, and accepts, with the decoded Update and no error,
    every body whose first JSON value is unmarshalled without an error
    and with a non-zero identifier.  A body whose first JSON value is
    malformed or cut short yields the decoder's error and no Update, and
    so does a first value that the unmarshalling refuses.  What is
    unmarshalled is valid JSON, and the bytes after a complete first JSON
    value are not read: a body that is not valid JSON yields a decode
    error unless a valid JSON value is a proper prefix of it, and whatever
    follows a complete first value, the parser hands back what it hands
    back for that value alone. *)
Theorem parser_accepts_exactly_nonzero_identifiers :
  forall (unmarshal1 : string -> Celebration.Update
                       -> Celebration.Update * option error)
         (unmarshal2 : string -> Treasure64.Update
                       -> Treasure64.Update * option error)
         (body : string) (net : Transport) (tr : Trace),
    let parse1 := Celebration.parseTelegramRequest (Json.Decode unmarshal1) in
    let parse2 := Treasure64.parseTelegramRequest (Json.Decode unmarshal2) in
    let invalid_id :=
      errors_New
        "invalid update id of 0 indicates failure to parse incoming update" in
    (forall e, Json.readValue body = inr e ->
       parse1 body net tr
       = Returned (None, Some e)
           (tr ++ [ Log "could not decode incoming update %s" ])
       /\ parse2 body net tr
          = Returned (None, Some e)
              (tr ++ [ Log "could not decode incoming update %s" ]))
    /\ (forall n, Json.readValue body = inl n ->
          let value := String.substring 0 n body in
          Json.Valid value = true
          /\ (forall u1,
                unmarshal1 value Celebration.Update_zero = (u1, None) ->
                (Celebration.UpdateId u1 = 0 ->
                   parse1 body net tr
                   = Returned (None, Some invalid_id)
                       (tr ++ [ Log "invalid update id, got update id = 0" ]))
                /\ (Celebration.UpdateId u1 <> 0 ->
                      parse1 body net tr = Returned (Some u1, None) tr))
          /\ (forall u1 e,
                unmarshal1 value Celebration.Update_zero = (u1, Some e) ->
                parse1 body net tr
                = Returned (None, Some e)
                    (tr ++ [ Log "could not decode incoming update %s" ]))
          /\ (forall u2,
                unmarshal2 value Treasure64.Update_zero = (u2, None) ->
                (Treasure64.UpdateId u2 = 0 ->
                   parse2 body net tr
                   = Returned (None, Some invalid_id)
                       (tr ++ [ Log "invalid update id, got update id = 0" ]))
                /\ (Treasure64.UpdateId u2 <> 0 ->
                      parse2 body net tr = Returned (Some u2, None) tr))
          /\ (forall u2 e,
                unmarshal2 value Treasure64.Update_zero = (u2, Some e) ->
                parse2 body net tr
                = Returned (None, Some e)
                    (tr ++ [ Log "could not decode incoming update %s" ])))
    /\ (Json.Valid body = false ->
          (exists e,
             parse1 body net tr
             = Returned (None, Some e)
                 (tr ++ [ Log "could not decode incoming update %s" ])
             /\ parse2 body net tr
                = Returned (None, Some e)
                    (tr ++ [ Log "could not decode incoming update %s" ]))
          \/ (exists n,
                Json.readValue body = inl n
                /\ (n < String.length body)%nat
                /\ Json.Valid (String.substring 0 n body) = true))
    /\ (forall n rest,
          Json.readValue_range Json.reset 0 body = Json.Ended n ->
          parse1 (body ++ rest)%string net tr = parse1 body net tr
          /\ parse2 (body ++ rest)%string net tr = parse2 body net tr).
Proof.
  intros unmarshal1 unmarshal2 body net tr parse1 parse2 invalid_id.
  subst parse1 parse2 invalid_id.
  assert (Hbad : forall e, Json.readValue body = inr e ->
    Celebration.parseTelegramRequest (Json.Decode unmarshal1) body net tr
    = Returned (None, Some e)
        (tr ++ [ Log "could not decode incoming update %s" ])
    /\ Treasure64.parseTelegramRequest (Json.Decode unmarshal2) body net tr
       = Returned (None, Some e)
           (tr ++ [ Log "could not decode incoming update %s" ])).
  { intros e He.
    unfold Celebration.parseTelegramRequest, Treasure64.parseTelegramRequest,
      Json.Decode.
    rewrite He. split; reflexivity. }
  split; [exact Hbad|]. split; [|split].
  - intros n Hn. cbv zeta. split; [exact (@readValue_valid body n Hn)|].
    unfold Celebration.parseTelegramRequest, Treasure64.parseTelegramRequest,
      Json.Decode.
    rewrite Hn.
    split; [|split; [|split]].
    + intros u1 H. split.
      * intros Hz. rewrite H, Hz. reflexivity.
      * intros Hid. apply Z.eqb_neq in Hid. rewrite H, Hid. reflexivity.
    + intros u1 e ->. reflexivity.
    + intros u2 H. split.
      * intros Hz. rewrite H, Hz. reflexivity.
      * intros Hid. apply Z.eqb_neq in Hid. rewrite H, Hid. reflexivity.
    + intros u2 e ->. reflexivity.
  - intros Hinvalid.
    destruct (@readValue_malformed body Hinvalid) as [[e He]|(n & Hn & Hlt & Hv)].
    + left. exists e. exact (Hbad e He).
    + right. exists n. auto.
  - intros n rest Hend.
    unfold Celebration.parseTelegramRequest, Treasure64.parseTelegramRequest.
    rewrite !(Decode_ignores_the_rest _ body rest Hend). split; reflexivity.
Qed.

Lemma parser_accepts_exactly_nonzero_identifiers_witness :
  let parse1 :=
    Celebration.parseTelegramRequest (Json.Decode SamplesJson.unmarshal1) in
  let parse2 :=
    Treasure64.parseTelegramRequest (Json.Decode SamplesJson.unmarshal2) in
  (parse1 "{" net_ok []
   = Returned (None, Some (LibError "unexpected EOF"))
       [ Log "could not decode incoming update %s" ]
   /\ parse2 "{" net_ok []
      = Returned (None, Some (LibError "unexpected EOF"))
          [ Log "could not decode incoming update %s" ])
  /\ parse1 SamplesJson.update0 net_ok []
     = Returned
         (None,
          Some (errors_New
            "invalid update id of 0 indicates failure to parse incoming update"))
         [ Log "invalid update id, got update id = 0" ]
  /\ Celebration.UpdateId
       (fst (SamplesJson.unmarshal1 SamplesJson.update7 Celebration.Update_zero))
     = 7
  /\ parse1 SamplesJson.update7 net_ok []
     = Returned
         (Some (fst (SamplesJson.unmarshal1 SamplesJson.update7
                       Celebration.Update_zero)), None) []
  /\ parse1 (SamplesJson.update7 ++ "}}garbage")%string net_ok []
     = parse1 SamplesJson.update7 net_ok []
  /\ parse2 (SamplesJson.update7 ++ "}}garbage")%string net_ok []
     = parse2 SamplesJson.update7 net_ok [].
Proof.
  pose proof (@parser_accepts_exactly_nonzero_identifiers
                SamplesJson.unmarshal1 SamplesJson.unmarshal2 "{" net_ok [])
    as [Hbad _].
  pose proof (@parser_accepts_exactly_nonzero_identifiers
                SamplesJson.unmarshal1 SamplesJson.unmarshal2
                SamplesJson.update0 net_ok [])
    as [_ [Hzero _]].
  pose proof (@parser_accepts_exactly_nonzero_identifiers
                SamplesJson.unmarshal1 SamplesJson.unmarshal2
                SamplesJson.update7 net_ok [])
    as [_ [Hseven [_ Hrest]]].
  cbv zeta in *.
  split; [apply Hbad; vm_compute; reflexivity|].
  split.
  { destruct (Hzero 15%nat) as [_ [H1 _]]; [vm_compute; reflexivity|].
    apply (H1 (fst (SamplesJson.unmarshal1 SamplesJson.update0
                      Celebration.Update_zero))); vm_compute; reflexivity. }
  split; [vm_compute; reflexivity|].
  split.
  { destruct (Hseven 15%nat) as [_ [H1 _]]; [vm_compute; reflexivity|].
    apply (H1 (fst (SamplesJson.unmarshal1 SamplesJson.update7
                      Celebration.Update_zero))); [vm_compute; reflexivity|].
    vm_compute. discriminate. }
  apply (Hrest 15%nat). vm_compute. reflexivity.
Defined.

(** C5, as stated, fails: the body [{"update_id":7}}}garbage] is not
    valid JSON, and the parser of either variant accepts it, with the
    identifier 7 and no error, without a log line. *)
Lemma malformed_body_is_accepted :
  SamplesJson.update7_garbage
  = String "{" (String Json.quote ("update_id" ++ String Json.quote ":7}}}garbage")%string)
  /\ Json.Valid SamplesJson.update7_garbage = false
  /\ Json.Valid SamplesJson.update7 = true
  /\ Json.readValue SamplesJson.update7_garbage = inl 15%nat
  /\ (exists u1,
        Celebration.parseTelegramRequest (Json.Decode SamplesJson.unmarshal1)
          SamplesJson.update7_garbage net_ok []
        = Returned (Some u1, None) []
        /\ Celebration.UpdateId u1 = 7)
  /\ (exists u2,
        Treasure64.parseTelegramRequest (Json.Decode SamplesJson.unmarshal2)
          SamplesJson.update7_garbage net_ok []
        = Returned (Some u2, None) []
        /\ Treasure64.UpdateId u2 = 7).
Proof.
  split; [reflexivity|].
  split; [vm_compute; reflexivity|].
  split; [vm_compute; reflexivity|].
  split; [vm_compute; reflexivity|].
  split; eexists; split; vm_compute; reflexivity.
Qed.

(* ================================================================== *)
(** * Variant 1: the celebration rotation *)
(* ================================================================== *)

Lemma after_PostForm1_emits (r : Response * option error) :
  emits (Celebration.after_PostForm r) [] (fun _ => True).
Proof.
  destruct r as [[body [e|]] [err|]]; unfold Celebration.after_PostForm,
    ioutil_ReadAll; simpl;
    (eapply emits_bind;
     [apply emits_log | intros; apply emits_ret; exact I | reflexivity]).
Qed.

Lemma log_outcome1_emits (e : option error) :
  emits (Celebration.log_outcome e) [] (fun _ => True).
Proof. destruct e; apply emits_log. Qed.

(** With an index inside the array the celebration is a single edit, and
    the button it re-attaches carries the next index. *)
Lemma sendCelebrateMessage_emits (chatId messageId p : Z) :
  0 <= p < Z.of_nat (List.length Celebration.CELEBRATIONS) ->
  emits (Celebration.sendCelebrateMessage chatId messageId p)
        [ edit_post chatId messageId
            (nth (Z.to_nat p) Celebration.CELEBRATIONS "")
            (Itoa (Celebration.next_index
                     (Z.of_nat (List.length Celebration.CELEBRATIONS)) p)) ]
        (fun _ => True).
Proof.
  intros Hp. assert (p = 0) as -> by (simpl in Hp; lia).
  unfold Celebration.sendCelebrateMessage, edit_post.
  eapply emits_bind; [apply emits_log | intros _ _ | reflexivity].
  change (index Celebration.CELEBRATIONS 0)
    with (ret (A := string) (nth (Z.to_nat 0) Celebration.CELEBRATIONS "")).
  eapply emits_bind
    with (P := fun t => t = nth (Z.to_nat 0) Celebration.CELEBRATIONS "");
    [apply emits_ret; reflexivity | intros text -> | reflexivity].
  eapply emits_bind; [apply emits_post | intros r _ | reflexivity].
  apply after_PostForm1_emits.
Qed.

(** Outside the array the lookup panics before any POST. *)
Lemma sendCelebrateMessage_panics (chatId messageId p : Z)
  (net : Transport) (tr : Trace) :
  p < 0 \/ Z.of_nat (List.length Celebration.CELEBRATIONS) <= p ->
  Celebration.sendCelebrateMessage chatId messageId p net tr
  = Panicked "runtime error: index out of range"
      (tr ++ [ Log "Sending start message to chat_id: %d" ]).
Proof.
  intros Hp. unfold Celebration.sendCelebrateMessage, bind, log_Printf, index.
  assert (E : (p <? 0) || (Z.of_nat (List.length Celebration.CELEBRATIONS) <=? p)
              = true).
  { apply orb_true_iff. destruct Hp as [Hp|Hp]; [left | right].
    - apply Z.ltb_lt. exact Hp.
    - apply Z.leb_le. exact Hp. }
  rewrite E. reflexivity.
Qed.

Section Dispatch1.

Variable json_Decode :
  string -> Celebration.Update -> Celebration.Update * option error.

Lemma handler1_parsed (body : string) (u : Celebration.Update) :
  json_Decode body Celebration.Update_zero = (u, None) ->
  Celebration.UpdateId u <> 0 ->
  forall net tr,
    Celebration.HandleTelegramWebHook json_Decode body net tr
    = Celebration.dispatch u net tr.
Proof.
  intros Hdec Hid net tr.
  unfold Celebration.HandleTelegramWebHook, Celebration.parseTelegramRequest, bind.
  rewrite Hdec. apply Z.eqb_neq in Hid. rewrite Hid. reflexivity.
Qed.

End Dispatch1.

(** A click of an allowed user runs the celebration at the index parsed
    from the payload. *)
Lemma dispatch1_click (u : Celebration.Update) :
  let cb := Celebration.Update_CallbackQuerry u in
  Celebration.Message_Text (Celebration.Update_Message u) <> "/start" ->
  Celebration.isAllowed
    (Celebration.User_Username (Celebration.CallbackQuerry_From cb)) = true ->
  forall net tr,
    Celebration.dispatch u net tr
    = bind (bind (Celebration.sendCelebrateMessage
                    (Celebration.Chat_Id
                       (Celebration.Message_Chat
                          (Celebration.CallbackQuerry_Message cb)))
                    (Celebration.Message_Id
                       (Celebration.CallbackQuerry_Message cb))
                    (fst (Atoi (Celebration.CallbackQuerry_Data cb))))
                 (fun x => Celebration.log_outcome (snd x)))
           (fun _ => log_Printf "Update new is %s") net tr.
Proof.
  intros cb Hs Hal net tr. unfold Celebration.dispatch. fold cb.
  apply String.eqb_neq in Hs. rewrite Hs, Hal.
  destruct (Atoi (Celebration.CallbackQuerry_Data cb)) as [p e].
  unfold bind. simpl fst.
  destruct (Celebration.sendCelebrateMessage _ _ p net tr) as [[b e'] tr'|msg tr'];
    reflexivity.
Qed.

(** ** The next index *)

Lemma wrap_small (z : Z) : - 2 ^ 63 <= z <= maxInt -> wrap z = z.
Proof.
  unfold wrap, maxInt. intros H. rewrite Z.mod_small; lia.
Qed.

Lemma next_index_mod (len p : Z) :
  len <= maxInt -> 0 <= p < len ->
  Celebration.next_index len p = (p + 1) mod len.
Proof.
  intros Hmax Hp. unfold Celebration.next_index.
  rewrite wrap_small by (unfold maxInt in *; lia).
  destruct (Z.eqb_spec (p + 1) len) as [E|E].
  - rewrite E, Z.mod_same by lia. reflexivity.
  - rewrite Z.mod_small by lia. reflexivity.
Qed.

Lemma rotate_mod (len p : Z) (n : nat) :
  len <= maxInt -> 0 <= p < len ->
  rotate len n p = (p + Z.of_nat n) mod len.
Proof.
  intros Hmax Hp. induction n as [|n IH].
  - simpl. rewrite Z.add_0_r, Z.mod_small by lia. reflexivity.
  - unfold rotate in *. simpl Nat.iter. rewrite IH.
    rewrite next_index_mod by (try apply Z.mod_pos_bound; lia).
    rewrite Zplus_mod_idemp_l. f_equal. lia.
Qed.

(** C6 - In variant 1 the next index after the current index [p] of a
    phrase list of length [N] is [(p + 1) mod N]; every index reached from
    an index in [0, N) stays in [0, N); [N] applications lead back to the
    starting index; and the edit sent for an index of the phrase list
    re-attaches a button whose payload is that next index in decimal. *)
Theorem next_index_round_robin :
  forall (phrases : list string) (p : Z),
    let N := Z.of_nat (List.length phrases) in
    N <= maxInt ->
    0 <= p < N ->
    Celebration.next_index N p = (p + 1) mod N
    /\ (forall n : nat, 0 <= rotate N n p < N)
    /\ rotate N (List.length phrases) p = p
    /\ (forall (chatId messageId q : Z) (net : Transport),
          let len := Z.of_nat (List.length Celebration.CELEBRATIONS) in
          0 <= q < len ->
          calls_of (Celebration.sendCelebrateMessage chatId messageId q) net
          = [ edit_post chatId messageId
                (nth (Z.to_nat q) Celebration.CELEBRATIONS "")
                (Itoa ((q + 1) mod len)) ]).
Proof.
  intros phrases p N Hmax Hp. repeat split.
  - apply next_index_mod; assumption.
  - rewrite rotate_mod by assumption. apply Z.mod_pos_bound. lia.
  - rewrite rotate_mod by assumption. apply Z.mod_pos_bound. lia.
  - rewrite rotate_mod by assumption. fold N.
    rewrite <- (Z.mul_1_l N) at 1. rewrite Z.mod_add by lia.
    apply Z.mod_small. exact Hp.
  - intros chatId messageId q net len Hq.
    rewrite <- (@next_index_mod len q) by (unfold maxInt; simpl in *; lia).
    apply (emits_calls (sendCelebrateMessage_emits chatId messageId Hq)).
Qed.

Lemma next_index_round_robin_witness :
  Celebration.next_index 3 1 = (1 + 1) mod 3
  /\ (forall n : nat, 0 <= rotate 3 n 1 < 3)
  /\ rotate 3 3 1 = 1.
Proof.
  pose proof (@next_index_round_robin [ "a"; "b"; "c" ] 1) as H.
  cbv zeta in H. simpl List.length in H. simpl Z.of_nat in H.
  destruct H as (H1 & H2 & H3 & _).
  - unfold maxInt. lia.
  - lia.
  - exact (conj H1 (conj H2 H3)).
Defined.

(** ** Callback payloads and strconv.Atoi *)

Lemma Atoi_syntax_zero (s : string) :
  snd (Atoi s) = Some ErrSyntax -> fst (Atoi s) = 0.
Proof.
  unfold Atoi.
  destruct ((0 <? String.length s)%nat && (String.length s <? 19)%nat).
  - destruct s as [|c0 rest]; [reflexivity|].
    destruct (if is_sign c0 then rest else String c0 rest) as [|c1 s1];
      [reflexivity|].
    destruct (atoi_fast_loop (String c1 s1) 0); [discriminate | reflexivity].
  - unfold ParseInt. destruct s as [|c0 rest]; [reflexivity|].
    cbv zeta.
    destruct (ParseUint (if is_sign c0 then rest else String c0 rest))
      as [un [[| | |]|]]; try reflexivity;
      destruct (negb (Ascii.eqb c0 "-"%char) && (2 ^ 63 <=? un));
      try discriminate;
      destruct (Ascii.eqb c0 "-"%char && (2 ^ 63 <? un)); discriminate.
Qed.

Lemma all_digits_false_loop (s : string) :
  all_digits s = false -> forall n, atoi_fast_loop s n = None.
Proof.
  induction s as [|c rest IH]; simpl; [discriminate|].
  destruct (is_digit c); simpl; intros H n; [apply IH; exact H | reflexivity].
Qed.

(** A payload shorter than 19 bytes that is not an optionally signed
    decimal numeral is a syntax error, with value 0. *)
Lemma Atoi_short_non_literal (s : string) :
  (String.length s < 19)%nat ->
  is_decimal_literal s = false ->
  Atoi s = (0, Some ErrSyntax).
Proof.
  intros Hlen Hlit. unfold Atoi.
  destruct s as [|c0 rest]; [reflexivity|].
  apply Nat.ltb_lt in Hlen. rewrite Hlen. simpl andb. cbv iota.
  unfold is_decimal_literal in Hlit.
  destruct (if is_sign c0 then rest else String c0 rest) as [|c1 s1];
    [reflexivity|].
  rewrite (all_digits_false_loop _ Hlit). reflexivity.
Qed.

(** ** The claims on the callback branch *)

Lemma click_emits (chatId messageId : Z) :
  emits (bind (bind (Celebration.sendCelebrateMessage chatId messageId 0)
                 (fun x => Celebration.log_outcome (snd x)))
           (fun _ => log_Printf "Update new is %s"))
        [ edit_post chatId messageId (nth 0 Celebration.CELEBRATIONS "") "0" ]
        (fun _ => True).
Proof.
  eapply emits_bind;
    [| intros ? _; apply emits_log | symmetry; apply app_nil_r].
  eapply emits_bind;
    [| intros [? e] _; apply log_outcome1_emits | symmetry; apply app_nil_r].
  apply (@sendCelebrateMessage_emits chatId messageId 0). simpl. lia.
Qed.

(** C8 - In variant 1, a callback payload on which [strconv.Atoi] reports
    a syntax error gives the index 0: the handler returns, surfacing no
    error, after the one edit that shows the phrase at index 0 and
    re-attaches the button with the next index, [(0 + 1) mod 1 = 0]. *)
Theorem syntax_error_payload_uses_index_zero :
  forall (json_Decode : string -> Celebration.Update -> Celebration.Update * option error)
         (body : string) (u : Celebration.Update) (net : Transport),
    json_Decode body Celebration.Update_zero = (u, None) ->
    Celebration.UpdateId u <> 0 ->
    let cb := Celebration.Update_CallbackQuerry u in
    let original := Celebration.CallbackQuerry_Message cb in
    Celebration.Message_Text (Celebration.Update_Message u) <> "/start" ->
    Celebration.isAllowed
      (Celebration.User_Username (Celebration.CallbackQuerry_From cb)) = true ->
    snd (Atoi (Celebration.CallbackQuerry_Data cb)) = Some ErrSyntax ->
    fst (Atoi (Celebration.CallbackQuerry_Data cb)) = 0
    /\ returned (Celebration.HandleTelegramWebHook json_Decode body net [])
       = Some tt
    /\ calls_of (Celebration.HandleTelegramWebHook json_Decode body) net
       = [ edit_post
             (Celebration.Chat_Id (Celebration.Message_Chat original))
             (Celebration.Message_Id original)
             (nth 0 Celebration.CELEBRATIONS "")
             (Itoa ((0 + 1)
                    mod Z.of_nat (List.length Celebration.CELEBRATIONS))) ].
Proof.
  intros json_Decode body u net Hdec Hid cb original Hs Hal Hsyn.
  pose proof (Atoi_syntax_zero _ Hsyn) as Hzero.
  split; [exact Hzero|].
  unfold calls_of.
  rewrite (handler1_parsed json_Decode body Hdec Hid).
  rewrite (dispatch1_click u Hs Hal). fold cb. rewrite Hzero.
  destruct (click_emits
              (Celebration.Chat_Id (Celebration.Message_Chat original))
              (Celebration.Message_Id original) net [])
    as ([] & tr' & E & O & _).
  fold original. rewrite E. split; [reflexivity | exact O].
Qed.

Lemma syntax_error_payload_uses_index_zero_witness :
  fst (Atoi "abc") = 0
  /\ returned (Celebration.HandleTelegramWebHook Samples1.decode "click:abc"
                 net_ok []) = Some tt
  /\ calls_of (Celebration.HandleTelegramWebHook Samples1.decode "click:abc")
              net_ok
     = [ edit_post 42 9 (nth 0 Celebration.CELEBRATIONS "") "0" ].
Proof.
  apply (@syntax_error_payload_uses_index_zero
           Samples1.decode "click:abc" (Samples1.click "abc") net_ok).
  - reflexivity.
  - simpl. lia.
  - simpl. discriminate.
  - reflexivity.
  - reflexivity.
Defined.

(** C8, as stated, fails: the payload [99999999999999999999x] is not a
    number, yet [strconv.Atoi] hands back the largest [int] with a range
    error, because the overflow is met before the letter is read; the
    lookup at that index panics and no edit is sent. *)
Lemma non_numeric_payload_is_not_always_index_zero :
  is_decimal_literal "99999999999999999999x" = false
  /\ Atoi "99999999999999999999x" = (maxInt, Some ErrRange)
  /\ Celebration.HandleTelegramWebHook Samples1.decode
       "click:99999999999999999999x" net_ok []
     = Panicked "runtime error: index out of range"
         [ Log "Sending start message to chat_id: %d" ]
  /\ ~ (forall (json_Decode :
                  string -> Celebration.Update -> Celebration.Update * option error)
               (body : string) (u : Celebration.Update) (net : Transport),
          json_Decode body Celebration.Update_zero = (u, None) ->
          Celebration.UpdateId u <> 0 ->
          let cb := Celebration.Update_CallbackQuerry u in
          let original := Celebration.CallbackQuerry_Message cb in
          Celebration.Message_Text (Celebration.Update_Message u) <> "/start" ->
          Celebration.isAllowed
            (Celebration.User_Username (Celebration.CallbackQuerry_From cb))
          = true ->
          is_decimal_literal (Celebration.CallbackQuerry_Data cb) = false ->
          calls_of (Celebration.HandleTelegramWebHook json_Decode body) net
          = [ edit_post
                (Celebration.Chat_Id (Celebration.Message_Chat original))
                (Celebration.Message_Id original)
                (nth 0 Celebration.CELEBRATIONS "") "0" ]).
Proof.
  split; [reflexivity|]. split; [reflexivity|]. split; [reflexivity|].
  intros H.
  specialize (H Samples1.decode "click:99999999999999999999x"
                (Samples1.click "99999999999999999999x") net_ok).
  cbv zeta in H.
  assert (E : calls_of
                (Celebration.HandleTelegramWebHook Samples1.decode
                   "click:99999999999999999999x") net_ok = [])
    by reflexivity.
  rewrite E in H.
  assert (Hfalse : @nil (Endpoint * Values)
                   = [ edit_post 42 9 (nth 0 Celebration.CELEBRATIONS "") "0" ]).
  { apply H.
    - reflexivity.
    - simpl. lia.
    - simpl. discriminate.
    - reflexivity.
    - reflexivity. }
  discriminate Hfalse.
Qed.

(** C4 - The lookup of the celebration phrase should stay within the
    phrase list for every callback payload of an allowed user.  The click
    of an allowed user with the payload [1] parses to the index 1, the
    list has one phrase, and the handler panics on the lookup, before any
    POST and before its closing log line. *)
Theorem celebration_lookup_out_of_bounds :
  Atoi "1" = (1, None)
  /\ Z.of_nat (List.length Celebration.CELEBRATIONS) = 1
  /\ Celebration.isAllowed "antonhulikau" = true
  /\ Celebration.HandleTelegramWebHook Samples1.decode "click:1" net_ok []
     = Panicked "runtime error: index out of range"
         [ Log "Sending start message to chat_id: %d" ].
Proof. repeat split. Qed.

(** The same for every index outside the list: the handler panics without
    a POST. *)
Lemma click_out_of_range_panics
  (json_Decode : string -> Celebration.Update -> Celebration.Update * option error)
  (body : string) (u : Celebration.Update) (net : Transport) :
  json_Decode body Celebration.Update_zero = (u, None) ->
  Celebration.UpdateId u <> 0 ->
  let cb := Celebration.Update_CallbackQuerry u in
  let p := fst (Atoi (Celebration.CallbackQuerry_Data cb)) in
  Celebration.Message_Text (Celebration.Update_Message u) <> "/start" ->
  Celebration.isAllowed
    (Celebration.User_Username (Celebration.CallbackQuerry_From cb)) = true ->
  p < 0 \/ Z.of_nat (List.length Celebration.CELEBRATIONS) <= p ->
  panicked (Celebration.HandleTelegramWebHook json_Decode body net []) = true
  /\ calls_of (Celebration.HandleTelegramWebHook json_Decode body) net = [].
Proof.
  intros Hdec Hid cb p Hs Hal Hp. unfold calls_of.
  rewrite (handler1_parsed json_Decode body Hdec Hid).
  rewrite (dispatch1_click u Hs Hal). fold cb. fold p.
  unfold bind. rewrite !(sendCelebrateMessage_panics _ _ _ _ Hp).
  split; reflexivity.
Qed.

(** ** The candidates around [ducks] *)

Open Scope R_scope.

Lemma sin_five_sixths (x : R) : 0 <= x <= 1 -> 5 / 6 * x <= sin x.
Proof.
  intros [H0 H1].
  assert (Hpi : x <= PI) by (pose proof PI2_1; lra).
  pose proof (SIN x H0 Hpi) as [Hlb _].
  unfold sin_lb, sin_approx, sum_f_R0, sin_term in Hlb.
  replace (INR (fact (2 * 0 + 1))) with 1 in Hlb by (simpl; lra).
  replace (INR (fact (2 * 1 + 1))) with 6 in Hlb by (simpl; lra).
  replace (INR (fact (2 * 2 + 1))) with 120 in Hlb by (simpl; lra).
  replace (INR (fact (2 * 3 + 1))) with 5040 in Hlb
    by (change (2 * 3 + 1)%nat with 7%nat;
        rewrite !fact_simpl, !mult_INR; simpl; lra).
  simpl in Hlb.
  assert (H2 : 0 <= x * x <= 1) by nra.
  assert (H3 : x * x * x <= x) by nra.
  assert (H5 : 0 <= x * (x * (x * (x * (x * 1)))))
    by (repeat apply Rmult_le_pos; lra).
  assert (H7 : x * (x * (x * (x * (x * (x * (x * 1))))))
               <= x * (x * (x * (x * (x * 1))))).
  { replace (x * (x * (x * (x * (x * (x * (x * 1)))))))
      with ((x * x) * (x * (x * (x * (x * (x * 1)))))) by ring.
    nra. }
  nra.
Qed.

Lemma hsin_nonneg (x : R) : 0 <= Treasure.hsin x.
Proof. unfold Treasure.hsin. apply pow2_ge_0. Qed.

Lemma hsin_lower_bound (x c : R) :
  0 <= c -> -2 <= x <= 2 ->
  c <= 5 / 6 * (x / 2) \/ c <= 5 / 6 * (- x / 2) ->
  c * c <= Treasure.hsin x.
Proof.
  intros Hc Hx [H|H].
  - assert (Hs : 5 / 6 * (x / 2) <= sin (x / 2))
      by (apply sin_five_sixths; lra).
    unfold Treasure.hsin. assert (c <= sin (x / 2)) by lra. nra.
  - rewrite <- hsin_opp.
    assert (Hs : 5 / 6 * (- x / 2) <= sin (- x / 2))
      by (apply sin_five_sixths; lra).
    unfold Treasure.hsin. assert (c <= sin (- x / 2)) by lra. nra.
Qed.

(** The haversine never exceeds 1. *)
Lemma haversine_le_1 (la1 la2 dlo : R) :
  Treasure.hsin (la2 - la1) + cos la1 * cos la2 * Treasure.hsin dlo <= 1.
Proof.
  unfold Treasure.hsin.
  set (a := (la2 - la1) / 2). set (b := dlo / 2).
  assert (Hprod : cos la1 * cos la2 <= cos a * cos a).
  { pose proof (cos_plus la1 la2) as Hp. pose proof (cos_minus la2 la1) as Hm.
    replace (la2 - la1) with (2 * a) in Hm by (unfold a; field).
    rewrite cos_2a_cos in Hm.
    pose proof (COS_bound (la1 + la2)) as [_ Hb]. lra. }
  pose proof (sin2_cos2 a) as Ha. unfold Rsqr in Ha.
  pose proof (sin2_cos2 b) as Hb. unfold Rsqr in Hb.
  assert (0 <= sin b * sin b <= 1) by nra.
  assert (0 <= cos a * cos a) by nra.
  simpl. nra.
Qed.

(** A haversine of at least [(1000 / r)²] is a distance of at least 2000
    meters. *)
Lemma Distance_far (l1 l2 : Treasure.Location) :
  let la1 := Treasure.Latitude l1 * PI / 180 in
  let lo1 := Treasure.Longitude l1 * PI / 180 in
  let la2 := Treasure.Latitude l2 * PI / 180 in
  let lo2 := Treasure.Longitude l2 * PI / 180 in
  (1000 / 6378100) * (1000 / 6378100)
    <= Treasure.hsin (la2 - la1) + cos la1 * cos la2 * Treasure.hsin (lo2 - lo1) ->
  2000 <= Treasure.Distance l1 l2.
Proof.
  intros la1 lo1 la2 lo2 Hh. unfold Treasure.Distance. cbv zeta.
  fold la1 lo1 la2 lo2.
  set (h := Treasure.hsin (la2 - la1) + cos la1 * cos la2 * Treasure.hsin (lo2 - lo1)) in *.
  pose proof (haversine_le_1 la1 la2 (lo2 - lo1)) as Hle. fold h in Hle.
  set (x0 := 1000 / 6378100) in *.
  assert (Hx0 : 0 < x0) by (unfold x0; lra).
  assert (Hs : x0 <= sqrt h <= 1).
  { split.
    - rewrite <- (sqrt_square x0) by lra. apply sqrt_le_1_alt. exact Hh.
    - rewrite <- sqrt_1. apply sqrt_le_1_alt. exact Hle. }
  pose proof (asin_bound (sqrt h)) as Hb.
  pose proof (sin_asin (sqrt h)) as Hsin.
  set (y := asin (sqrt h)) in *.
  assert (Hy : x0 <= y).
  { destruct (Rle_lt_dec x0 y) as [H|H]; [exact H|].
    exfalso. pose proof PI_RGT_0.
    destruct (Rlt_le_dec 0 y) as [Hpos|Hneg].
    - pose proof (sin_lt_x y Hpos). lra.
    - destruct (Req_dec y 0) as [E|E].
      + rewrite E, sin_0 in Hsin. lra.
      + assert (sin y < 0) by (apply sin_lt_0_var; lra). lra. }
  unfold x0 in Hy. lra.
Qed.

(** Two points whose latitudes differ by at least 0.0225 degrees (and at
    most one degree) are at least 2000 meters apart. *)
Lemma far_by_latitude (l1 l2 : Treasure.Location) :
  -90 <= Treasure.Latitude l1 <= 90 ->
  -90 <= Treasure.Latitude l2 <= 90 ->
  0.0225 <= Treasure.Latitude l2 - Treasure.Latitude l1 <= 1
  \/ 0.0225 <= Treasure.Latitude l1 - Treasure.Latitude l2 <= 1 ->
  2000 <= Treasure.Distance l1 l2.
Proof.
  intros H1 H2 Hd. pose proof PI_lower. pose proof PI_upper.
  apply Distance_far. cbv zeta.
  set (la1 := Treasure.Latitude l1 * PI / 180).
  set (la2 := Treasure.Latitude l2 * PI / 180).
  assert (Hc1 : 0 <= cos la1) by (apply cos_ge_0; unfold la1; nra).
  assert (Hc2 : 0 <= cos la2) by (apply cos_ge_0; unfold la2; nra).
  pose proof (hsin_nonneg
                (Treasure.Longitude l2 * PI / 180 - Treasure.Longitude l1 * PI / 180))
    as Hlo.
  assert (Hla : 1000 / 6378100 * (1000 / 6378100) <= Treasure.hsin (la2 - la1)).
  { apply hsin_lower_bound; unfold la1, la2; [lra | nra |].
    destruct Hd as [Hd|Hd]; [left | right]; nra. }
  assert (0 <= cos la1 * cos la2) by (apply Rmult_le_pos; assumption).
  assert (0 <= cos la1 * cos la2
               * Treasure.hsin (Treasure.Longitude l2 * PI / 180
                                - Treasure.Longitude l1 * PI / 180))
    by (apply Rmult_le_pos; assumption).
  lra.
Qed.

(** Two points below 60 degrees of northern latitude whose longitudes
    differ by at least 0.05 degrees (and at most one degree) are at least
    2000 meters apart. *)
Lemma far_by_longitude (l1 l2 : Treasure.Location) :
  0 <= Treasure.Latitude l1 <= 60 ->
  0 <= Treasure.Latitude l2 <= 60 ->
  0.05 <= Treasure.Longitude l2 - Treasure.Longitude l1 <= 1
  \/ 0.05 <= Treasure.Longitude l1 - Treasure.Longitude l2 <= 1 ->
  2000 <= Treasure.Distance l1 l2.
Proof.
  intros H1 H2 Hd. pose proof PI_lower. pose proof PI_upper.
  apply Distance_far. cbv zeta.
  set (la1 := Treasure.Latitude l1 * PI / 180).
  set (la2 := Treasure.Latitude l2 * PI / 180).
  set (dlo := Treasure.Longitude l2 * PI / 180 - Treasure.Longitude l1 * PI / 180).
  assert (Hc1 : 1 / 2 <= cos la1).
  { rewrite <- cos_PI3. apply cos_decr_1; unfold la1; nra. }
  assert (Hc2 : 1 / 2 <= cos la2).
  { rewrite <- cos_PI3. apply cos_decr_1; unfold la2; nra. }
  pose proof (hsin_nonneg (la2 - la1)) as Hla.
  assert (Hlo : 2 * (1000 / 6378100) * (2 * (1000 / 6378100)) <= Treasure.hsin dlo).
  { apply hsin_lower_bound; unfold dlo; [lra | nra |].
    destruct Hd as [Hd|Hd]; [left | right]; nra. }
  assert (Hcc : 1 / 4 <= cos la1 * cos la2) by nra.
  assert (1 / 4 * Treasure.hsin dlo <= cos la1 * cos la2 * Treasure.hsin dlo).
  { apply Rmult_le_compat_r; [apply hsin_nonneg | exact Hcc]. }
  lra.
Qed.

Lemma near_false (probe : Treasure.Location) (c : Z * Treasure.Location) :
  2000 <= Treasure.Distance (snd c) probe -> near probe c = false.
Proof.
  intros H. unfold near. destruct (Rlt_dec _ 2000); [lra | reflexivity].
Qed.

Close Scope R_scope.

(** At [ducks] only the third candidate, index 2, is within the
    threshold. *)
Lemma hits_at_ducks :
  filter (near Samples2.ducks) candidates = [ (2, Samples2.ducks) ].
Proof.
  unfold candidates, Treasure.LOCATIONS, Samples2.ducks. simpl enumerate_from.
  unfold filter.
  rewrite (@near_false _ (0, _)) by (apply far_by_longitude; simpl; lra).
  rewrite (@near_false _ (1, _)) by (apply far_by_longitude; simpl; lra).
  rewrite (proj2 (@near_true_iff _ (2, _)))
    by (simpl; rewrite Distance_self; lra).
  rewrite (@near_false _ (3, _)) by (apply far_by_latitude; simpl; lra).
  rewrite (@near_false _ (4, _)) by (apply far_by_latitude; simpl; lra).
  reflexivity.
Qed.

(** A location sent from [ducks] triggers the hint of index 2 and no
    other: one "check this place" text, the supervisor note with index 2,
    and one location message. *)
Lemma geofence_at_ducks :
  calls_of (Treasure.HandleTelegramWebHook Samples2.decode ascii_ToLower "ducks")
           net_ok
  = [ text_post 42 "Проверь это место";
      text_post 49208041 "Соня проверяет 2!";
      location_post 42 Samples2.ducks ].
Proof.
  assert (Hdec : Samples2.decode "ducks" Treasure.Update_zero
                 = (Samples2.message "" Samples2.ducks, None)) by reflexivity.
  assert (Hid : Treasure.UpdateId (Samples2.message "" Samples2.ducks) <> 0)
    by (simpl; lia).
  assert (He : emits (Treasure.dispatch ascii_ToLower
                        (Samples2.message "" Samples2.ducks))
                     (geofence_posts 42 Samples2.ducks) (fun _ => True)).
  { apply (@dispatch2_geofence ascii_ToLower (Samples2.message "" Samples2.ducks));
      simpl; first [reflexivity | discriminate | lra]. }
  destruct (emits_calls He net_ok) as [Hcalls _].
  unfold calls_of in *.
  rewrite (handler2_parsed Samples2.decode ascii_ToLower "ducks" Hdec Hid).
  rewrite Hcalls. unfold geofence_posts. rewrite hits_at_ducks. reflexivity.
Qed.

(* ================================================================== *)
(** * Where a handler can panic *)
(* ================================================================== *)

Lemma never_panics_ret {A} (a : A) : never_panics (ret a).
Proof. intros net tr. reflexivity. Qed.

Lemma never_panics_log (format : string) : never_panics (log_Printf format).
Proof. intros net tr. reflexivity. Qed.

Lemma never_panics_bind {A B} (m : Io A) (k : A -> Io B) :
  never_panics m -> (forall a, never_panics (k a)) -> never_panics (bind m k).
Proof.
  intros Hm Hk net tr. unfold bind. specialize (Hm net tr).
  destruct (m net tr) as [a tr'|msg tr']; [apply Hk | discriminate Hm].
Qed.

Lemma emits_never_panics {A} (m : Io A) p (P : A -> Prop) :
  emits m p P -> never_panics m.
Proof.
  intros Hm net tr. destruct (Hm net tr) as (a & tr' & E & _).
  rewrite E. reflexivity.
Qed.

Ltac no_panic :=
  repeat match goal with
    | |- never_panics (ret _) => apply never_panics_ret
    | |- never_panics (log_Printf _) => apply never_panics_log
    | |- never_panics (Treasure.log_outcome _) =>
        eapply emits_never_panics; apply log_outcome2_emits
    | |- never_panics (Treasure.sendTextMessage _ _) =>
        eapply emits_never_panics; apply sendTextMessage_emits
    | |- never_panics (Treasure.sendLocationMessage _ _) =>
        eapply emits_never_panics; apply sendLocationMessage_emits
    | |- never_panics (Treasure.range_LOCATIONS _ _ _ _) =>
        eapply emits_never_panics; apply range_LOCATIONS_emits
    | |- never_panics (Celebration.log_outcome _) =>
        eapply emits_never_panics; apply log_outcome1_emits
    | |- never_panics (Celebration.after_PostForm _) =>
        eapply emits_never_panics; apply after_PostForm1_emits
    | |- never_panics (http_PostForm _ _) =>
        eapply emits_never_panics; apply emits_post
    | |- never_panics (bind _ _) => apply never_panics_bind; [| intros ?]
    | |- never_panics (let '(_, _) := ?x in _) => destruct x
    | |- never_panics (if ?c then _ else _) => destruct c
    end.

(** Variant 2 returns on every update: nothing in it indexes an array. *)
Lemma dispatch2_never_panics (strings_ToLower : string -> string)
  (u : Treasure.Update) :
  never_panics (Treasure.dispatch strings_ToLower u).
Proof. unfold Treasure.dispatch. cbv zeta. no_panic. Qed.

Lemma handler2_never_panics
  (json_Decode : string -> Treasure.Update -> Treasure.Update * option error)
  (strings_ToLower : string -> string) (body : string) :
  never_panics (Treasure.HandleTelegramWebHook json_Decode strings_ToLower body).
Proof.
  intros net tr.
  unfold Treasure.HandleTelegramWebHook, Treasure.parseTelegramRequest, bind.
  destruct (json_Decode body Treasure.Update_zero) as [u [e|]]; [reflexivity|].
  destruct (Treasure.UpdateId u =? 0); [reflexivity|].
  apply dispatch2_never_panics.
Qed.

(** Variant 1 returns whenever the update is not a click of an allowed
    user with an index outside the phrase list. *)
Lemma dispatch1_never_panics (u : Celebration.Update) :
  let cb := Celebration.Update_CallbackQuerry u in
  let p := fst (Atoi (Celebration.CallbackQuerry_Data cb)) in
  Celebration.Message_Text (Celebration.Update_Message u) = "/start"
  \/ Celebration.isAllowed
       (Celebration.User_Username (Celebration.CallbackQuerry_From cb)) = false
  \/ 0 <= p < Z.of_nat (List.length Celebration.CELEBRATIONS) ->
  never_panics (Celebration.dispatch u).
Proof.
  intros cb p H. unfold Celebration.dispatch. fold cb.
  apply never_panics_bind; [| intros ?; apply never_panics_log].
  destruct (String.eqb_spec
              (Celebration.Message_Text (Celebration.Update_Message u)) "/start")
    as [Es|Es].
  - unfold Celebration.sendStartTextMessage. no_panic.
  - destruct H as [H|[H|H]]; [contradiction | rewrite H; no_panic |].
    destruct (Celebration.isAllowed _); [| no_panic].
    unfold p in H.
    destruct (Atoi (Celebration.CallbackQuerry_Data cb)) as [q e].
    simpl fst in H.
    apply never_panics_bind; [| intros [? ?]; no_panic].
    eapply emits_never_panics. apply sendCelebrateMessage_emits. exact H.
Qed.

(* ================================================================== *)
(** * Variant 2: the other branches of the dispatch *)
(* ================================================================== *)

Lemma emits_run (m : Io unit) p (P : unit -> Prop) :
  emits m p P ->
  forall net, returned (m net []) = Some tt /\ calls_of m net = p.
Proof.
  intros Hm net. destruct (Hm net []) as ([] & tr & E & O & _).
  unfold calls_of. rewrite E. simpl. auto.
Qed.

Section Branches2.

Variable strings_ToLower : string -> string.

Lemma dispatch2_start (u : Treasure.Update) :
  let m := Treasure.Update_Message u in
  Treasure.isAllowed (Treasure.Chat_Username (Treasure.Message_Chat m)) = true ->
  Treasure.Message_Text m = "/start" ->
  emits (Treasure.dispatch strings_ToLower u)
        [ text_post (Treasure.Chat_Id (Treasure.Message_Chat m)) Treasure.msg_start;
          text_post Treasure.ANTON_CHAT_ID "Соня начала искать локации!" ]
        (fun _ => True).
Proof.
  intros m Hal Hs. unfold Treasure.dispatch. fold m. rewrite Hal, Hs.
  simpl negb. cbv iota. rewrite String.eqb_refl.
  eapply emits_bind; [| intros ? _; apply emits_log | symmetry; apply app_nil_r].
  eapply emits_bind; [apply sendTextMessage_emits | intros [? e] _ | reflexivity].
  eapply emits_bind; [apply sendTextMessage_emits | intros ? _ | reflexivity].
  apply log_outcome2_emits.
Qed.

Lemma dispatch2_unlock (u : Treasure.Update) :
  let m := Treasure.Update_Message u in
  Treasure.isAllowed (Treasure.Chat_Username (Treasure.Message_Chat m)) = true ->
  Treasure.Message_Text m = "/unlock" ->
  emits (Treasure.dispatch strings_ToLower u)
        [ text_post (Treasure.Chat_Id (Treasure.Message_Chat m)) "Пароль?" ]
        (fun _ => True).
Proof.
  intros m Hal Hs. unfold Treasure.dispatch. fold m. rewrite Hal, Hs.
  simpl negb. cbv iota.
  change (String.eqb "/unlock" "/start") with false.
  rewrite String.eqb_refl.
  eapply emits_bind; [| intros ? _; apply emits_log | symmetry; apply app_nil_r].
  eapply emits_bind; [apply sendTextMessage_emits | intros [? e] _ | reflexivity].
  apply log_outcome2_emits.
Qed.

Lemma dispatch2_secret (u : Treasure.Update) :
  let m := Treasure.Update_Message u in
  Treasure.isAllowed (Treasure.Chat_Username (Treasure.Message_Chat m)) = true ->
  Treasure.Message_Text m <> "/start" ->
  Treasure.Message_Text m <> "/unlock" ->
  Treasure.to_lower_letters strings_ToLower (Treasure.Message_Text m) = "afsio" ->
  emits (Treasure.dispatch strings_ToLower u)
        [ text_post (Treasure.Chat_Id (Treasure.Message_Chat m)) Treasure.msg_success;
          text_post Treasure.ANTON_CHAT_ID "Соня справилась!" ]
        (fun _ => True).
Proof.
  intros m Hal Hs Hu Hw. unfold Treasure.dispatch. fold m. rewrite Hal, Hw.
  simpl negb. cbv iota.
  apply String.eqb_neq in Hs, Hu. rewrite Hs, Hu, String.eqb_refl.
  eapply emits_bind; [| intros ? _; apply emits_log | symmetry; apply app_nil_r].
  eapply emits_bind; [apply sendTextMessage_emits | intros [? e] _ | reflexivity].
  eapply emits_bind; [apply sendTextMessage_emits | intros [? e2] _ | reflexivity].
  eapply emits_bind; [apply log_outcome2_emits | intros ? _ | reflexivity].
  apply log_outcome2_emits.
Qed.

Lemma dispatch2_fallback (u : Treasure.Update) :
  let m := Treasure.Update_Message u in
  Treasure.isAllowed (Treasure.Chat_Username (Treasure.Message_Chat m)) = true ->
  Treasure.Message_Text m <> "/start" ->
  Treasure.Message_Text m <> "/unlock" ->
  Treasure.to_lower_letters strings_ToLower (Treasure.Message_Text m) <> "afsio" ->
  (Treasure.Latitude (Treasure.Message_Location m) <= 0)%R ->
  emits (Treasure.dispatch strings_ToLower u)
        [ text_post (Treasure.Chat_Id (Treasure.Message_Chat m))
            "Этот пароль не подходит =(";
          text_post Treasure.ANTON_CHAT_ID
            (Treasure.msg_entered (Treasure.Message_Text m)) ]
        (fun _ => True).
Proof.
  intros m Hal Hs Hu Hw Hlat. unfold Treasure.dispatch. fold m. rewrite Hal.
  simpl negb. cbv iota.
  apply String.eqb_neq in Hs, Hu, Hw. rewrite Hs, Hu, Hw.
  destruct (Rgt_dec (Treasure.Latitude (Treasure.Message_Location m)) 0)
    as [Hgt|_]; [lra|].
  eapply emits_bind; [| intros ? _; apply emits_log | symmetry; apply app_nil_r].
  eapply emits_bind; [apply sendTextMessage_emits | intros [? e] _ | reflexivity].
  eapply emits_bind; [apply sendTextMessage_emits | intros ? _ | reflexivity].
  apply log_outcome2_emits.
Qed.

(** The dispatch issues the POSTs of [replies2], whatever the transport
    answers. *)
Lemma dispatch2_replies (u : Treasure.Update) :
  emits (Treasure.dispatch strings_ToLower u) (replies2 strings_ToLower u)
        (fun _ => True).
Proof.
  unfold replies2. cbv zeta.
  destruct (Treasure.isAllowed _) eqn:Hal; simpl negb; cbv iota.
  2:{ intros net tr. exists tt, tr.
      rewrite (dispatch2_not_allowed strings_ToLower u Hal), app_nil_r. auto. }
  destruct (String.eqb_spec
              (Treasure.Message_Text (Treasure.Update_Message u)) "/start")
    as [Es|Es]; [apply dispatch2_start; assumption|].
  destruct (String.eqb_spec
              (Treasure.Message_Text (Treasure.Update_Message u)) "/unlock")
    as [Eu|Eu]; [apply dispatch2_unlock; assumption|].
  destruct (String.eqb_spec
              (strings_ToLower (Treasure.Message_Text (Treasure.Update_Message u)))
              "afsio")
    as [Ew|Ew]; [apply dispatch2_secret; assumption|].
  destruct (Rgt_dec _ 0) as [Hgt|Hle].
  - apply dispatch2_geofence; assumption.
  - apply dispatch2_fallback; try assumption. lra.
Qed.

End Branches2.

Lemma handler2_run
  (json_Decode : string -> Treasure.Update -> Treasure.Update * option error)
  (strings_ToLower : string -> string) (body : string) (u : Treasure.Update)
  (p : list (Endpoint * Values)) (net : Transport) :
  json_Decode body Treasure.Update_zero = (u, None) ->
  Treasure.UpdateId u <> 0 ->
  emits (Treasure.dispatch strings_ToLower u) p (fun _ => True) ->
  returned (Treasure.HandleTelegramWebHook json_Decode strings_ToLower body net [])
    = Some tt
  /\ calls_of (Treasure.HandleTelegramWebHook json_Decode strings_ToLower body) net
     = p.
Proof.
  intros Hdec Hid He. unfold calls_of.
  rewrite (handler2_parsed json_Decode strings_ToLower body Hdec Hid).
  apply (emits_run He net).
Qed.

(** X1 - Variant 2, [/start] from an allowed user: the handler returns
    after exactly two texts, the instructions to the user's chat and then
    the note to the supervisor chat, whatever else the update carries and
    whatever the transport answers. *)
Theorem start_command_sends_two_texts :
  forall (json_Decode : string -> Treasure.Update -> Treasure.Update * option error)
         (strings_ToLower : string -> string)
         (body : string) (u : Treasure.Update) (net : Transport),
    json_Decode body Treasure.Update_zero = (u, None) ->
    Treasure.UpdateId u <> 0 ->
    let m := Treasure.Update_Message u in
    Treasure.isAllowed (Treasure.Chat_Username (Treasure.Message_Chat m)) = true ->
    Treasure.Message_Text m = "/start" ->
    returned (Treasure.HandleTelegramWebHook json_Decode strings_ToLower body net [])
      = Some tt
    /\ calls_of (Treasure.HandleTelegramWebHook json_Decode strings_ToLower body) net
       = [ text_post (Treasure.Chat_Id (Treasure.Message_Chat m)) Treasure.msg_start;
           text_post 49208041 "Соня начала искать локации!" ].
Proof.
  intros json_Decode strings_ToLower body u net Hdec Hid m Hal Hs.
  apply (@handler2_run json_Decode strings_ToLower body u _ net Hdec Hid).
  apply dispatch2_start; assumption.
Qed.

Lemma start_command_sends_two_texts_witness :
  calls_of (Treasure.HandleTelegramWebHook
              (Samples2.decode_as (Samples2.message "/start" Samples2.ducks))
              ascii_ToLower "{}") net_down
  = [ text_post 42 Treasure.msg_start;
      text_post 49208041 "Соня начала искать локации!" ].
Proof.
  apply (@start_command_sends_two_texts
           (Samples2.decode_as (Samples2.message "/start" Samples2.ducks))
           ascii_ToLower "{}" (Samples2.message "/start" Samples2.ducks) net_down).
  - reflexivity.
  - simpl. lia.
  - reflexivity.
  - reflexivity.
Defined.

(** X2 - Variant 2, [/unlock] from an allowed user: the handler returns
    after exactly one text, the question for the pass-phrase, to the
    user's chat; the supervisor is not told. *)
Theorem unlock_command_asks_for_the_passphrase :
  forall (json_Decode : string -> Treasure.Update -> Treasure.Update * option error)
         (strings_ToLower : string -> string)
         (body : string) (u : Treasure.Update) (net : Transport),
    json_Decode body Treasure.Update_zero = (u, None) ->
    Treasure.UpdateId u <> 0 ->
    let m := Treasure.Update_Message u in
    Treasure.isAllowed (Treasure.Chat_Username (Treasure.Message_Chat m)) = true ->
    Treasure.Message_Text m = "/unlock" ->
    returned (Treasure.HandleTelegramWebHook json_Decode strings_ToLower body net [])
      = Some tt
    /\ calls_of (Treasure.HandleTelegramWebHook json_Decode strings_ToLower body) net
       = [ text_post (Treasure.Chat_Id (Treasure.Message_Chat m)) "Пароль?" ].
Proof.
  intros json_Decode strings_ToLower body u net Hdec Hid m Hal Hs.
  apply (@handler2_run json_Decode strings_ToLower body u _ net Hdec Hid).
  apply dispatch2_unlock; assumption.
Qed.

Lemma unlock_command_asks_for_the_passphrase_witness :
  calls_of (Treasure.HandleTelegramWebHook
              (Samples2.decode_as (Samples2.message "/unlock" Samples2.ducks))
              ascii_ToLower "{}") net_ok
  = [ text_post 42 "Пароль?" ].
Proof.
  apply (@unlock_command_asks_for_the_passphrase
           (Samples2.decode_as (Samples2.message "/unlock" Samples2.ducks))
           ascii_ToLower "{}" (Samples2.message "/unlock" Samples2.ducks) net_ok).
  - reflexivity.
  - simpl. lia.
  - reflexivity.
  - reflexivity.
Defined.

(** X3 - Variant 2, the secret word: a text of an allowed user that is
    neither command and whose lower-case form is [afsio] gets the success
    message, and the supervisor is told, in this order and nothing else;
    the text is matched before the location is looked at, so a location
    sent along triggers no hint. *)
Theorem secret_word_wins_over_location :
  forall (json_Decode : string -> Treasure.Update -> Treasure.Update * option error)
         (strings_ToLower : string -> string)
         (body : string) (u : Treasure.Update) (net : Transport),
    json_Decode body Treasure.Update_zero = (u, None) ->
    Treasure.UpdateId u <> 0 ->
    let m := Treasure.Update_Message u in
    Treasure.isAllowed (Treasure.Chat_Username (Treasure.Message_Chat m)) = true ->
    Treasure.Message_Text m <> "/start" ->
    Treasure.Message_Text m <> "/unlock" ->
    strings_ToLower (Treasure.Message_Text m) = "afsio" ->
    returned (Treasure.HandleTelegramWebHook json_Decode strings_ToLower body net [])
      = Some tt
    /\ calls_of (Treasure.HandleTelegramWebHook json_Decode strings_ToLower body) net
       = [ text_post (Treasure.Chat_Id (Treasure.Message_Chat m)) Treasure.msg_success;
           text_post 49208041 "Соня справилась!" ].
Proof.
  intros json_Decode strings_ToLower body u net Hdec Hid m Hal Hs Hu Hw.
  apply (@handler2_run json_Decode strings_ToLower body u _ net Hdec Hid).
  apply dispatch2_secret; assumption.
Qed.

Lemma secret_word_wins_over_location_witness :
  calls_of (Treasure.HandleTelegramWebHook
              (Samples2.decode_as (Samples2.message "AfSiO" Samples2.ducks))
              ascii_ToLower "{}") net_ok
  = [ text_post 42 Treasure.msg_success;
      text_post 49208041 "Соня справилась!" ].
Proof.
  apply (@secret_word_wins_over_location
           (Samples2.decode_as (Samples2.message "AfSiO" Samples2.ducks))
           ascii_ToLower "{}" (Samples2.message "AfSiO" Samples2.ducks) net_ok).
  - reflexivity.
  - simpl. lia.
  - reflexivity.
  - simpl. discriminate.
  - simpl. discriminate.
  - reflexivity.
Defined.

(** X4 - Variant 2, the last rule: a text of an allowed user that is
    neither command nor the secret word, in a message whose latitude is
    not above 0 (no location at all, which decodes to latitude 0, or a
    location on the equator or south of it), is answered as a wrong
    pass-phrase, and the supervisor receives the text as it was typed. *)
Theorem no_northern_location_is_a_wrong_passphrase :
  forall (json_Decode : string -> Treasure.Update -> Treasure.Update * option error)
         (strings_ToLower : string -> string)
         (body : string) (u : Treasure.Update) (net : Transport),
    json_Decode body Treasure.Update_zero = (u, None) ->
    Treasure.UpdateId u <> 0 ->
    let m := Treasure.Update_Message u in
    Treasure.isAllowed (Treasure.Chat_Username (Treasure.Message_Chat m)) = true ->
    Treasure.Message_Text m <> "/start" ->
    Treasure.Message_Text m <> "/unlock" ->
    strings_ToLower (Treasure.Message_Text m) <> "afsio" ->
    (Treasure.Latitude (Treasure.Message_Location m) <= 0)%R ->
    returned (Treasure.HandleTelegramWebHook json_Decode strings_ToLower body net [])
      = Some tt
    /\ calls_of (Treasure.HandleTelegramWebHook json_Decode strings_ToLower body) net
       = [ text_post (Treasure.Chat_Id (Treasure.Message_Chat m))
             "Этот пароль не подходит =(";
           text_post 49208041
             ("Соня ввела " ++ Treasure.Message_Text m ++ "!")%string ].
Proof.
  intros json_Decode strings_ToLower body u net Hdec Hid m Hal Hs Hu Hw Hlat.
  apply (@handler2_run json_Decode strings_ToLower body u _ net Hdec Hid).
  apply dispatch2_fallback; assumption.
Qed.

Lemma no_northern_location_is_a_wrong_passphrase_witness :
  calls_of (Treasure.HandleTelegramWebHook
              (Samples2.decode_as (Samples2.message "" Samples2b.sydney))
              ascii_ToLower "{}") net_ok
  = [ text_post 42 "Этот пароль не подходит =(";
      text_post 49208041 "Соня ввела !" ].
Proof.
  apply (@no_northern_location_is_a_wrong_passphrase
           (Samples2.decode_as (Samples2.message "" Samples2b.sydney))
           ascii_ToLower "{}" (Samples2.message "" Samples2b.sydney) net_ok).
  - reflexivity.
  - simpl. lia.
  - reflexivity.
  - simpl. discriminate.
  - simpl. discriminate.
  - simpl. discriminate.
  - simpl. lra.
Defined.

Lemma geofence_posts_head (chatId : Z) (probe : Treasure.Location) :
  exists text rest,
    geofence_posts chatId probe = text_post chatId text :: rest.
Proof.
  unfold geofence_posts.
  destruct (filter (near probe) candidates) as [|c hits].
  - exists Treasure.msg_no_hints, []. reflexivity.
  - simpl. eexists _, _. reflexivity.
Qed.

(** X5 - Variant 2 always answers an allowed user: for every parsed
    update whose chat username is on the allow-list, the first call of the
    handler is a text sent to the chat the message came from. *)
Theorem allowed_user_is_always_answered :
  forall (json_Decode : string -> Treasure.Update -> Treasure.Update * option error)
         (strings_ToLower : string -> string)
         (body : string) (u : Treasure.Update) (net : Transport),
    json_Decode body Treasure.Update_zero = (u, None) ->
    Treasure.UpdateId u <> 0 ->
    let m := Treasure.Update_Message u in
    Treasure.isAllowed (Treasure.Chat_Username (Treasure.Message_Chat m)) = true ->
    exists text rest,
      calls_of (Treasure.HandleTelegramWebHook json_Decode strings_ToLower body) net
      = text_post (Treasure.Chat_Id (Treasure.Message_Chat m)) text :: rest.
Proof.
  intros json_Decode strings_ToLower body u net Hdec Hid m Hal.
  destruct (@handler2_run json_Decode strings_ToLower body u _ net Hdec Hid
              (dispatch2_replies strings_ToLower u)) as [_ Hc].
  rewrite Hc. unfold replies2. cbv zeta. fold m. rewrite Hal. simpl negb. cbv iota.
  destruct (String.eqb _ "/start"); [eexists _, _; reflexivity|].
  destruct (String.eqb _ "/unlock"); [eexists _, _; reflexivity|].
  destruct (String.eqb _ "afsio"); [eexists _, _; reflexivity|].
  destruct (Rgt_dec _ 0); [apply geofence_posts_head | eexists _, _; reflexivity].
Qed.

Lemma allowed_user_is_always_answered_witness :
  exists text rest,
    calls_of (Treasure.HandleTelegramWebHook
                (Samples2.decode_as (Samples2.message "hello" Samples2.ducks))
                ascii_ToLower "{}") net_ok
    = text_post 42 text :: rest.
Proof.
  apply (@allowed_user_is_always_answered
           (Samples2.decode_as (Samples2.message "hello" Samples2.ducks))
           ascii_ToLower "{}" (Samples2.message "hello" Samples2.ducks) net_ok).
  - reflexivity.
  - simpl. lia.
  - reflexivity.
Defined.

(** X6 - Variant 2 never fails and never lets the transport steer it: on
    every request body, with every decoder and every transport, the
    handler returns, and the calls it makes are the same on any two
    transports: no call is retried, and no call is skipped because an
    earlier one failed. *)
Theorem treasure_calls_ignore_the_transport :
  forall (json_Decode : string -> Treasure.Update -> Treasure.Update * option error)
         (strings_ToLower : string -> string)
         (body : string) (net1 net2 : Transport),
    returned (Treasure.HandleTelegramWebHook json_Decode strings_ToLower body net1 [])
      = Some tt
    /\ calls_of (Treasure.HandleTelegramWebHook json_Decode strings_ToLower body) net1
       = calls_of (Treasure.HandleTelegramWebHook json_Decode strings_ToLower body) net2.
Proof.
  intros json_Decode strings_ToLower body net1 net2.
  destruct (json_Decode body Treasure.Update_zero) as [u [e|]] eqn:Hdec.
  - unfold calls_of, Treasure.HandleTelegramWebHook,
      Treasure.parseTelegramRequest, bind. rewrite Hdec. split; reflexivity.
  - destruct (Z.eq_dec (Treasure.UpdateId u) 0) as [Hz|Hid].
    + unfold calls_of, Treasure.HandleTelegramWebHook,
        Treasure.parseTelegramRequest, bind. rewrite Hdec, Hz.
      split; reflexivity.
    + destruct (@handler2_run json_Decode strings_ToLower body u _ net1 Hdec Hid
                  (dispatch2_replies strings_ToLower u)) as [Hr H1].
      destruct (@handler2_run json_Decode strings_ToLower body u _ net2 Hdec Hid
                  (dispatch2_replies strings_ToLower u)) as [_ H2].
      rewrite H1, H2. auto.
Qed.

(* ================================================================== *)
(** * Rejected bodies, and what the senders do *)
(* ================================================================== *)

(** X7 - In both variants a body that does not parse, because the decoder
    refuses it or because the decoded identifier is 0, makes no outbound
    call: the handler returns after two log lines, the parser's and its
    own [error parsing update]. *)
Theorem rejected_body_is_only_logged :
  forall (json1 : string -> Celebration.Update -> Celebration.Update * option error)
         (json2 : string -> Treasure.Update -> Treasure.Update * option error)
         (strings_ToLower : string -> string) (body : string) (net : Transport),
    (snd (json1 body Celebration.Update_zero) <> None
     \/ Celebration.UpdateId (fst (json1 body Celebration.Update_zero)) = 0 ->
     exists line,
       Celebration.HandleTelegramWebHook json1 body net []
       = Returned tt [ Log line; Log "error parsing update, %s" ])
    /\ (snd (json2 body Treasure.Update_zero) <> None
        \/ Treasure.UpdateId (fst (json2 body Treasure.Update_zero)) = 0 ->
        exists line,
          Treasure.HandleTelegramWebHook json2 strings_ToLower body net []
          = Returned tt [ Log line; Log "error parsing update, %s" ]).
Proof.
  intros json1 json2 strings_ToLower body net. split.
  - unfold Celebration.HandleTelegramWebHook, Celebration.parseTelegramRequest, bind.
    destruct (json1 body Celebration.Update_zero) as [u [e|]]; simpl.
    + intros _. eexists. reflexivity.
    + intros [H|H]; [contradiction | rewrite H]. eexists. reflexivity.
  - unfold Treasure.HandleTelegramWebHook, Treasure.parseTelegramRequest, bind.
    destruct (json2 body Treasure.Update_zero) as [u [e|]]; simpl.
    + intros _. eexists. reflexivity.
    + intros [H|H]; [contradiction | rewrite H]. eexists. reflexivity.
Qed.

Lemma rejected_body_is_only_logged_witness :
  (exists line,
     Celebration.HandleTelegramWebHook Samples1.decode "{" net_ok []
     = Returned tt [ Log line; Log "error parsing update, %s" ])
  /\ (exists line,
        Treasure.HandleTelegramWebHook Samples2.decode ascii_ToLower "{}" net_ok []
        = Returned tt [ Log line; Log "error parsing update, %s" ]).
Proof.
  destruct (@rejected_body_is_only_logged
              Samples1.decode Samples2.decode ascii_ToLower "{" net_ok) as [H1 _].
  destruct (@rejected_body_is_only_logged
              Samples1.decode Samples2.decode ascii_ToLower "{}" net_ok) as [_ H2].
  split.
  - apply H1. left. simpl. discriminate.
  - apply H2. right. reflexivity.
Defined.

Lemma sendStartTextMessage_emits (chatId : Z) (text : string) :
  emits (Celebration.sendStartTextMessage chatId text) [ start_post chatId text ]
        (fun _ => True).
Proof.
  unfold Celebration.sendStartTextMessage, start_post.
  eapply emits_bind; [apply emits_log | intros _ _ | reflexivity].
  eapply emits_bind; [apply emits_post | intros r _ | reflexivity].
  apply after_PostForm1_emits.
Qed.

(** X8 - No sender retries: whatever the transport answers, a call of
    send text, send location, the welcome message or the celebration edit
    adds exactly one POST to the trace, to its own endpoint and with its
    own form. *)
Theorem senders_post_exactly_once :
  forall (chatId messageId : Z) (text : string) (l : Treasure.Location)
         (net : Transport) (tr : Trace),
    outbound (trace_of (Treasure.sendTextMessage chatId text net tr))
      = outbound tr ++ [ text_post chatId text ]
    /\ outbound (trace_of (Treasure.sendLocationMessage chatId l net tr))
      = outbound tr ++ [ location_post chatId l ]
    /\ outbound (trace_of (Celebration.sendStartTextMessage chatId text net tr))
      = outbound tr ++ [ start_post chatId text ]
    /\ outbound (trace_of (Celebration.sendCelebrateMessage chatId messageId 0 net tr))
      = outbound tr
        ++ [ edit_post chatId messageId (nth 0 Celebration.CELEBRATIONS "") "0" ].
Proof.
  intros chatId messageId text l net tr.
  assert (H0 : 0 <= 0 < Z.of_nat (List.length Celebration.CELEBRATIONS))
    by (simpl; lia).
  destruct (sendTextMessage_emits chatId text net tr) as (a1 & t1 & E1 & O1 & _).
  destruct (sendLocationMessage_emits chatId l net tr) as (a2 & t2 & E2 & O2 & _).
  destruct (sendStartTextMessage_emits chatId text net tr) as (a3 & t3 & E3 & O3 & _).
  destruct (sendCelebrateMessage_emits chatId messageId H0 net tr)
    as (a4 & t4 & E4 & O4 & _).
  rewrite E1, E2, E3, E4. simpl trace_of. auto.
Qed.

(** X9 - What the senders hand back.  On a transport that refuses every
    POST with the error [e], each sender hands back the empty string and
    [e]; on a transport that answers every POST with a body read to the
    end, each sender hands back that body, whatever it says, and no
    error. *)
Theorem senders_return_the_error_or_the_body :
  forall (chatId messageId : Z) (text : string) (l : Treasure.Location)
         (net : Transport) (tr : Trace) (r : Response) (err : option error),
    (forall t url form, net t url form = (r, err)) ->
    (err <> None \/ BodyErr r = None) ->
    let expected :=
      match err with
      | Some e => ("", Some e)
      | None => (Body r, None)
      end in
    returned (Treasure.sendTextMessage chatId text net tr) = Some expected
    /\ returned (Treasure.sendLocationMessage chatId l net tr) = Some expected
    /\ returned (Celebration.sendStartTextMessage chatId text net tr) = Some expected
    /\ returned (Celebration.sendCelebrateMessage chatId messageId 0 net tr)
       = Some expected.
Proof.
  intros chatId messageId text l net tr r err Hnet Hok expected.
  unfold Treasure.sendTextMessage, Treasure.sendLocationMessage,
    Celebration.sendStartTextMessage, Celebration.sendCelebrateMessage,
    bind, log_Printf, http_PostForm, index. simpl.
  rewrite !Hnet. unfold expected.
  destruct err as [e|]; [repeat split|].
  destruct Hok as [H|H]; [contradiction|].
  destruct r as [b be]. simpl in H. subst be. repeat split.
Qed.

Lemma senders_return_the_error_or_the_body_witness :
  returned (Treasure.sendTextMessage 42 "hi" net_down [])
    = Some ("", Some (LibError "dial tcp: i/o timeout"))
  /\ returned (Celebration.sendCelebrateMessage 42 9 0 net_ok [])
    = Some ("ok", None).
Proof.
  destruct (@senders_return_the_error_or_the_body
              42 9 "hi" Samples2.ducks net_down []
              {| Body := ""; BodyErr := None |}
              (Some (LibError "dial tcp: i/o timeout")))
    as (H1 & _).
  - reflexivity.
  - left. discriminate.
  - destruct (@senders_return_the_error_or_the_body
                42 9 "hi" Samples2.ducks net_ok []
                {| Body := "ok"; BodyErr := None |} None)
      as (_ & _ & _ & H4).
    + reflexivity.
    + right. reflexivity.
    + split; [exact H1 | exact H4].
Defined.

(** X10 - The log of variant 2's [/unlock] branch, line by line.  After
    the POST the sender logs the transport error, or the read error, or
    the body; the handler then logs [got error] exactly when
    [http.PostForm] failed, and [successfully distributed] otherwise,
    also when the body could not be read; the closing line follows. *)
Theorem unlock_trace :
  forall (json_Decode : string -> Treasure.Update -> Treasure.Update * option error)
         (strings_ToLower : string -> string)
         (body : string) (u : Treasure.Update) (net : Transport),
    json_Decode body Treasure.Update_zero = (u, None) ->
    Treasure.UpdateId u <> 0 ->
    let m := Treasure.Update_Message u in
    Treasure.isAllowed (Treasure.Chat_Username (Treasure.Message_Chat m)) = true ->
    Treasure.Message_Text m = "/unlock" ->
    let post := text_post (Treasure.Chat_Id (Treasure.Message_Chat m)) "Пароль?" in
    let answer :=
      net [ Log "Sending start message to chat_id: %d" ] (fst post) (snd post) in
    Treasure.HandleTelegramWebHook json_Decode strings_ToLower body net []
    = Returned tt
        [ Log "Sending start message to chat_id: %d";
          Post (fst post) (snd post);
          Log (match snd answer, BodyErr (fst answer) with
               | Some _, _ => "error when posting text to the chat: %s"
               | None, Some _ => "error in parsing telegram answer %s"
               | None, None => "Body of Telegram Response: %s"
               end);
          Log (match snd answer with
               | Some _ => "got error %s from telegram, response body is %s"
               | None => "successfully distributed to chat id %d"
               end);
          Log "Update new is %s" ].
Proof.
  intros json_Decode strings_ToLower body u net Hdec Hid m Hal Hs post answer.
  rewrite (handler2_parsed json_Decode strings_ToLower body Hdec Hid).
  unfold Treasure.dispatch. fold m. rewrite Hal, Hs. simpl negb. cbv iota.
  change (String.eqb "/unlock" "/start") with false.
  rewrite String.eqb_refl. cbv iota.
  unfold Treasure.sendTextMessage, bind, log_Printf, http_PostForm. simpl.
  fold post. change (net _ _ _) with answer.
  destruct answer as [[b [be|]] [e|]]; reflexivity.
Qed.

Lemma unlock_trace_witness :
  Treasure.HandleTelegramWebHook
    (Samples2.decode_as (Samples2.message "/unlock" Samples2.ducks))
    ascii_ToLower "{}" net_broken_body []
  = Returned tt
      [ Log "Sending start message to chat_id: %d";
        Post telegramApiSend (snd (text_post 42 "Пароль?"));
        Log "error in parsing telegram answer %s";
        Log "successfully distributed to chat id %d";
        Log "Update new is %s" ].
Proof.
  apply (@unlock_trace
           (Samples2.decode_as (Samples2.message "/unlock" Samples2.ducks))
           ascii_ToLower "{}" (Samples2.message "/unlock" Samples2.ducks)
           net_broken_body).
  - reflexivity.
  - simpl. lia.
  - reflexivity.
  - reflexivity.
Defined.

(* ================================================================== *)
(** * More on the distance and on the geofence *)
(* ================================================================== *)

Open Scope R_scope.






Close Scope R_scope.









Lemma filter_none {A} (f : A -> bool) (l : list A) :
  (forall y, In y l -> f y = false) -> filter f l = [].
Proof.
  induction l as [|y l IH]; simpl; intros H; [reflexivity|].
  rewrite (H y) by auto. apply IH. intros z Hz. apply H. auto.
Qed.

Lemma filter_single {A} (f : A -> bool) (l : list A) (x : A) :
  NoDup l -> In x l -> f x = true ->
  (forall y, In y l -> y <> x -> f y = false) ->
  filter f l = [ x ].
Proof.
  induction l as [|y l IH]; simpl; intros Hnd Hin Hx Hothers; [contradiction|].
  inversion Hnd as [|? ? Hy Hnd']; subst.
  destruct Hin as [->|Hin].
  - rewrite Hx. f_equal. apply filter_none.
    intros z Hz. apply Hothers; [auto|]. intros ->. contradiction.
  - rewrite (Hothers y) by (auto; intros ->; contradiction).
    apply IH; auto.
Qed.

(** X15 - One place within the threshold, one hint: when the float64
    comparison [Distance < 2000] is true of exactly one candidate, the
    handler makes exactly three calls, the "check this place" text to the
    user, the supervisor note with that candidate's list index, and the
    candidate's coordinates as a location message, whatever package math
    computes. *)
Theorem single_candidate_in_range_three_calls :
  forall (json_Decode : string -> Treasure64.Update -> Treasure64.Update * option error)
         (strings_ToLower : string -> string) (math : Treasure64.Math)
         (body : string) (u : Treasure64.Update) (net : Transport)
         (t : Z) (l : Treasure64.Location),
    json_Decode body Treasure64.Update_zero = (u, None) ->
    Treasure64.UpdateId u <> 0 ->
    let m := Treasure64.Update_Message u in
    let chat := Treasure.Chat_Id (Treasure64.Message_Chat m) in
    let probe := Treasure64.Message_Location m in
    In (Treasure.Chat_Username (Treasure64.Message_Chat m))
       [ "antonhulikau"; "sonicfelidae" ] ->
    Treasure64.Message_Text m <> "/start" ->
    Treasure64.Message_Text m <> "/unlock" ->
    strings_ToLower (Treasure64.Message_Text m) <> "afsio" ->
    PrimFloat.ltb 0 (Treasure64.Latitude probe) = true ->
    In (t, l) candidates64 ->
    PrimFloat.ltb (Treasure64.Distance math l probe) 2000 = true ->
    (forall t' l', In (t', l') candidates64 -> t' <> t ->
       PrimFloat.ltb (Treasure64.Distance math l' probe) 2000 = false) ->
    calls_of (Treasure64.HandleTelegramWebHook json_Decode strings_ToLower
                math body) net
    = [ text_post chat "Проверь это место";
        text_post 49208041 ("Соня проверяет " ++ Itoa t ++ "!")%string;
        (telegramApiSendLocation,
         [ ("chat_id", Str (Itoa chat));
           ("longitude", FormatFloat64 (Treasure64.Longitude l));
           ("latitude", FormatFloat64 (Treasure64.Latitude l));
           ("horizontal_accuracy", Str "2") ]) ].
Proof.
  intros json_Decode strings_ToLower math body u net t l Hdec Hid m chat probe
    Hal Hs Hu Hw Hlat Hc Hnear Hfar.
  destruct (@handler64_geofence_calls json_Decode strings_ToLower math body u net
              Hdec Hid Hal Hs Hu Hw Hlat) as [_ Hcalls].
  unfold calls_of. rewrite Hcalls. fold m chat probe. unfold geofence64.
  rewrite (@filter_single _ (within math probe) candidates64 (t, l)).
  - reflexivity.
  - apply candidates64_NoDup.
  - exact Hc.
  - exact Hnear.
  - intros [t' l'] Hc' Hne. apply (Hfar t' l' Hc'). intros ->.
    apply Hne. f_equal. apply (candidates64_functional Hc' Hc).
Qed.

Lemma single_candidate_in_range_three_calls_witness :
  calls_of (Treasure64.HandleTelegramWebHook
              (Samples64.decode_as (Samples64.message "" Samples64.ducks))
              ascii_ToLower Samples64.math "{}") net_down
  = [ text_post 42 "Проверь это место";
      text_post 49208041 "Соня проверяет 2!";
      (telegramApiSendLocation,
       [ ("chat_id", Str "42");
         ("longitude", FormatFloat64 11.596526);
         ("latitude", FormatFloat64 48.143296);
         ("horizontal_accuracy", Str "2") ]) ].
Proof.
  apply (@single_candidate_in_range_three_calls
           (Samples64.decode_as (Samples64.message "" Samples64.ducks))
           ascii_ToLower Samples64.math "{}"
           (Samples64.message "" Samples64.ducks)
           net_down 2 Samples64.ducks).
  - reflexivity.
  - simpl. lia.
  - simpl. left. reflexivity.
  - simpl. discriminate.
  - simpl. discriminate.
  - simpl. discriminate.
  - reflexivity.
  - unfold candidates64. simpl. right. right. left. reflexivity.
  - vm_compute. reflexivity.
  - unfold candidates64. simpl.
    intros t' l' [H|[H|[H|[H|[H|[]]]]]] Hne; injection H as <- <-;
      first [ contradiction Hne; reflexivity | vm_compute; reflexivity ].
Defined.

(** ** Coordinates that overflow *)

Lemma float_add_nan_l (x : float) : (nan + x)%float = nan.
Proof.
  rewrite <- (SF2Prim_Prim2SF (nan + x)), add_spec. reflexivity.
Qed.

(** X26 - In float64 the distance of a point to itself is not always 0:
    when the product of a latitude with [math.Pi] overflows, the
    difference of the two latitudes in radians is the difference of two
    infinities, a NaN, and with a package math that hands a NaN back for
    a NaN (as Go's [math.Sin], [math.Pow], [math.Sqrt] and [math.Asin]
    do) [Distance] is a NaN: it is not equal to 0, and it is not below
    the threshold of 2000 meters. *)
Theorem distance_is_nan_when_a_latitude_overflows :
  forall (math : Treasure64.Math) (p q : Treasure64.Location),
    Treasure64.math_Sin math nan = nan ->
    Treasure64.math_Pow math nan 2 = nan ->
    Treasure64.math_Sqrt math nan = nan ->
    Treasure64.math_Asin math nan = nan ->
    (Treasure64.Latitude p * Treasure64.math_Pi)%float = infinity ->
    (Treasure64.Latitude q * Treasure64.math_Pi)%float = infinity ->
    Treasure64.Distance math p q = nan
    /\ PrimFloat.eqb (Treasure64.Distance math p q) 0 = false
    /\ PrimFloat.ltb (Treasure64.Distance math p q) 2000 = false.
Proof.
  intros math p q Hsin Hpow Hsqrt Hasin Hp Hq.
  assert (E : Treasure64.Distance math p q = nan).
  { unfold Treasure64.Distance, Treasure64.hsin. cbv zeta. rewrite Hp, Hq.
    change (infinity / 180 - infinity / 180)%float with nan.
    change (nan / 2)%float with nan.
    rewrite Hsin, Hpow, float_add_nan_l, Hsqrt, Hasin. reflexivity. }
  rewrite E. repeat split.
Qed.

Lemma distance_is_nan_when_a_latitude_overflows_witness :
  let p := {| Treasure64.Latitude := 1.7e308; Treasure64.Longitude := 0 |} in
  Treasure64.Distance Samples64.math p p = nan
  /\ PrimFloat.eqb (Treasure64.Distance Samples64.math p p) 0 = false
  /\ PrimFloat.ltb (Treasure64.Distance Samples64.math p p) 2000 = false.
Proof.
  apply (@distance_is_nan_when_a_latitude_overflows Samples64.math
           {| Treasure64.Latitude := 1.7e308; Treasure64.Longitude := 0 |}
           {| Treasure64.Latitude := 1.7e308; Treasure64.Longitude := 0 |});
    vm_compute; reflexivity.
Defined.



(* ================================================================== *)
(** * The index travels in the button: Itoa and Atoi *)
(* ================================================================== *)

Lemma is_digit_value (c : ascii) :
  is_digit c = true -> 0 <= digit_value c <= 9.
Proof.
  unfold is_digit, digit_value. intros H.
  apply andb_true_iff in H as [H1 H2].
  apply Nat.leb_le in H1, H2. lia.
Qed.

Lemma atoi_fast_loop_mono (s : string) :
  forall n v, 0 <= n -> atoi_fast_loop s n = Some v -> n <= v.
Proof.
  induction s as [|c rest IH]; simpl; intros n v Hn H.
  - injection H as <-. lia.
  - destruct (is_digit c) eqn:Hc; [|discriminate].
    pose proof (is_digit_value c Hc).
    apply IH in H; lia.
Qed.

(** On digits whose value fits 64 bits unsigned, the loop of ParseUint
    computes what the fast path computes. *)
Lemma parseUint_loop_fits (s : string) :
  forall n v, 0 <= n -> atoi_fast_loop s n = Some v -> v <= maxUint64 ->
              parseUint_loop s n = (v, None).
Proof.
  induction s as [|c rest IH]; simpl; intros n v Hn H Hv.
  - injection H as <-. reflexivity.
  - destruct (is_digit c) eqn:Hc; [|discriminate].
    pose proof (is_digit_value c Hc) as Hd.
    assert (Hmono : n * 10 + digit_value c <= v)
      by (apply (@atoi_fast_loop_mono rest); [lia | exact H]).
    assert (Ecut : cutoff10 = 1844674407370955162) by reflexivity.
    assert (Emax : maxUint64 = 18446744073709551615) by reflexivity.
    change (Z.pow_pos 2 64) with 18446744073709551616.
    rewrite Ecut, Emax in *.
    destruct (Z.leb_spec 1844674407370955162 n) as [Hcut|Hcut]; [lia|].
    rewrite (Z.mod_small (n * 10 + digit_value c)) by lia.
    destruct (Z.ltb_spec (n * 10 + digit_value c) (n * 10)) as [H1|H1];
      [lia|].
    destruct (Z.ltb_spec 18446744073709551615 (n * 10 + digit_value c))
      as [H2|H2]; [lia|].
    simpl orb. cbv iota. apply IH; [lia | exact H | lia].
Qed.

Lemma is_sign_false (c : ascii) :
  is_sign c = false -> Ascii.eqb c "-"%char = false.
Proof. unfold is_sign. intros H. apply orb_false_elim in H as [H _]. exact H. Qed.

Lemma wrap_opp_wrap (v : Z) : 0 <= v <= 2 ^ 63 -> wrap (- wrap v) = - v.
Proof.
  intros Hv. destruct (Z.eq_dec v (2 ^ 63)) as [->|Hne]; [reflexivity|].
  rewrite (@wrap_small v) by (unfold maxInt; lia).
  apply wrap_small. unfold maxInt. lia.
Qed.

(** An unsigned numeral within the range of [int] parses to its value, on
    the fast path and on the slow path alike. *)
Lemma Atoi_unsigned (c : ascii) (rest : string) (v : Z) :
  is_sign c = false ->
  atoi_fast_loop (String c rest) 0 = Some v ->
  v <= maxInt ->
  Atoi (String c rest) = (v, None).
Proof.
  intros Hsign Hloop Hv.
  pose proof (@atoi_fast_loop_mono _ _ _ (Z.le_refl 0) Hloop) as H0.
  unfold Atoi.
  destruct ((0 <? String.length (String c rest))%nat
            && (String.length (String c rest) <? 19)%nat).
  - rewrite Hsign, Hloop, (is_sign_false c Hsign). reflexivity.
  - unfold ParseInt, ParseUint. rewrite Hsign, (is_sign_false c Hsign).
    rewrite (@parseUint_loop_fits _ 0 v (Z.le_refl 0) Hloop)
      by (unfold maxInt, maxUint64 in *; lia).
    cbv zeta. simpl negb.
    destruct (Z.leb_spec (2 ^ 63) v) as [H|H]; [unfold maxInt in Hv; lia|].
    simpl andb. cbv iota.
    rewrite wrap_small by (unfold maxInt in *; lia). reflexivity.
Qed.

(** A numeral with a minus sign whose value is within the range of [int]
    parses to its value. *)
Lemma Atoi_negative (c : ascii) (rest : string) (v : Z) :
  atoi_fast_loop (String c rest) 0 = Some v ->
  v <= 2 ^ 63 ->
  Atoi (String "-" (String c rest)) = (- v, None).
Proof.
  intros Hloop Hv.
  pose proof (@atoi_fast_loop_mono _ _ _ (Z.le_refl 0) Hloop) as H0.
  unfold Atoi.
  destruct ((0 <? String.length (String "-" (String c rest)))%nat
            && (String.length (String "-" (String c rest)) <? 19)%nat).
  - change (is_sign "-") with true. cbv iota. rewrite Hloop. reflexivity.
  - unfold ParseInt, ParseUint. change (is_sign "-") with true.
    change (Ascii.eqb "-" "-") with true. cbv iota.
    rewrite (@parseUint_loop_fits _ 0 v (Z.le_refl 0) Hloop)
      by (unfold maxUint64; lia).
    cbv zeta. simpl negb. simpl andb. cbv iota.
    change (Z.pow_pos 2 63) with (2 ^ 63).
    destruct (Z.ltb_spec (2 ^ 63) v) as [H|H]; [lia|].
    rewrite wrap_opp_wrap by lia. reflexivity.
Qed.

Lemma atoi_fast_loop_acc (d : Decimal.uint) :
  forall acc : positive,
    atoi_fast_loop (NilEmpty.string_of_uint d) (Z.pos acc)
    = Some (Z.pos (Pos.of_uint_acc d acc)).
Proof.
  induction d as [|d IH|d IH|d IH|d IH|d IH|d IH|d IH|d IH|d IH|d IH];
    intros acc; [reflexivity|..];
    cbn [NilEmpty.string_of_uint atoi_fast_loop Pos.of_uint_acc];
    match goal with
    | |- context [is_digit ?c] => change (is_digit c) with true
    end; cbv iota; rewrite <- IH; f_equal;
    match goal with
    | |- context [digit_value ?c] =>
        let k := eval vm_compute in (digit_value c) in
        change (digit_value c) with k
    end; lia.
Qed.

Lemma atoi_fast_loop_uint (d : Decimal.uint) :
  atoi_fast_loop (NilEmpty.string_of_uint d) 0 = Some (Z.of_N (Pos.of_uint d)).
Proof.
  induction d as [|d IH|d IH|d IH|d IH|d IH|d IH|d IH|d IH|d IH|d IH];
    [reflexivity | exact IH | ..];
    cbn [NilEmpty.string_of_uint atoi_fast_loop Pos.of_uint];
    match goal with
    | |- context [is_digit ?c] => change (is_digit c) with true
    end; cbv iota; apply atoi_fast_loop_acc.
Qed.

Lemma string_of_uint_head (d : Decimal.uint) :
  d <> Decimal.Nil ->
  exists c rest,
    NilEmpty.string_of_uint d = String c rest /\ is_sign c = false.
Proof.
  destruct d; intros H; [contradiction H; reflexivity|..];
    eexists _, _; split; reflexivity.
Qed.

Lemma Itoa_pos (p : positive) :
  Itoa (Z.pos p) = NilEmpty.string_of_uint (Pos.to_uint p).
Proof.
  unfold Itoa. simpl. unfold NilZero.string_of_uint.
  pose proof (DecimalPos.Unsigned.to_uint_nonnil p) as H.
  destruct (Pos.to_uint p); [contradiction H; reflexivity|..]; reflexivity.
Qed.

Lemma Itoa_neg (p : positive) :
  Itoa (Z.neg p) = String "-" (NilEmpty.string_of_uint (Pos.to_uint p)).
Proof.
  unfold Itoa. simpl. unfold NilZero.string_of_uint.
  pose proof (DecimalPos.Unsigned.to_uint_nonnil p) as H.
  destruct (Pos.to_uint p); [contradiction H; reflexivity|..]; reflexivity.
Qed.

Lemma atoi_fast_loop_to_uint (p : positive) :
  atoi_fast_loop (NilEmpty.string_of_uint (Pos.to_uint p)) 0 = Some (Z.pos p).
Proof.
  rewrite atoi_fast_loop_uint, DecimalPos.Unsigned.of_to. reflexivity.
Qed.

Lemma Itoa_Atoi_nonneg (z : Z) :
  0 <= z <= maxInt -> Atoi (Itoa z) = (z, None).
Proof.
  destruct z as [|p|p]; intros Hz; [reflexivity | | lia].
  rewrite Itoa_pos.
  destruct (@string_of_uint_head (Pos.to_uint p)
              (DecimalPos.Unsigned.to_uint_nonnil p))
    as (c & rest & E & Hsign).
  pose proof (atoi_fast_loop_to_uint p) as Hloop. rewrite E in *.
  apply Atoi_unsigned; [exact Hsign | exact Hloop | lia].
Qed.

Lemma Itoa_Atoi_neg (p : positive) :
  Z.pos p <= 2 ^ 63 -> Atoi (Itoa (Z.neg p)) = (Z.neg p, None).
Proof.
  intros Hp. rewrite Itoa_neg.
  destruct (@string_of_uint_head (Pos.to_uint p)
              (DecimalPos.Unsigned.to_uint_nonnil p))
    as (c & rest & E & Hsign).
  pose proof (atoi_fast_loop_to_uint p) as Hloop. rewrite E in *.
  change (Z.neg p) with (- Z.pos p).
  apply Atoi_negative; [exact Hloop | exact Hp].
Qed.

(** X17 - The payload round trip.  The decimal text [strconv.Itoa] writes
    into a button for an [int] is read back by [strconv.Atoi] as the same
    [int], without an error: the index survives the trip through the
    callback payload, for every 64-bit value. *)
Theorem payload_round_trip :
  forall z : Z, - 2 ^ 63 <= z <= maxInt -> Atoi (Itoa z) = (z, None).
Proof.
  intros z Hz. destruct (Z_lt_le_dec z 0) as [Hneg|Hpos].
  - destruct z as [|p|p]; try lia.
    apply Itoa_Atoi_neg.
    assert (H : - Z.pos p = Z.neg p) by reflexivity. lia.
  - apply Itoa_Atoi_nonneg. lia.
Qed.

Lemma payload_round_trip_witness :
  Atoi (Itoa 9223372036854775807) = (9223372036854775807, None)
  /\ Atoi (Itoa (-42)) = (-42, None).
Proof.
  split; apply payload_round_trip; unfold maxInt; lia.
Defined.

(* ================================================================== *)
(** * Variant 1: the branches of the dispatch *)
(* ================================================================== *)

Lemma dispatch1_start (u : Celebration.Update) :
  Celebration.Message_Text (Celebration.Update_Message u) = "/start" ->
  emits (Celebration.dispatch u)
        [ start_post
            (Celebration.Chat_Id (Celebration.Message_Chat (Celebration.Update_Message u)))
            msg_welcome ]
        (fun _ => True).
Proof.
  intros Hs. unfold Celebration.dispatch. rewrite Hs, String.eqb_refl.
  eapply emits_bind; [| intros ? _; apply emits_log | symmetry; apply app_nil_r].
  eapply emits_bind;
    [apply sendStartTextMessage_emits | intros [? e] _ | reflexivity].
  apply log_outcome1_emits.
Qed.

Lemma dispatch1_stranger (u : Celebration.Update) :
  Celebration.Message_Text (Celebration.Update_Message u) <> "/start" ->
  Celebration.isAllowed
    (Celebration.User_Username
       (Celebration.CallbackQuerry_From (Celebration.Update_CallbackQuerry u)))
  = false ->
  emits (Celebration.dispatch u) [] (fun _ => True).
Proof.
  intros Hs Hal. unfold Celebration.dispatch.
  apply String.eqb_neq in Hs. rewrite Hs, Hal.
  eapply emits_bind with (P := fun _ => True);
    [apply emits_ret; exact I | intros ? _; apply emits_log | reflexivity].
Qed.

Lemma dispatch1_in_range (u : Celebration.Update) :
  let cb := Celebration.Update_CallbackQuerry u in
  let original := Celebration.CallbackQuerry_Message cb in
  let p := fst (Atoi (Celebration.CallbackQuerry_Data cb)) in
  let len := Z.of_nat (List.length Celebration.CELEBRATIONS) in
  Celebration.Message_Text (Celebration.Update_Message u) <> "/start" ->
  Celebration.isAllowed
    (Celebration.User_Username (Celebration.CallbackQuerry_From cb)) = true ->
  0 <= p < len ->
  emits (Celebration.dispatch u)
        [ edit_post (Celebration.Chat_Id (Celebration.Message_Chat original))
            (Celebration.Message_Id original)
            (nth (Z.to_nat p) Celebration.CELEBRATIONS "")
            (Itoa (Celebration.next_index len p)) ]
        (fun _ => True).
Proof.
  intros cb original p len Hs Hal Hp net tr.
  rewrite (dispatch1_click u Hs Hal). fold cb original p.
  revert net tr.
  eapply emits_bind;
    [| intros ? _; apply emits_log | symmetry; apply app_nil_r].
  eapply emits_bind;
    [| intros [? e] _; apply log_outcome1_emits | symmetry; apply app_nil_r].
  apply sendCelebrateMessage_emits. exact Hp.
Qed.

Lemma handler1_run
  (json_Decode : string -> Celebration.Update -> Celebration.Update * option error)
  (body : string) (u : Celebration.Update)
  (p : list (Endpoint * Values)) (net : Transport) :
  json_Decode body Celebration.Update_zero = (u, None) ->
  Celebration.UpdateId u <> 0 ->
  emits (Celebration.dispatch u) p (fun _ => True) ->
  returned (Celebration.HandleTelegramWebHook json_Decode body net []) = Some tt
  /\ calls_of (Celebration.HandleTelegramWebHook json_Decode body) net = p.
Proof.
  intros Hdec Hid He. unfold calls_of.
  rewrite (handler1_parsed json_Decode body Hdec Hid).
  apply (emits_run He net).
Qed.

(** X18 - Variant 1 welcomes everybody: a parsed update whose message text
    is [/start] gets exactly one call, the welcome text to the chat of the
    message with the one-button keyboard whose payload is the index 0.
    No allow-list is consulted, and a callback carried by the same update
    is ignored. *)
Theorem start_attaches_the_first_button :
  forall (json_Decode : string -> Celebration.Update -> Celebration.Update * option error)
         (body : string) (u : Celebration.Update) (net : Transport),
    json_Decode body Celebration.Update_zero = (u, None) ->
    Celebration.UpdateId u <> 0 ->
    Celebration.Message_Text (Celebration.Update_Message u) = "/start" ->
    returned (Celebration.HandleTelegramWebHook json_Decode body net []) = Some tt
    /\ calls_of (Celebration.HandleTelegramWebHook json_Decode body) net
       = [ (telegramApiSend,
            [ ("chat_id",
               Str (Itoa (Celebration.Chat_Id
                            (Celebration.Message_Chat
                               (Celebration.Update_Message u)))));
              ("text",
               Str "Привет, нажимай на кнопку получить поздравление и кайфуй!");
              ("reply_markup",
               Marshal [ [ {| Go.text := "Получить поздравление";
                              callback_data := "0" |} ] ]) ]) ].
Proof.
  intros json_Decode body u net Hdec Hid Hs.
  apply (@handler1_run json_Decode body u _ net Hdec Hid).
  apply dispatch1_start. exact Hs.
Qed.

Lemma start_attaches_the_first_button_witness :
  calls_of (Celebration.HandleTelegramWebHook
              (Samples1b.decode_as Samples1b.start) "{}") net_ok
  = [ start_post 42 msg_welcome ].
Proof.
  apply (@start_attaches_the_first_button
           (Samples1b.decode_as Samples1b.start) "{}" Samples1b.start net_ok).
  - reflexivity.
  - simpl. lia.
  - reflexivity.
Defined.

Lemma isAllowed1_range_In (users : list string) (e : string) :
  Celebration.isAllowed_range users e = true <-> In e users.
Proof.
  induction users as [|a rest IH]; simpl.
  - split; [discriminate | contradiction].
  - destruct (String.eqb_spec a e) as [->|Hne].
    + split; auto.
    + rewrite IH. split; [auto | intros [E|H]; [contradiction | exact H]].
Qed.

(** X19 - In variant 1 a click of somebody who is not one of the three
    allowed users does nothing: whatever the payload is, also one that
    would index outside the phrase list, the handler returns without a
    call. *)
Theorem stranger_click_is_ignored :
  forall (json_Decode : string -> Celebration.Update -> Celebration.Update * option error)
         (body : string) (u : Celebration.Update) (net : Transport),
    json_Decode body Celebration.Update_zero = (u, None) ->
    Celebration.UpdateId u <> 0 ->
    Celebration.Message_Text (Celebration.Update_Message u) <> "/start" ->
    ~ In (Celebration.User_Username
            (Celebration.CallbackQuerry_From (Celebration.Update_CallbackQuerry u)))
         [ "antonhulikau"; "okalitova"; "maffina95" ] ->
    returned (Celebration.HandleTelegramWebHook json_Decode body net []) = Some tt
    /\ calls_of (Celebration.HandleTelegramWebHook json_Decode body) net = [].
Proof.
  intros json_Decode body u net Hdec Hid Hs Hout.
  apply (@handler1_run json_Decode body u _ net Hdec Hid).
  apply dispatch1_stranger; [exact Hs|].
  destruct (Celebration.isAllowed _) eqn:E; [|reflexivity].
  apply isAllowed1_range_In in E. contradiction.
Qed.

Lemma stranger_click_is_ignored_witness :
  returned (Celebration.HandleTelegramWebHook
              (Samples1b.decode_as (Samples1b.stranger_click "7")) "{}" net_ok [])
    = Some tt
  /\ calls_of (Celebration.HandleTelegramWebHook
                 (Samples1b.decode_as (Samples1b.stranger_click "7")) "{}") net_ok
     = [].
Proof.
  apply (@stranger_click_is_ignored
           (Samples1b.decode_as (Samples1b.stranger_click "7")) "{}"
           (Samples1b.stranger_click "7") net_ok).
  - reflexivity.
  - simpl. lia.
  - simpl. discriminate.
  - simpl. intros [E|[E|[E|[]]]]; discriminate E.
Defined.

(** X20 - In variant 1 a click of an allowed user whose payload parses to
    an index of the phrase list is answered by exactly one edit: it is
    addressed to the chat and the message the button was attached to (the
    message inside the callback, not the update's own message), shows the
    phrase at that index, and re-attaches the button with the next
    index. *)
Theorem click_edits_the_message_of_the_button :
  forall (json_Decode : string -> Celebration.Update -> Celebration.Update * option error)
         (body : string) (u : Celebration.Update) (net : Transport),
    json_Decode body Celebration.Update_zero = (u, None) ->
    Celebration.UpdateId u <> 0 ->
    let cb := Celebration.Update_CallbackQuerry u in
    let original := Celebration.CallbackQuerry_Message cb in
    let p := fst (Atoi (Celebration.CallbackQuerry_Data cb)) in
    let len := Z.of_nat (List.length Celebration.CELEBRATIONS) in
    Celebration.Message_Text (Celebration.Update_Message u) <> "/start" ->
    Celebration.isAllowed
      (Celebration.User_Username (Celebration.CallbackQuerry_From cb)) = true ->
    0 <= p < len ->
    returned (Celebration.HandleTelegramWebHook json_Decode body net []) = Some tt
    /\ calls_of (Celebration.HandleTelegramWebHook json_Decode body) net
       = [ (telegramApiEdit,
            [ ("chat_id",
               Str (Itoa (Celebration.Chat_Id (Celebration.Message_Chat original))));
              ("message_id", Str (Itoa (Celebration.Message_Id original)));
              ("text", Str (nth (Z.to_nat p) Celebration.CELEBRATIONS ""));
              ("reply_markup",
               Marshal [ [ {| Go.text := "Получить поздравление";
                              callback_data := Itoa ((p + 1) mod len) |} ] ]) ]) ].
Proof.
  intros json_Decode body u net Hdec Hid cb original p len Hs Hal Hp.
  rewrite <- (@next_index_mod len p) by (unfold maxInt; simpl in *; lia).
  apply (@handler1_run json_Decode body u _ net Hdec Hid).
  apply dispatch1_in_range; assumption.
Qed.

Lemma click_edits_the_message_of_the_button_witness :
  calls_of (Celebration.HandleTelegramWebHook Samples1.decode "click:+00") net_ok
  = [ edit_post 42 9 (nth 0 Celebration.CELEBRATIONS "") "0" ].
Proof.
  apply (@click_edits_the_message_of_the_button
           Samples1.decode "click:+00" (Samples1.click "+00") net_ok).
  - reflexivity.
  - simpl. lia.
  - simpl. discriminate.
  - reflexivity.
  - change (0 <= 0 < 1). lia.
Defined.

(** X21 - Where variant 1 panics, exactly: for a parsed update the handler
    panics if and only if the text is not [/start], the clicking user is
    allowed, and the index parsed from the payload is negative or not
    below the length of the phrase list. *)
Theorem celebration_panics_exactly_out_of_range :
  forall (json_Decode : string -> Celebration.Update -> Celebration.Update * option error)
         (body : string) (u : Celebration.Update) (net : Transport),
    json_Decode body Celebration.Update_zero = (u, None) ->
    Celebration.UpdateId u <> 0 ->
    let cb := Celebration.Update_CallbackQuerry u in
    let p := fst (Atoi (Celebration.CallbackQuerry_Data cb)) in
    let len := Z.of_nat (List.length Celebration.CELEBRATIONS) in
    panicked (Celebration.HandleTelegramWebHook json_Decode body net []) = true
    <-> (Celebration.Message_Text (Celebration.Update_Message u) <> "/start"
         /\ Celebration.isAllowed
              (Celebration.User_Username (Celebration.CallbackQuerry_From cb))
            = true
         /\ (p < 0 \/ len <= p)).
Proof.
  intros json_Decode body u net Hdec Hid cb p len. split.
  - intros Hpanic.
    rewrite (handler1_parsed json_Decode body Hdec Hid) in Hpanic.
    destruct (String.eqb_spec
                (Celebration.Message_Text (Celebration.Update_Message u)) "/start")
      as [Es|Es].
    + rewrite (@dispatch1_never_panics u (or_introl Es)) in Hpanic. discriminate.
    + destruct (Celebration.isAllowed
                  (Celebration.User_Username (Celebration.CallbackQuerry_From cb)))
        eqn:Hal.
      * destruct (Z_lt_dec p 0) as [Hneg|Hnn]; [auto|].
        destruct (Z_le_dec len p) as [Hbig|Hsm]; [auto|].
        assert (Hin : 0 <= p < len) by lia.
        rewrite (@dispatch1_never_panics u (or_intror (or_intror Hin))) in Hpanic.
        discriminate.
      * rewrite (@dispatch1_never_panics u (or_intror (or_introl Hal))) in Hpanic.
        discriminate.
  - intros (Hs & Hal & Hp).
    apply (@click_out_of_range_panics json_Decode body u net Hdec Hid Hs Hal Hp).
Qed.

Lemma celebration_panics_exactly_out_of_range_witness :
  panicked (Celebration.HandleTelegramWebHook Samples1.decode "click:-1" net_ok [])
  = true.
Proof.
  apply (@celebration_panics_exactly_out_of_range
           Samples1.decode "click:-1" (Samples1.click "-1") net_ok).
  - reflexivity.
  - simpl. lia.
  - split; [simpl; discriminate|]. split; [reflexivity|]. left.
    change (-1 < 0). lia.
Defined.

Lemma next_index_in_range (len p : Z) :
  len <= maxInt -> 0 <= p < len ->
  0 <= Celebration.next_index len p < len.
Proof.
  intros Hmax Hp. rewrite next_index_mod by assumption.
  apply Z.mod_pos_bound. lia.
Qed.

(** X22 - The bot can always handle its own buttons.  The payload of the
    button attached by [/start], and the payload of the button re-attached
    by the edit for any index of the phrase list, parse back to an index
    of the phrase list: a click of an allowed user on such a button never
    panics, and is answered by exactly one edit whose button is again of
    this kind. *)
Theorem own_buttons_never_panic :
  forall (json_Decode : string -> Celebration.Update -> Celebration.Update * option error)
         (body : string) (u : Celebration.Update) (net : Transport),
    json_Decode body Celebration.Update_zero = (u, None) ->
    Celebration.UpdateId u <> 0 ->
    let cb := Celebration.Update_CallbackQuerry u in
    let original := Celebration.CallbackQuerry_Message cb in
    let len := Z.of_nat (List.length Celebration.CELEBRATIONS) in
    Celebration.Message_Text (Celebration.Update_Message u) <> "/start" ->
    Celebration.isAllowed
      (Celebration.User_Username (Celebration.CallbackQuerry_From cb)) = true ->
    (Celebration.CallbackQuerry_Data cb = "0"
     \/ exists q, 0 <= q < len
                  /\ Celebration.CallbackQuerry_Data cb
                     = Itoa (Celebration.next_index len q)) ->
    returned (Celebration.HandleTelegramWebHook json_Decode body net []) = Some tt
    /\ exists p, 0 <= p < len
         /\ Atoi (Celebration.CallbackQuerry_Data cb) = (p, None)
         /\ calls_of (Celebration.HandleTelegramWebHook json_Decode body) net
            = [ edit_post (Celebration.Chat_Id (Celebration.Message_Chat original))
                  (Celebration.Message_Id original)
                  (nth (Z.to_nat p) Celebration.CELEBRATIONS "")
                  (Itoa (Celebration.next_index len p)) ].
Proof.
  intros json_Decode body u net Hdec Hid cb original len Hs Hal Hdata.
  assert (Hlen : len <= maxInt) by (unfold len, maxInt; simpl; lia).
  assert (Hp : exists p, 0 <= p < len
                         /\ Atoi (Celebration.CallbackQuerry_Data cb) = (p, None)).
  { destruct Hdata as [E|(q & Hq & E)]; rewrite E.
    - exists 0. split; [unfold len; simpl; lia | reflexivity].
    - pose proof (next_index_in_range Hlen Hq) as Hn.
      exists (Celebration.next_index len q). split; [exact Hn|].
      apply Itoa_Atoi_nonneg. unfold maxInt in *. lia. }
  destruct Hp as (p & Hp & Hatoi).
  assert (Hfst : 0 <= fst (Atoi (Celebration.CallbackQuerry_Data cb)) < len)
    by (rewrite Hatoi; exact Hp).
  destruct (@handler1_run json_Decode body u _ net Hdec Hid
              (@dispatch1_in_range u Hs Hal Hfst)) as [Hr Hc].
  split; [exact Hr|]. exists p. split; [exact Hp|]. split; [exact Hatoi|].
  rewrite Hc. fold cb original len. rewrite Hatoi. reflexivity.
Qed.

Lemma own_buttons_never_panic_witness :
  returned (Celebration.HandleTelegramWebHook Samples1.decode "click:0" net_ok [])
  = Some tt.
Proof.
  apply (@own_buttons_never_panic
           Samples1.decode "click:0" (Samples1.click "0") net_ok).
  - reflexivity.
  - simpl. lia.
  - simpl. discriminate.
  - reflexivity.
  - left. reflexivity.
Defined.

(** X23 - Variant 1 does not let the transport steer it either: on every
    request body and with every decoder, whether the handler panics and
    which calls it makes are the same on any two transports. *)
Theorem celebration_calls_ignore_the_transport :
  forall (json_Decode : string -> Celebration.Update -> Celebration.Update * option error)
         (body : string) (net1 net2 : Transport),
    panicked (Celebration.HandleTelegramWebHook json_Decode body net1 [])
      = panicked (Celebration.HandleTelegramWebHook json_Decode body net2 [])
    /\ calls_of (Celebration.HandleTelegramWebHook json_Decode body) net1
       = calls_of (Celebration.HandleTelegramWebHook json_Decode body) net2.
Proof.
  intros json_Decode body net1 net2.
  destruct (json_Decode body Celebration.Update_zero) as [u [e|]] eqn:Hdec.
  - unfold calls_of, Celebration.HandleTelegramWebHook,
      Celebration.parseTelegramRequest, bind. rewrite Hdec. split; reflexivity.
  - destruct (Z.eq_dec (Celebration.UpdateId u) 0) as [Hz|Hid].
    + unfold calls_of, Celebration.HandleTelegramWebHook,
        Celebration.parseTelegramRequest, bind. rewrite Hdec, Hz.
      split; reflexivity.
    + assert (Hemits : forall p,
                emits (Celebration.dispatch u) p (fun _ => True) ->
                panicked (Celebration.HandleTelegramWebHook json_Decode body net1 [])
                = panicked (Celebration.HandleTelegramWebHook json_Decode body net2 [])
                /\ calls_of (Celebration.HandleTelegramWebHook json_Decode body) net1
                   = calls_of (Celebration.HandleTelegramWebHook json_Decode body) net2).
      { intros p He.
        destruct (@handler1_run json_Decode body u p net1 Hdec Hid He) as [R1 C1].
        destruct (@handler1_run json_Decode body u p net2 Hdec Hid He) as [R2 C2].
        rewrite C1, C2. split; [|reflexivity].
        destruct (Celebration.HandleTelegramWebHook json_Decode body net1 []);
          destruct (Celebration.HandleTelegramWebHook json_Decode body net2 []);
          simpl in *; congruence. }
      destruct (String.eqb_spec
                  (Celebration.Message_Text (Celebration.Update_Message u)) "/start")
        as [Es|Es]; [eapply Hemits; apply dispatch1_start; exact Es|].
      destruct (Celebration.isAllowed
                  (Celebration.User_Username
                     (Celebration.CallbackQuerry_From
                        (Celebration.Update_CallbackQuerry u)))) eqn:Hal;
        [| eapply Hemits; apply dispatch1_stranger; assumption].
      set (p := fst (Atoi (Celebration.CallbackQuerry_Data
                             (Celebration.Update_CallbackQuerry u)))).
      destruct (Z_lt_dec p 0) as [Hneg|Hnn];
        [| destruct (Z_le_dec (Z.of_nat (List.length Celebration.CELEBRATIONS)) p)
             as [Hbig|Hsm]].
      * destruct (@click_out_of_range_panics json_Decode body u net1 Hdec Hid Es Hal
                    (or_introl Hneg)) as [P1 C1].
        destruct (@click_out_of_range_panics json_Decode body u net2 Hdec Hid Es Hal
                    (or_introl Hneg)) as [P2 C2].
        rewrite P1, P2, C1, C2. auto.
      * destruct (@click_out_of_range_panics json_Decode body u net1 Hdec Hid Es Hal
                    (or_intror Hbig)) as [P1 C1].
        destruct (@click_out_of_range_panics json_Decode body u net2 Hdec Hid Es Hal
                    (or_intror Hbig)) as [P2 C2].
        rewrite P1, P2, C1, C2. auto.
      * eapply Hemits. apply dispatch1_in_range; [exact Es | exact Hal |].
        fold p. lia.
Qed.

(* ================================================================== *)
(** * What the handlers never send *)
(* ================================================================== *)

Lemma text_post_shape (chatId : Z) (text : string) :
  fst (text_post chatId text) = telegramApiSend
  /\ addressee (text_post chatId text) = Some (Str (Itoa chatId)).
Proof. split; reflexivity. Qed.

(** X24 - Variant 2 never edits a message, writes to nobody but the chat
    of the message and the supervisor chat, and gives coordinates away
    only from its own list and only to the chat that asked: every call of
    the handler is a send-text or a send-location addressed to one of the
    two chats, and every send-location carries a candidate of the static
    list and goes to the chat of the message. *)
Theorem treasure_calls_stay_between_user_and_supervisor :
  forall (json_Decode : string -> Treasure.Update -> Treasure.Update * option error)
         (strings_ToLower : string -> string)
         (body : string) (u : Treasure.Update) (net : Transport)
         (x : Endpoint * Values),
    json_Decode body Treasure.Update_zero = (u, None) ->
    Treasure.UpdateId u <> 0 ->
    let chat := Treasure.Chat_Id (Treasure.Message_Chat (Treasure.Update_Message u)) in
    In x (calls_of (Treasure.HandleTelegramWebHook json_Decode strings_ToLower body)
                   net) ->
    (addressee x = Some (Str (Itoa chat))
     \/ addressee x = Some (Str (Itoa 49208041)))
    /\ ((fst x = telegramApiSend /\ exists c text, x = text_post c text)
        \/ (fst x = telegramApiSendLocation
            /\ exists l, In l Treasure.LOCATIONS /\ x = location_post chat l)).
Proof.
  intros json_Decode strings_ToLower body u net x Hdec Hid chat Hin.
  destruct (@handler2_run json_Decode strings_ToLower body u _ net Hdec Hid
              (dispatch2_replies strings_ToLower u)) as [_ Hc].
  rewrite Hc in Hin. clear Hc. unfold replies2 in Hin. cbv zeta in Hin.
  fold chat in Hin.
  assert (Htext : forall c text,
             c = chat \/ c = 49208041 ->
             x = text_post c text ->
             (addressee x = Some (Str (Itoa chat))
              \/ addressee x = Some (Str (Itoa 49208041)))
             /\ ((fst x = telegramApiSend /\ exists c text, x = text_post c text)
                 \/ (fst x = telegramApiSendLocation
                     /\ exists l, In l Treasure.LOCATIONS
                                  /\ x = location_post chat l))).
  { intros c text Hcwho ->. split.
    - destruct Hcwho as [->| ->]; [left | right]; reflexivity.
    - left. split; [reflexivity|]. eexists _, _. reflexivity. }
  destruct (negb _); [contradiction|].
  destruct (String.eqb _ "/start").
  { destruct Hin as [<-|[<-|[]]]; (eapply Htext; [| reflexivity]; first [left; reflexivity | right; reflexivity]). }
  destruct (String.eqb _ "/unlock").
  { destruct Hin as [<-|[]]; (eapply Htext; [| reflexivity]; first [left; reflexivity | right; reflexivity]). }
  destruct (String.eqb _ "afsio").
  { destruct Hin as [<-|[<-|[]]]; (eapply Htext; [| reflexivity]; first [left; reflexivity | right; reflexivity]). }
  destruct (Rgt_dec _ 0).
  2:{ destruct Hin as [<-|[<-|[]]]; (eapply Htext; [| reflexivity]; first [left; reflexivity | right; reflexivity]). }
  apply geofence_hits in Hin as [->|([t l] & Hcand & _ & Hx)].
  - (eapply Htext; [| reflexivity]; first [left; reflexivity | right; reflexivity]).
  - destruct Hx as [<-|[<-|[<-|[]]]]; try (eapply Htext; [| reflexivity]; first [left; reflexivity | right; reflexivity]).
    split; [left; reflexivity|]. right. split; [reflexivity|].
    exists l. split; [|reflexivity].
    destruct candidates_enumerated as (_ & _ & <-).
    apply (in_map snd) in Hcand. exact Hcand.
Qed.

Lemma treasure_calls_stay_between_user_and_supervisor_witness :
  addressee (location_post 42 Samples2.ducks) = Some (Str (Itoa 42))
  \/ addressee (location_post 42 Samples2.ducks) = Some (Str (Itoa 49208041)).
Proof.
  apply (@treasure_calls_stay_between_user_and_supervisor
           (Samples2.decode_as (Samples2.message "" Samples2.ducks))
           ascii_ToLower "{}" (Samples2.message "" Samples2.ducks) net_ok
           (location_post 42 Samples2.ducks)).
  - reflexivity.
  - simpl. lia.
  - assert (Hn : near Samples2.ducks (2, Samples2.ducks) = true)
      by (apply near_true_iff; simpl; rewrite Distance_self; lra).
    assert (Hc : In (2, Samples2.ducks) candidates)
      by (unfold candidates; simpl; right; right; left; reflexivity).
    assert (He : emits (Treasure.dispatch ascii_ToLower
                          (Samples2.message "" Samples2.ducks))
                       (geofence_posts 42 Samples2.ducks) (fun _ => True)).
    { apply (@dispatch2_geofence ascii_ToLower (Samples2.message "" Samples2.ducks));
        simpl; first [reflexivity | discriminate | lra]. }
    destruct (@handler2_run
                (Samples2.decode_as (Samples2.message "" Samples2.ducks))
                ascii_ToLower "{}" (Samples2.message "" Samples2.ducks)
                _ net_ok eq_refl ltac:(simpl; lia) He) as [_ Hcalls].
    rewrite Hcalls.
    apply (@geofence_triggers 42 Samples2.ducks (2, Samples2.ducks)); auto.
    simpl. auto.
Defined.

(** X25 - The two allow-lists, exactly: variant 1 lets three user names
    click, variant 2 lets two chat user names talk, by equality of
    strings and nothing else (no other name, no other spelling, not the
    empty name), and only [antonhulikau] is on both. *)
Theorem allow_lists_are_exact :
  forall e : string,
    (Celebration.isAllowed e = true
     <-> e = "antonhulikau" \/ e = "okalitova" \/ e = "maffina95")
    /\ (Treasure.isAllowed e = true
        <-> e = "antonhulikau" \/ e = "sonicfelidae")
    /\ (Celebration.isAllowed e = true /\ Treasure.isAllowed e = true
        <-> e = "antonhulikau").
Proof.
  intros e.
  assert (H1 : Celebration.isAllowed e = true
               <-> e = "antonhulikau" \/ e = "okalitova" \/ e = "maffina95").
  { unfold Celebration.isAllowed. rewrite isAllowed1_range_In. simpl.
    intuition congruence. }
  assert (H2 : Treasure.isAllowed e = true
               <-> e = "antonhulikau" \/ e = "sonicfelidae").
  { unfold Treasure.isAllowed. rewrite isAllowed2_range_In. simpl.
    intuition congruence. }
  split; [exact H1|]. split; [exact H2|].
  rewrite H1, H2. split.
  - intros [[E|[E|E]] [E'|E']]; subst; try reflexivity; discriminate.
  - intros ->. auto.
Qed.
